(** * Waukesha County parcel viewer: filtering, proximity, truncation, bounds

    A shallow embedding of [streamlit_app.py].  Numbers are IEEE binary64
    values ([float], as Python's), text is [string], a pandas null in a text
    column is [None].  GeoDataFrames are objects in a store, referred to by
    location, because [filter_parcels] copies, slices and finally mutates
    frames; Streamlit calls are recorded in an event log.  The geometry
    library (shapely, pyproj, geopandas) and Python's float formatting are not
    part of the repository: they are interfaces ([GeoBackend], [PyFormat]),
    and every result below holds for all their implementations. *)

From Stdlib Require Import Floats ZArith NArith Lia Ascii String.
From stdpp Require Import base list strings pretty sorting.

Set Warnings "-inexact-float".
Set Default Proof Using "Type*".

(* ================================================================== *)
(** * Part I: the program *)
(* ================================================================== *)

(** ** Text *)

Module Text.

(** ASCII letters are the only cased characters of the model. *)
Definition lower_char (c : ascii) : ascii :=
  let n := N_of_ascii c in
  if ((65 <=? n) && (n <=? 90))%N then ascii_of_N (n + 32) else c.

Fixpoint lower (s : string) : string :=
  match s with
  | EmptyString => EmptyString
  | String c s' => String (lower_char c) (lower s')
  end.

Fixpoint starts_with (p s : string) : bool :=
  match p, s with
  | EmptyString, _ => true
  | String a p', String b s' => Ascii.eqb a b && starts_with p' s'
  | String _ _, EmptyString => false
  end.

(** [contains p s]: Python's [p in s]. *)
Fixpoint contains (p s : string) : bool :=
  starts_with p s ||
  match s with
  | EmptyString => false
  | String _ s' => contains p s'
  end.

(** Case-insensitive containment: [p.lower() in s.lower()]. *)
Definition icontains (p s : string) : bool := contains (lower p) (lower s).

(** Python truthiness of a [str]. *)
Definition truthy (s : string) : bool :=
  match s with EmptyString => false | String _ _ => true end.

(** [s.isascii()]: every character is below 128.  Python folds case and
    compares by code point over all of Unicode; on ASCII text that is the
    folding and the character-wise comparison above. *)
Fixpoint isascii (s : string) : bool :=
  match s with
  | EmptyString => true
  | String c s' => (N_of_ascii c <? 128)%N && isascii s'
  end.

End Text.

(** ** Regular expressions: the fragment of Python's [re] that is modelled

    [Series.str.contains(pat, case=False, na=False)] leaves [regex] at its
    default [True]: the pattern is compiled by [re] with [IGNORECASE] and each
    value is searched with it.  The model covers patterns made of ordinary
    characters and the dot; a pattern with any other special character is
    outside the fragment ([re_compile] gives [None]). *)

Module Re.

Inductive atom : Type :=
| Lit (c : ascii)
| AnyChar.

Definition regex : Type := list atom.

Definition special_chars : list ascii :=
  list_ascii_of_string "\^$*+?{}[]|()".

Definition is_special (c : ascii) : bool :=
  existsb (Ascii.eqb c) special_chars.

Fixpoint re_compile (pat : string) : option regex :=
  match pat with
  | EmptyString => Some []
  | String c p =>
      if Ascii.eqb c "."%char then
        match re_compile p with Some r => Some (AnyChar :: r) | None => None end
      else if is_special c then None
      else
        match re_compile p with Some r => Some (Lit c :: r) | None => None end
  end.

Definition newline : ascii := "010"%char.

(** One atom against one character, under [IGNORECASE]; the dot matches
    everything but a newline.  Characters are bytes and only ASCII letters
    are folded: this is Python's matching on ASCII text ([Text.isascii]),
    not on text with other characters. *)
Definition atom_match (a : atom) (c : ascii) : bool :=
  match a with
  | Lit x => Ascii.eqb (Text.lower_char x) (Text.lower_char c)
  | AnyChar => negb (Ascii.eqb c newline)
  end.

Fixpoint match_here (r : regex) (s : string) : bool :=
  match r, s with
  | [], _ => true
  | a :: r', String c s' => atom_match a c && match_here r' s'
  | _ :: _, EmptyString => false
  end.

(** [re.search]: a match starting at some position. *)
Fixpoint search (r : regex) (s : string) : bool :=
  match_here r s ||
  match s with
  | EmptyString => false
  | String _ s' => search r s'
  end.

(** A pattern without special characters. *)
Definition plain (pat : string) : bool :=
  forallb (fun c => negb (Ascii.eqb c "."%char) && negb (is_special c))
          (list_ascii_of_string pat).

End Re.

(** ** Numbers *)

Module Num.

Definition fle (x y : float) : Prop := (x <=? y)%float = true.
Definition flt (x y : float) : Prop := (x <? y)%float = true.

(** Python truthiness of a [float]: zero (of either sign) is falsy, every
    other value, NaN included, is truthy. *)
Definition truthy (x : float) : bool := negb (x =? 0)%float.

(** [Series.between(lo, hi, inclusive='both')] on one value. *)
Definition between (lo hi x : float) : bool :=
  ((lo <=? x) && (x <=? hi))%float.

(** [math.isfinite(x)]: neither an infinity nor NaN. *)
Definition finite (x : float) : bool := (abs x <? infinity)%float.

End Num.

(** ** The libraries the program calls *)

Inductive CRS : Type :=
| EPSG4326    (** geographic WGS84 *)
| EPSG32616.  (** UTM zone 16N, metres *)

(** [total_bounds] is [(minx, miny, maxx, maxy)]. *)
Definition Bounds : Type := (float * float * float * float)%type.

Class GeoBackend : Type := {
  geom : Type;
  (** [shapely.geometry.Point(x, y)] *)
  Point : float -> float -> geom;
  (** reprojection of one geometry, as [to_crs] applies it *)
  transform : CRS -> CRS -> geom -> geom;
  (** [g.buffer(distance)] for a finite distance ([Num.finite]): around a
      point, the disc of that radius.  For a distance that is not finite
      the library raises [ValueError], which this field does not express. *)
  buffer : geom -> float -> geom;
  (** [g.intersects(other)]: the two share a point, boundaries included *)
  intersects : geom -> geom -> bool;
  (** [GeoDataFrame.total_bounds] over the geometry column *)
  total_bounds : list geom -> Bounds;
  (** [g.centroid], as [(x, y)] *)
  centroid : geom -> float * float
}.

(** How an f-string renders a float ([float.__str__]). *)
Class PyFormat : Type := {
  float_str : float -> string
}.

(** ** Objects and exceptions *)

(** A location in the store of GeoDataFrame objects. *)
Definition loc : Type := nat.

Inductive exn : Type :=
| ReOutsideFragment (pat : string)
    (** the owner pattern leaves the modelled fragment of [re] *)
| NaiveGeometries
    (** [to_crs] on a frame without CRS: [ValueError] *)
| NoSuchObject (l : loc).

Inductive res (A : Type) : Type :=
| Ok (a : A)
| Raise (e : exn).
Arguments Ok {A} a.
Arguments Raise {A} e.

(** ** Data model *)

Section Model.

Context `{GB : GeoBackend} `{PF : PyFormat}.

(** One row of the parcel frame: the ten columns [load_parcels] keeps, and
    the [popup_content] column [filter_parcels] adds ([None] while the frame
    has no such column). *)
Record Row : Type := {
  OWNERNME1 : option string;
  PLACENAME : option string;
  ZIPCODE : option string;
  SCHOOLDIST : option string;
  ESTFMKVALU : float;
  PSTLADRESS : option string;
  SITEADRESS : option string;
  GISACRES : float;
  URL : option string;
  geometry : geom;
  popup_content : option string
}.

Definition set_geometry (g : geom) (r : Row) : Row :=
  {| OWNERNME1 := OWNERNME1 r; PLACENAME := PLACENAME r; ZIPCODE := ZIPCODE r;
     SCHOOLDIST := SCHOOLDIST r; ESTFMKVALU := ESTFMKVALU r;
     PSTLADRESS := PSTLADRESS r; SITEADRESS := SITEADRESS r;
     GISACRES := GISACRES r; URL := URL r; geometry := g;
     popup_content := popup_content r |}.

Definition set_popup_content (p : string) (r : Row) : Row :=
  {| OWNERNME1 := OWNERNME1 r; PLACENAME := PLACENAME r; ZIPCODE := ZIPCODE r;
     SCHOOLDIST := SCHOOLDIST r; ESTFMKVALU := ESTFMKVALU r;
     PSTLADRESS := PSTLADRESS r; SITEADRESS := SITEADRESS r;
     GISACRES := GISACRES r; URL := URL r; geometry := geometry r;
     popup_content := Some p |}.

(** The nine columns the table shows (lines 270 and 273): a record without
    its geometry and popup text. *)
Record TableRow : Type := {
  t_owner : option string;
  t_place : option string;
  t_zip : option string;
  t_school : option string;
  t_value : float;
  t_postal : option string;
  t_site : option string;
  t_acres : float;
  t_url : option string
}.

Definition table_row (r : Row) : TableRow :=
  {| t_owner := OWNERNME1 r; t_place := PLACENAME r; t_zip := ZIPCODE r;
     t_school := SCHOOLDIST r; t_value := ESTFMKVALU r;
     t_postal := PSTLADRESS r; t_site := SITEADRESS r;
     t_acres := GISACRES r; t_url := URL r |}.

(** A GeoDataFrame: its CRS ([None] for a frame without one, such as
    [gpd.GeoDataFrame()]) and its rows, in order. *)
Record GeoDataFrame : Type := {
  crs : option CRS;
  rows : list Row
}.

(** [df.empty] *)
Definition empty (df : GeoDataFrame) : bool :=
  match rows df with [] => true | _ :: _ => false end.

(** [[[south, west], [north, east]]], as [fit_bounds] takes it. *)
Definition MapBounds : Type := ((float * float) * (float * float))%type.

Inductive Layer : Type :=
| GeoJson (features : list Row)
| Marker (location : float * float) (popup : option string)
| LayerControl.

Record FoliumMap : Type := {
  location : float * float;
  zoom_start : Z;
  max_zoom : Z;
  fitted : option MapBounds;
  layers : list Layer
}.

Inductive Metric : Type := MGISACRES | MESTFMKVALU.

(** What the page shows, in order. *)
Inductive UiEvent : Type :=
| StTitle (s : string)
| StError (s : string)
| StWarning (s : string)
| StWrite (s : string)
| SidebarWrite (s : string)
| ComponentsHtml (m : FoliumMap)
| StTable (t : list TableRow)
| PlotlyHistogram (metric : Metric) (xs : list float).

(** [st.session_state].  A key that is not yet set is represented by the
    value lines 215-222 give it. *)
Record SessionState : Type := {
  filtered_gdf : option loc;
  map_bounds : option MapBounds;
  map_file : option string;
  map_truncated : bool
}.

Record World : Type := {
  heap : list GeoDataFrame;
  ui : list UiEvent;
  session : SessionState;
  files : list (string * FoliumMap)
}.

Definition with_heap (h : list GeoDataFrame) (w : World) : World :=
  {| heap := h; ui := ui w; session := session w; files := files w |}.
Definition with_ui (u : list UiEvent) (w : World) : World :=
  {| heap := heap w; ui := u; session := session w; files := files w |}.
Definition with_session (s : SessionState) (w : World) : World :=
  {| heap := heap w; ui := ui w; session := s; files := files w |}.
Definition with_files (f : list (string * FoliumMap)) (w : World) : World :=
  {| heap := heap w; ui := ui w; session := session w; files := f |}.

(** ** Computations: store, log and exceptions *)

Definition M (A : Type) : Type := World -> res A * World.

Definition ret {A} (a : A) : M A := fun w => (Ok a, w).

Definition bind {A B} (m : M A) (k : A -> M B) : M B :=
  fun w =>
    match m w with
    | (Ok a, w') => k a w'
    | (Raise e, w') => (Raise e, w')
    end.

Definition raise {A} (e : exn) : M A := fun w => (Raise e, w).

Definition get_session : M SessionState := fun w => (Ok (session w), w).
Definition put_session (s : SessionState) : M unit :=
  fun w => (Ok tt, with_session s w).
Definition emit (e : UiEvent) : M unit :=
  fun w => (Ok tt, with_ui (ui w ++ [e]) w).

(** A new object gets the next free location. *)
Definition alloc (df : GeoDataFrame) : M loc :=
  fun w => (Ok (length (heap w)), with_heap (heap w ++ [df]) w).

Definition deref (l : loc) : M GeoDataFrame :=
  fun w =>
    match heap w !! l with
    | Some df => (Ok df, w)
    | None => (Raise (NoSuchObject l), w)
    end.

(** In-place update of the object at [l]. *)
Definition store (l : loc) (df : GeoDataFrame) : M unit :=
  fun w => (Ok tt, with_heap (<[l := df]> (heap w)) w).

End Model.

Declare Scope py_scope.
Delimit Scope py_scope with py.
Notation "x <- m ;; k" := (bind m (fun x => k))
  (at level 100, m at next level, right associativity) : py_scope.
Notation "m ;;; k" := (bind m (fun _ => k))
  (at level 100, right associativity) : py_scope.

(** ** pandas and geopandas operations, as the program uses them *)

Section Program.

Context `{GB : GeoBackend} `{PF : PyFormat}.

Local Open Scope py_scope.

(** [df[name]]: one column, as the list of its values in row order. *)
Definition col {A} (f : Row -> A) (l : loc) : M (list A) :=
  df <- deref l ;; ret (map f (rows df)).

(** [s.between(lo, hi, inclusive='both')] *)
Definition between (xs : list float) (lo hi : float) : list bool :=
  map (Num.between lo hi) xs.

(** [s.str.contains(pat, case=False, na=False)]: the pattern is compiled
    once, a null value gives [False]. *)
Definition str_contains (xs : list (option string)) (pat : string)
  : M (list bool) :=
  match Re.re_compile pat with
  | Some r =>
      ret (map (fun o => match o with
                         | Some s => Re.search r s
                         | None => false
                         end) xs)
  | None => raise (ReOutsideFragment pat)
  end.

(** [s.isin(values)] *)
Definition isin (xs : list (option string)) (values : list string)
  : list bool :=
  map (fun o => match o with
                | Some v => existsb (String.eqb v) values
                | None => false
                end) xs.

(** [mask &= other] *)
Definition mask_and (mask other : list bool) : list bool :=
  zip_with andb mask other.

Fixpoint select {A} (mask : list bool) (xs : list A) : list A :=
  match mask, xs with
  | b :: mask', x :: xs' =>
      if b then x :: select mask' xs' else select mask' xs'
  | _, _ => []
  end.

(** [df.copy()] *)
Definition copy (l : loc) : M loc :=
  df <- deref l ;; alloc df.

(** [df[mask]]: a new frame with the rows whose mask entry is true. *)
Definition getitem_mask (l : loc) (mask : list bool) : M loc :=
  df <- deref l ;;
  alloc {| crs := crs df; rows := select mask (rows df) |}.

(** [df.to_crs(target)]: a new frame with every geometry reprojected. *)
Definition to_crs (l : loc) (target : CRS) : M loc :=
  df <- deref l ;;
  match crs df with
  | Some c =>
      alloc {| crs := Some target;
               rows := map (fun r =>
                              set_geometry (transform c target (geometry r)) r)
                           (rows df) |}
  | None => raise NaiveGeometries
  end.

(** [gpd.GeoDataFrame()] *)
Definition GeoDataFrame_new : M loc :=
  alloc {| crs := None; rows := [] |}.

(** [df['popup_content'] = df.apply(f, axis=1)]: the frame at [l] itself
    is updated. *)
Definition setitem_popup_content (l : loc) (f : Row -> string) : M unit :=
  df <- deref l ;;
  store l {| crs := crs df;
             rows := map (fun r => set_popup_content (f r) r) (rows df) |}.

(** How an f-string renders a text cell: a null cell prints as [None]. *)
Definition text_str (o : option string) : string :=
  match o with Some s => s | None => "None" end.

Definition list_truthy {A} (l : list A) : bool :=
  match l with [] => false | _ :: _ => true end.

(** ** [filter_parcels] (lines 40-85) *)

(** The lambda of lines 72-82. *)
Definition popup_text (row : Row) : string :=
  match URL row with
  | Some url =>
      "Owner: " +:+ text_str (OWNERNME1 row) +:+ "<br>" +:+
      "Acres: " +:+ float_str (GISACRES row) +:+ "<br>" +:+
      "Market Value: " +:+ float_str (ESTFMKVALU row) +:+ "<br>" +:+
      "Tax Site: <a href='" +:+ url +:+ "' target='_blank'>Link to Tax Site</a>"
  | None =>
      "Owner: " +:+ text_str (OWNERNME1 row) +:+ "<br>" +:+
      "Acres: " +:+ float_str (GISACRES row) +:+ "<br>" +:+
      "Market Value: " +:+ float_str (ESTFMKVALU row) +:+ "<br>" +:+
      "Tax Site: No URL available"
  end.

(** [if lat and lon and distance_miles]: the three values when each is
    supplied and truthy. *)
Definition proximity_query (lat lon distance_miles : option float)
  : option (float * float * float) :=
  match lat, lon, distance_miles with
  | Some la, Some lo, Some d =>
      if Num.truthy la && Num.truthy lo && Num.truthy d
      then Some (la, lo, d) else None
  | _, _, _ => None
  end.

(** [42.0 <= lat <= 44.0 and -89.0 <= lon <= -87.0] *)
Definition in_region (lat lon : float) : bool :=
  ((42.0 <=? lat) && (lat <=? 44.0) && (-89.0 <=? lon) && (lon <=? -87.0))%float.

Definition utm_crs : CRS := EPSG32616.

Definition out_of_range_message : string :=
  "Coordinates out of valid range for Waukesha County.".

(** Lines 71-85. *)
Definition add_popups (filtered : loc) : M loc :=
  setitem_popup_content filtered popup_text ;;;
  ret filtered.

(** Lines 41-55: the attribute predicates. *)
Definition attribute_filter (gdf : loc) (acres_min acres_max : float)
    (owner_name : string) (placenames zipcodes schooldists : list string)
    (estfmkvalu_min estfmkvalu_max : option float) : M loc :=
  filtered <- copy gdf ;;
  acres <- col GISACRES filtered ;;
  let mask := between acres acres_min acres_max in
  mask <- (if Text.truthy owner_name then
             owners <- col OWNERNME1 filtered ;;
             m <- str_contains owners owner_name ;;
             ret (mask_and mask m)
           else ret mask) ;;
  mask <- (if list_truthy placenames then
             places <- col PLACENAME filtered ;;
             ret (mask_and mask (isin places placenames))
           else ret mask) ;;
  mask <- (if list_truthy zipcodes then
             zips <- col ZIPCODE filtered ;;
             ret (mask_and mask (isin zips zipcodes))
           else ret mask) ;;
  mask <- (if list_truthy schooldists then
             dists <- col SCHOOLDIST filtered ;;
             ret (mask_and mask (isin dists schooldists))
           else ret mask) ;;
  mask <- match estfmkvalu_min, estfmkvalu_max with
          | Some lo, Some hi =>
              values <- col ESTFMKVALU filtered ;;
              ret (mask_and mask (between values lo hi))
          | _, _ => ret mask
          end ;;
  getitem_mask filtered mask.

Definition filter_parcels (gdf : loc) (acres_min acres_max : float)
    (owner_name : string) (placenames zipcodes schooldists : list string)
    (estfmkvalu_min estfmkvalu_max : option float)
    (lat lon distance_miles : option float) : M loc :=
  filtered <- attribute_filter gdf acres_min acres_max owner_name
                placenames zipcodes schooldists
                estfmkvalu_min estfmkvalu_max ;;
  match proximity_query lat lon distance_miles with
  | Some (lat, lon, distance_miles) =>
      if negb (in_region lat lon) then
        emit (StError out_of_range_message) ;;;
        GeoDataFrame_new
      else
        let point := Point lon lat in
        (* the one-row [point_gdf] is a local object: only its geometry
           is kept *)
        let point_utm := transform EPSG4326 utm_crs point in
        filtered <- to_crs filtered utm_crs ;;
        let distance_meters := (distance_miles * 1609.34)%float in
        let buffered_point := buffer point_utm distance_meters in
        geoms <- col geometry filtered ;;
        filtered <- getitem_mask filtered
                      (map (fun g => intersects g buffered_point) geoms) ;;
        filtered <- to_crs filtered EPSG4326 ;;
        add_popups filtered
  | None => add_popups filtered
  end.

End Program.

(** ** Map generation and the page *)

Section Page.

Context `{GB : GeoBackend} `{PF : PyFormat}.

Local Open Scope py_scope.

(** [folium.Map(location=[43.0111125, -88.2275077], zoom_start=10,
    max_zoom=22)] *)
Definition base_map : FoliumMap :=
  {| location := (43.0111125, -88.2275077)%float;
     zoom_start := 10; max_zoom := 22;
     fitted := None; layers := [] |}.

Definition fit_bounds (b : MapBounds) (m : FoliumMap) : FoliumMap :=
  {| location := location m; zoom_start := zoom_start m;
     max_zoom := max_zoom m; fitted := Some b; layers := layers m |}.

Definition add_to (x : Layer) (m : FoliumMap) : FoliumMap :=
  {| location := location m; zoom_start := zoom_start m;
     max_zoom := max_zoom m; fitted := fitted m;
     layers := layers m ++ [x] |}.

(** [m.save(name)] *)
Definition save (name : string) (m : FoliumMap) : M unit :=
  fun w =>
    (Ok tt,
     with_files ((name, m) ::
                 List.filter (fun f => negb (String.eqb name (fst f))) (files w))
                w).

(** The content of a file, if it exists ([os.path.exists], [open]). *)
Definition read_file (name : string) : M (option FoliumMap) :=
  fun w =>
    (Ok (snd <$> List.find (fun f => String.eqb name (fst f)) (files w)), w).

(** One marker per row, at the centroid (lines 125-131).  The popup is the
    row's [popup_content], for a frame that has the column ([has_popups]);
    on a frame without it the library raises [KeyError], which the model
    does not express. *)
Definition marker_of (row : Row) : Layer :=
  let c := centroid (geometry row) in
  Marker (snd c, fst c) (popup_content row).

(** Lines 88-136. *)
Definition generate_map_html (filtered_gdf : option loc)
    (map_bounds : option MapBounds) : M (string * bool) :=
  let m := base_map in
  let m := match map_bounds with
           | Some b => fit_bounds b m
           | None => m
           end in
  mt <- match filtered_gdf with
        | Some l =>
            df <- deref l ;;
            if negb (empty df) then
              let '(geojson_data, map_truncated) :=
                if (1000 <? length (rows df))%nat
                then (take 1000 (rows df), true)
                else (rows df, false) in
              let m := add_to (GeoJson geojson_data) m in
              let m := if (length (rows df) <? 200)%nat
                       then fold_left (fun m row => add_to (marker_of row) m)
                                      (rows df) m
                       else m in
              ret (m, map_truncated)
            else ret (m, false)
        | None => ret (m, false)
        end ;;
  let m := add_to LayerControl (fst mt) in
  let map_file := "temp_map.html" in
  save map_file m ;;;
  ret (map_file, snd mt).

(** What the sidebar form delivers on one run of the page.  The option
    lists of the widgets only restrict which values can be entered. *)
Record FormInput : Type := {
  acres_range : float * float;
  owner_input : string;
  zipcode_select : list string;
  placename_select : list string;
  schooldist_select : list string;
  value_range : float * float;
  use_distance : bool;
  lat_input : float;
  lon_input : float;
  distance_slider : float;
  apply_filters : bool;
  reset_filters : bool
}.

Definition reset_session : SessionState :=
  {| filtered_gdf := None; map_bounds := None; map_file := None;
     map_truncated := false |}.

(** Lines 139-191. *)
Definition apply_filters_from_form (gdf : loc) (inp : FormInput)
  : M (option loc) :=
  let '(acres_min, acres_max) := acres_range inp in
  let '(estfmkvalu_min_val, estfmkvalu_max_val) := value_range inp in
  let '(lat, lon, distance_miles) :=
    if use_distance inp
    then (Some (lat_input inp), Some (lon_input inp), Some (distance_slider inp))
    else (None, None, None) in
  if apply_filters inp then
    l <- filter_parcels gdf acres_min acres_max (owner_input inp)
           (placename_select inp) (zipcode_select inp) (schooldist_select inp)
           (Some estfmkvalu_min_val) (Some estfmkvalu_max_val)
           lat lon distance_miles ;;
    ret (Some l)
  else if reset_filters inp then
    put_session reset_session ;;;
    ret None
  else ret None.

Definition set_filtered_gdf (v : option loc) (s : SessionState) :=
  {| filtered_gdf := v; map_bounds := map_bounds s;
     map_file := map_file s; map_truncated := map_truncated s |}.
Definition set_map_bounds (v : option MapBounds) (s : SessionState) :=
  {| filtered_gdf := filtered_gdf s; map_bounds := v;
     map_file := map_file s; map_truncated := map_truncated s |}.
Definition set_map_file (v : option string) (s : SessionState) :=
  {| filtered_gdf := filtered_gdf s; map_bounds := map_bounds s;
     map_file := v; map_truncated := map_truncated s |}.
Definition set_map_truncated (v : bool) (s : SessionState) :=
  {| filtered_gdf := filtered_gdf s; map_bounds := map_bounds s;
     map_file := map_file s; map_truncated := v |}.

Definition modify_session (f : SessionState -> SessionState) : M unit :=
  s <- get_session ;; put_session (f s).

(** Lines 230-237: the padded bounds of a result. *)
Definition padded_bounds (geoms : list geom) : MapBounds :=
  let '(b0, b1, b2, b3) := total_bounds geoms in
  let buffer_factor := 0.1%float in
  let width := (b2 - b0)%float in
  let height := (b3 - b1)%float in
  ((b1 - height * buffer_factor, b0 - width * buffer_factor),
   (b3 + height * buffer_factor, b2 + width * buffer_factor))%float.

(** Lines 226-243: a new result replaces the one in the session. *)
Definition main_store_result (filtered_gdf : option loc) : M unit :=
  match filtered_gdf with
  | Some l =>
      modify_session (set_filtered_gdf (Some l)) ;;;
      df <- deref l ;;
      if negb (empty df) then
        modify_session
          (set_map_bounds (Some (padded_bounds (map geometry (rows df))))) ;;;
        s <- get_session ;;
        ft <- generate_map_html (Some l) (map_bounds s) ;;
        modify_session (fun s => set_map_truncated (snd ft)
                                   (set_map_file (Some (fst ft)) s))
      else
        emit (StWarning "No parcels match your filters.") ;;;
        modify_session (fun s => set_map_truncated false
                                   (set_map_file None (set_map_bounds None s)))
  | None => ret tt
  end.

(** Lines 246-248. *)
Definition main_update_map : M unit :=
  s <- get_session ;;
  match filtered_gdf s with
  | Some l =>
      df <- deref l ;;
      if negb (empty df) then
        ft <- generate_map_html (Some l) (map_bounds s) ;;
        modify_session (fun s => set_map_truncated (snd ft)
                                   (set_map_file (Some (fst ft)) s))
      else ret tt
  | None => ret tt
  end.

Definition map_truncated_message : string :=
  "Map truncated: Only the first 1000 parcels are displayed.".
Definition table_truncated_message : string :=
  "Table truncated: Only the first 1000 parcels are shown.".

Definition show_default_map : M unit :=
  let default_map := base_map in
  save "default_map.html" default_map ;;;
  content <- read_file "default_map.html" ;;
  match content with
  | Some m => emit (ComponentsHtml m)
  | None => ret tt
  end.

(** Lines 251-260. *)
Definition main_display_map : M unit :=
  s <- get_session ;;
  match map_file s with
  | Some name =>
      if Text.truthy name then
        content <- read_file name ;;
        match content with
        | Some m =>
            emit (ComponentsHtml m) ;;;
            if map_truncated s then emit (StWarning map_truncated_message)
            else ret tt
        | None => show_default_map
        end
      else show_default_map
  | None => show_default_map
  end.

Definition metric_column (metric : Metric) (row : Row) : float :=
  match metric with
  | MGISACRES => GISACRES row
  | MESTFMKVALU => ESTFMKVALU row
  end.

(** Lines 263-291. *)
Definition main_display_results (metric : Metric) : M unit :=
  s <- get_session ;;
  match filtered_gdf s with
  | Some l =>
      df <- deref l ;;
      emit (SidebarWrite ("Showing " +:+ pretty (length (rows df)) +:+ " parcels")) ;;;
      if negb (empty df) then
        emit (StWrite "### Filtered Parcels") ;;;
        (if (1000 <? length (rows df))%nat then
           emit (StTable (take 1000 (map table_row (rows df)))) ;;;
           emit (StWarning table_truncated_message)
         else
           emit (StTable (map table_row (rows df)))) ;;;
        emit (StWrite "### Parcel Distribution") ;;;
        emit (PlotlyHistogram metric (map (metric_column metric) (rows df)))
      else ret tt
  | None => ret tt
  end.

(** Lines 226-291: everything [main] does once the form has been
    evaluated. *)
Definition main_after_filter (filtered_gdf : option loc) (metric : Metric)
  : M unit :=
  main_store_result filtered_gdf ;;;
  main_update_map ;;;
  main_display_map ;;;
  main_display_results metric.

(** Lines 200-291, for a dataset that [load_parcels] has delivered at
    [gdf]. *)
Definition main (gdf : loc) (inp : FormInput) (metric : Metric) : M unit :=
  emit (StTitle "Waukesha County Parcel Viewer") ;;;
  filtered_gdf <- apply_filters_from_form gdf inp ;;
  main_after_filter filtered_gdf metric.

End Page.

(* ================================================================== *)
(** * Part II: the specification's vocabulary *)
(* ================================================================== *)

(** The FilterCriteria value object; the arguments of [filter_parcels]. *)
Record FilterCriteria : Type := {
  c_acres_min : float;
  c_acres_max : float;
  c_owner : string;
  c_placenames : list string;
  c_zipcodes : list string;
  c_schooldists : list string;
  c_value_min : option float;
  c_value_max : option float;
  c_lat : option float;
  c_lon : option float;
  c_radius : option float
}.

Section Spec.

Context `{GB : GeoBackend} `{PF : PyFormat}.

Definition predicate_filter (gdf : loc) (c : FilterCriteria) : M loc :=
  attribute_filter gdf (c_acres_min c) (c_acres_max c) (c_owner c)
    (c_placenames c) (c_zipcodes c) (c_schooldists c)
    (c_value_min c) (c_value_max c).

Definition filter_by (gdf : loc) (c : FilterCriteria) : M loc :=
  filter_parcels gdf (c_acres_min c) (c_acres_max c) (c_owner c)
    (c_placenames c) (c_zipcodes c) (c_schooldists c)
    (c_value_min c) (c_value_max c) (c_lat c) (c_lon c) (c_radius c).

(** The owner pattern is inside the modelled fragment of [re]. *)
Definition owner_ok (pat : string) : bool :=
  match Re.re_compile pat with Some _ => true | None => false end.

(** *** The clauses of the Predicate Filter *)

Definition acreage_clause (c : FilterCriteria) (r : Row) : bool :=
  Num.between (c_acres_min c) (c_acres_max c) (GISACRES r).

Definition owner_matches (pat : string) (name : option string) : bool :=
  match Re.re_compile pat, name with
  | Some re, Some s => Re.search re s
  | _, _ => false
  end.

Definition owner_clause (c : FilterCriteria) (r : Row) : bool :=
  if Text.truthy (c_owner c) then owner_matches (c_owner c) (OWNERNME1 r)
  else true.

Definition member (values : list string) (v : option string) : bool :=
  match v with
  | Some x => existsb (String.eqb x) values
  | None => false
  end.

(** An empty set imposes no restriction. *)
Definition set_clause (values : list string) (v : option string) : bool :=
  match values with
  | [] => true
  | _ :: _ => member values v
  end.

Definition value_clause (c : FilterCriteria) (r : Row) : bool :=
  match c_value_min c, c_value_max c with
  | Some lo, Some hi => Num.between lo hi (ESTFMKVALU r)
  | _, _ => true
  end.

(** The conjunction of the active clauses. *)
Definition satisfies (c : FilterCriteria) (r : Row) : bool :=
  acreage_clause c r && owner_clause c r &&
  set_clause (c_placenames c) (PLACENAME r) &&
  set_clause (c_zipcodes c) (ZIPCODE r) &&
  set_clause (c_schooldists c) (SCHOOLDIST r) &&
  value_clause c r.

Definition with_popup (r : Row) : Row :=
  set_popup_content (popup_text r) r.

Definition reproject (src dst : CRS) (r : Row) : Row :=
  set_geometry (transform src dst (geometry r)) r.

(** *** The Spatial Proximity Filter, in the specification's words

    Reproject the query point and the subset into the planar CRS, build the
    buffer of radius [radius_miles * 1609.34] metres around the projected
    point, retain the candidates that intersect it, reproject them back to
    WGS84. *)
Definition spatial_proximity_filter (src : CRS) (subset : list Row)
    (lat lon radius_miles : float) : list Row :=
  let planar := EPSG32616 in
  let centre := transform EPSG4326 planar (Point lon lat) in
  let disc := buffer centre (radius_miles * 1609.34)%float in
  let candidates := map (reproject src planar) subset in
  let retained :=
    List.filter (fun r => intersects (geometry r) disc) candidates in
  map (reproject planar EPSG4326) retained.

(** *** The frames one call produces *)

(** The frame the attribute predicates select from [D]. *)
Definition selected (D : GeoDataFrame) (c : FilterCriteria) : GeoDataFrame :=
  {| crs := crs D; rows := List.filter (satisfies c) (rows D) |}.

(** The proximity stage on a frame whose CRS is [src]. *)
Definition located (src : CRS) (F : GeoDataFrame) (lat lon radius_miles : float)
  : GeoDataFrame :=
  {| crs := Some EPSG4326;
     rows := spatial_proximity_filter src (rows F) lat lon radius_miles |}.

Definition annotated (F : GeoDataFrame) : GeoDataFrame :=
  {| crs := crs F; rows := map with_popup (rows F) |}.

Definition empty_frame : GeoDataFrame := {| crs := None; rows := [] |}.

(** The frame a call returns and the events it adds to the page, as a
    function of the dataset and the criteria; [None] when the dataset has
    no CRS and the proximity stage is reached. *)
Definition filter_result (D : GeoDataFrame) (c : FilterCriteria)
  : option (GeoDataFrame * list UiEvent) :=
  match proximity_query (c_lat c) (c_lon c) (c_radius c) with
  | None => Some (annotated (selected D c), [])
  | Some (lat, lon, radius) =>
      if in_region lat lon then
        match crs D with
        | Some src =>
            Some (annotated (located src (selected D c) lat lon radius), [])
        | None => None
        end
      else Some (empty_frame, [StError out_of_range_message])
  end.

(** The object a finished call returned. *)
Definition result_of (run : res loc * World) : option GeoDataFrame :=
  match run with
  | (Ok l, w) => heap w !! l
  | (Raise _, _) => None
  end.

(** The popup text before its "Tax Site" part. *)
Definition popup_head (row : Row) : string :=
  "Owner: " +:+ text_str (OWNERNME1 row) +:+ "<br>" +:+
  "Acres: " +:+ float_str (GISACRES row) +:+ "<br>" +:+
  "Market Value: " +:+ float_str (ESTFMKVALU row) +:+ "<br>".

(** Every row of a returned frame carries the text computed from its own
    columns. *)
Definition popups_present (F : GeoDataFrame) : Prop :=
  forall r, In r (rows F) -> popup_content r = Some (popup_text r).

(** The records (table rows) of a result. *)
Definition records (F : GeoDataFrame) : list TableRow := map table_row (rows F).

(** *** The page for one result *)

(** The map [generate_map_html] writes for a frame and display bounds. *)
Definition page_map (df : GeoDataFrame) (b : option MapBounds) : FoliumMap :=
  let m := match b with
           | Some b => fit_bounds b base_map
           | None => base_map
           end in
  let m :=
    if negb (empty df) then
      let m := add_to (GeoJson (if (1000 <? length (rows df))%nat
                                then take 1000 (rows df) else rows df)) m in
      if (length (rows df) <? 200)%nat
      then fold_left (fun m row => add_to (marker_of row) m) (rows df) m
      else m
    else m in
  add_to LayerControl m.

Definition truncated (df : GeoDataFrame) : bool :=
  (1000 <? length (rows df))%nat.

Definition count_line (df : GeoDataFrame) : string :=
  "Showing " +:+ pretty (length (rows df)) +:+ " parcels".

(** What [main] adds to the page for a result [df]. *)
Definition page_events (df : GeoDataFrame) (metric : Metric) : list UiEvent :=
  if negb (empty df) then
    [ComponentsHtml
       (page_map df (Some (padded_bounds (map geometry (rows df)))))] ++
    (if truncated df then [StWarning map_truncated_message] else []) ++
    [SidebarWrite (count_line df); StWrite "### Filtered Parcels"] ++
    (if truncated df
     then [StTable (take 1000 (map table_row (rows df)));
           StWarning table_truncated_message]
     else [StTable (map table_row (rows df))]) ++
    [StWrite "### Parcel Distribution";
     PlotlyHistogram metric (map (metric_column metric) (rows df))]
  else
    [StWarning "No parcels match your filters.";
     ComponentsHtml base_map;
     SidebarWrite (count_line df)].

(** The session after [main] has handled a result [df] stored at [l]. *)
Definition page_session (l : loc) (df : GeoDataFrame) : SessionState :=
  if negb (empty df) then
    {| filtered_gdf := Some l;
       map_bounds := Some (padded_bounds (map geometry (rows df)));
       map_file := Some "temp_map.html";
       map_truncated := truncated df |}
  else
    {| filtered_gdf := Some l; map_bounds := None; map_file := None;
       map_truncated := false |}.

(** *** Display bounds, in the specification's words

    The bounding box grown by [padding * extent] on each of its four
    sides. *)
Definition expand_bbox (padding : float) (b : Bounds) : MapBounds :=
  let '(west, south, east, north) := b in
  let width := (east - west)%float in
  let height := (north - south)%float in
  ((south - height * padding, west - width * padding),
   (north + height * padding, east + width * padding))%float.

(** *** What one run of the page shows *)

Definition shown_maps (evs : list UiEvent) : list FoliumMap :=
  omap (fun e => match e with ComponentsHtml m => Some m | _ => None end) evs.

Definition shown_tables (evs : list UiEvent) : list (list TableRow) :=
  omap (fun e => match e with StTable t => Some t | _ => None end) evs.

Definition shown_counts (evs : list UiEvent) : list string :=
  omap (fun e => match e with SidebarWrite s => Some s | _ => None end) evs.

Definition shown_warnings (evs : list UiEvent) : list string :=
  omap (fun e => match e with StWarning s => Some s | _ => None end) evs.

Definition shown_errors (evs : list UiEvent) : list string :=
  omap (fun e => match e with StError s => Some s | _ => None end) evs.

(** The features a map renders. *)
Definition rendered (m : FoliumMap) : list Row :=
  concat (omap (fun x => match x with GeoJson fs => Some fs | _ => None end)
               (layers m)).

(** The anchor element of a popup. *)
Definition link_to (url : string) : string :=
  "<a href='" +:+ url +:+ "' target='_blank'>Link to Tax Site</a>".

End Spec.

(** *** One more active restriction *)

Inductive adds_restriction : FilterCriteria -> FilterCriteria -> Prop :=
| add_owner c q :
    c_owner c = "" ->
    adds_restriction c
      {| c_acres_min := c_acres_min c; c_acres_max := c_acres_max c;
         c_owner := q;
         c_placenames := c_placenames c; c_zipcodes := c_zipcodes c;
         c_schooldists := c_schooldists c;
         c_value_min := c_value_min c; c_value_max := c_value_max c;
         c_lat := c_lat c; c_lon := c_lon c; c_radius := c_radius c |}
| add_placenames c vs :
    c_placenames c = [] ->
    adds_restriction c
      {| c_acres_min := c_acres_min c; c_acres_max := c_acres_max c;
         c_owner := c_owner c;
         c_placenames := vs; c_zipcodes := c_zipcodes c;
         c_schooldists := c_schooldists c;
         c_value_min := c_value_min c; c_value_max := c_value_max c;
         c_lat := c_lat c; c_lon := c_lon c; c_radius := c_radius c |}
| add_zipcodes c vs :
    c_zipcodes c = [] ->
    adds_restriction c
      {| c_acres_min := c_acres_min c; c_acres_max := c_acres_max c;
         c_owner := c_owner c;
         c_placenames := c_placenames c; c_zipcodes := vs;
         c_schooldists := c_schooldists c;
         c_value_min := c_value_min c; c_value_max := c_value_max c;
         c_lat := c_lat c; c_lon := c_lon c; c_radius := c_radius c |}
| add_schooldists c vs :
    c_schooldists c = [] ->
    adds_restriction c
      {| c_acres_min := c_acres_min c; c_acres_max := c_acres_max c;
         c_owner := c_owner c;
         c_placenames := c_placenames c; c_zipcodes := c_zipcodes c;
         c_schooldists := vs;
         c_value_min := c_value_min c; c_value_max := c_value_max c;
         c_lat := c_lat c; c_lon := c_lon c; c_radius := c_radius c |}
| add_value_range c lo hi :
    c_value_min c = None \/ c_value_max c = None ->
    adds_restriction c
      {| c_acres_min := c_acres_min c; c_acres_max := c_acres_max c;
         c_owner := c_owner c;
         c_placenames := c_placenames c; c_zipcodes := c_zipcodes c;
         c_schooldists := c_schooldists c;
         c_value_min := Some lo; c_value_max := Some hi;
         c_lat := c_lat c; c_lon := c_lon c; c_radius := c_radius c |}
| add_proximity c lat lon radius :
    c_lat c = None \/ c_lon c = None \/ c_radius c = None ->
    adds_restriction c
      {| c_acres_min := c_acres_min c; c_acres_max := c_acres_max c;
         c_owner := c_owner c;
         c_placenames := c_placenames c; c_zipcodes := c_zipcodes c;
         c_schooldists := c_schooldists c;
         c_value_min := c_value_min c; c_value_max := c_value_max c;
         c_lat := Some lat; c_lon := Some lon; c_radius := Some radius |}.

(* ================================================================== *)
(** * Part III: one implementation of the libraries, and sample data *)
(* ================================================================== *)

(** A small planar geometry: discs (a point is a disc of radius zero) and
    axis-aligned boxes.  Reprojection between WGS84 and the metric CRS is a
    scaling by metres per degree near latitude 43. *)

Module Planar.

Local Open Scope float_scope.

Inductive shape : Type :=
| Disc (x y r : float)
| Box (x0 y0 x1 y1 : float).

Definition scale (kx ky : float) (g : shape) : shape :=
  match g with
  | Disc x y r => Disc (x * kx) (y * ky) r
  | Box x0 y0 x1 y1 => Box (x0 * kx) (y0 * ky) (x1 * kx) (y1 * ky)
  end.

Definition metres_per_degree_lon : float := 81540.
Definition metres_per_degree_lat : float := 111090.

Definition transform (src dst : CRS) (g : shape) : shape :=
  match src, dst with
  | EPSG4326, EPSG32616 => scale metres_per_degree_lon metres_per_degree_lat g
  | EPSG32616, EPSG4326 =>
      scale (1 / metres_per_degree_lon) (1 / metres_per_degree_lat) g
  | _, _ => g
  end.

Definition buffer (g : shape) (d : float) : shape :=
  match g with
  | Disc x y r => Disc x y (r + d)
  | Box x0 y0 x1 y1 => Box (x0 - d) (y0 - d) (x1 + d) (y1 + d)
  end.

Definition clamp (lo hi v : float) : float :=
  if v <? lo then lo else if hi <? v then hi else v.

Definition sq (x : float) : float := x * x.

(** Boundary-inclusive; a disc of negative radius is empty. *)
Definition intersects (a b : shape) : bool :=
  match a, b with
  | Box x0 y0 x1 y1, Disc x y r
  | Disc x y r, Box x0 y0 x1 y1 =>
      (0 <=? r) &&
      (sq (x - clamp x0 x1 x) + sq (y - clamp y0 y1 y) <=? sq r)
  | Disc x y r, Disc x' y' r' =>
      (0 <=? r) && (0 <=? r') &&
      (sq (x - x') + sq (y - y') <=? sq (r + r'))
  | Box x0 y0 x1 y1, Box x0' y0' x1' y1' =>
      (x0 <=? x1') && (x0' <=? x1) && (y0 <=? y1') && (y0' <=? y1)
  end.

Definition bounds (g : shape) : Bounds :=
  match g with
  | Disc x y r => (x - r, y - r, x + r, y + r)
  | Box x0 y0 x1 y1 => (x0, y0, x1, y1)
  end.

Definition fmin (a b : float) : float := if b <? a then b else a.
Definition fmax (a b : float) : float := if a <? b then b else a.

Definition join (b c : Bounds) : Bounds :=
  let '(b0, b1, b2, b3) := b in
  let '(c0, c1, c2, c3) := c in
  (fmin b0 c0, fmin b1 c1, fmax b2 c2, fmax b3 c3).

Definition total_bounds (gs : list shape) : Bounds :=
  match gs with
  | [] => (nan, nan, nan, nan)
  | g :: gs' => fold_left (fun b h => join b (bounds h)) gs' (bounds g)
  end.

Definition centroid (g : shape) : float * float :=
  match g with
  | Disc x y _ => (x, y)
  | Box x0 y0 x1 y1 => ((x0 + x1) / 2, (y0 + y1) / 2)
  end.

(** The exact decimal expansion of a float. *)
Fixpoint zeros (n : nat) : string :=
  match n with
  | O => EmptyString
  | S n' => String "0"%char (zeros n')
  end.

Fixpoint strip_trailing_zeros (s : string) : string :=
  match s with
  | EmptyString => EmptyString
  | String c s' =>
      match strip_trailing_zeros s' with
      | EmptyString =>
          if Ascii.eqb c "0"%char then EmptyString else String c EmptyString
      | t => String c t
      end
  end.

Definition decimal (m : positive) (e : Z) : string :=
  match e with
  | Zneg k =>
      let d := (2 ^ Zpos k)%Z in
      let q := (Zpos m / d)%Z in
      let r := (Zpos m mod d)%Z in
      let digits := pretty (r * 5 ^ Zpos k)%Z in
      let frac :=
        strip_trailing_zeros
          (zeros (Pos.to_nat k - String.length digits) +:+ digits) in
      pretty q +:+ "." +:+
      match frac with EmptyString => "0" | _ => frac end
  | _ => pretty (Zpos m * 2 ^ e)%Z +:+ ".0"
  end.

Definition float_str (x : float) : string :=
  match Prim2SF x with
  | S754_zero s => if s then "-0.0" else "0.0"
  | S754_infinity s => if s then "-inf" else "inf"
  | S754_nan => "nan"
  | S754_finite s m e => (if s then "-" else "") +:+ decimal m e
  end.

End Planar.

Definition planar_backend : GeoBackend := {|
  geom := Planar.shape;
  Point := fun x y => Planar.Disc x y 0;
  transform := Planar.transform;
  buffer := Planar.buffer;
  intersects := Planar.intersects;
  total_bounds := Planar.total_bounds;
  centroid := Planar.centroid
|}.

Definition planar_format : PyFormat := {|
  float_str := Planar.float_str
|}.

(** ** Sample data *)

Section Samples.

#[local] Existing Instance planar_backend.
#[local] Existing Instance planar_format.

Local Open Scope float_scope.

Definition parcel (owner : option string) (place zip school : string)
    (value acres : float) (url : option string) (g : Planar.shape) : Row :=
  {| OWNERNME1 := owner; PLACENAME := Some place; ZIPCODE := Some zip;
     SCHOOLDIST := Some school; ESTFMKVALU := value;
     PSTLADRESS := None; SITEADRESS := None; GISACRES := acres;
     URL := url; geometry := g; popup_content := None |}.

(** In the city, close to the default query point. *)
Definition smith : Row :=
  parcel (Some "SMITH JOHN") "CITY OF WAUKESHA" "53186" "WAUKESHA"
    250000 2.5 (Some "https://tax.example/1")
    (Planar.Box (-88.24) 43.00 (-88.23) 43.01).

(** Some sixteen kilometres to the north, without a URL. *)
Definition jones : Row :=
  parcel (Some "JONES MARY") "TOWN OF LISBON" "53089" "HAMILTON"
    410000 10 None
    (Planar.Box (-88.26) 43.15 (-88.25) 43.16).

(** Without an owner name. *)
Definition unnamed : Row :=
  parcel None "TOWN OF LISBON" "53089" "HAMILTON"
    90000 0.5 None
    (Planar.Box (-88.27) 43.15 (-88.26) 43.16).

Definition sample_frame : GeoDataFrame :=
  {| crs := Some EPSG4326; rows := [smith; jones; unnamed] |}.

Definition world_of (frames : list GeoDataFrame) : World :=
  {| heap := frames; ui := []; session := reset_session; files := [] |}.

Definition sample_world : World := world_of [sample_frame].

(** The form's defaults: every parcel passes. *)
Definition no_restriction : FilterCriteria :=
  {| c_acres_min := 0; c_acres_max := 1000; c_owner := "";
     c_placenames := []; c_zipcodes := []; c_schooldists := [];
     c_value_min := Some 0; c_value_max := Some 1000000000;
     c_lat := None; c_lon := None; c_radius := None |}.

Definition with_proximity (lat lon radius : float) (c : FilterCriteria)
  : FilterCriteria :=
  {| c_acres_min := c_acres_min c; c_acres_max := c_acres_max c;
     c_owner := c_owner c;
     c_placenames := c_placenames c; c_zipcodes := c_zipcodes c;
     c_schooldists := c_schooldists c;
     c_value_min := c_value_min c; c_value_max := c_value_max c;
     c_lat := Some lat; c_lon := Some lon; c_radius := Some radius |}.

Definition with_owner (q : string) (c : FilterCriteria) : FilterCriteria :=
  {| c_acres_min := c_acres_min c; c_acres_max := c_acres_max c;
     c_owner := q;
     c_placenames := c_placenames c; c_zipcodes := c_zipcodes c;
     c_schooldists := c_schooldists c;
     c_value_min := c_value_min c; c_value_max := c_value_max c;
     c_lat := c_lat c; c_lon := c_lon c; c_radius := c_radius c |}.

Definition with_acres (lo hi : float) (c : FilterCriteria) : FilterCriteria :=
  {| c_acres_min := lo; c_acres_max := hi;
     c_owner := c_owner c;
     c_placenames := c_placenames c; c_zipcodes := c_zipcodes c;
     c_schooldists := c_schooldists c;
     c_value_min := c_value_min c; c_value_max := c_value_max c;
     c_lat := c_lat c; c_lon := c_lon c; c_radius := c_radius c |}.

(** Three miles around the default query point. *)
Definition near_centre : FilterCriteria :=
  with_proximity 43.0111125 (-88.2275077) 3 no_restriction.

(** A result above the render cap. *)
Definition large_frame : GeoDataFrame :=
  {| crs := Some EPSG4326; rows := repeat smith 1001 |}.

End Samples.

(* ================================================================== *)
(** * Part III, continued: loading, filter options, clean-up, the form *)
(* ================================================================== *)

(** How [str(e)] renders an exception. *)
Class PyExn : Type := {
  exn_str : exn -> string
}.

(** What [gpd.read_parquet('optimized.parquet')] gives. *)
Inductive ReadOutcome `{GB : GeoBackend} : Type :=
| ReadFrame (df : GeoDataFrame)
| FileNotFound
| ReadFailure (e : exn).

(** The dictionary [get_filter_options] returns. *)
Record FilterOptions : Type := {
  o_zipcodes : list string;
  o_placenames : list string;
  o_schooldists : list string;
  o_estfmkvalu_min : Z;
  o_estfmkvalu_max : Z
}.

(** The order of [str]: by code point, a proper prefix first. *)
Definition str_le (s t : string) : Prop := String.leb s t = true.

#[global] Instance str_le_dec : RelDecision str_le.
Proof. intros s t. unfold str_le. apply _. Defined.

(** [sorted(xs)] on strings.  The order is total and antisymmetric, so the
    sorted list does not depend on the algorithm. *)
Definition sorted (xs : list string) : list string := merge_sort str_le xs.

(** [s.dropna()] *)
Definition dropna (xs : list (option string)) : list string := omap id xs.

(** [s.unique()]: the distinct values, in order of first appearance. *)
Fixpoint unique (xs : list string) : list string :=
  match xs with
  | [] => []
  | x :: xs' => x :: List.filter (fun y => negb (String.eqb x y)) (unique xs')
  end.

(** Lines 30-37. *)
Definition get_filter_options (zipcodes placenames schooldists : list string)
  : FilterOptions :=
  {| o_zipcodes := sorted zipcodes;
     o_placenames := sorted placenames;
     o_schooldists := sorted schooldists;
     o_estfmkvalu_min := 0;
     o_estfmkvalu_max := 1000000000 |}.

Section Startup.

Context `{GB : GeoBackend} `{PF : PyFormat} `{PE : PyExn}.

Local Open Scope py_scope.

(** [try: body except Exception as e: handler(e)] *)
Definition try_except {A} (body : M A) (handler : exn -> M A) : M A :=
  fun w =>
    match body w with
    | (Ok a, w') => (Ok a, w')
    | (Raise e, w') => handler e w'
    end.

Definition data_not_found_message : string :=
  "Parcel data file not found. Please ensure 'optimized.parquet' exists.".

(** [df[[...the ten columns...]]]: a new frame with the same rows. *)
Definition getitem_columns (l : loc) : M loc :=
  df <- deref l ;; alloc df.

(** Lines 15-26, the body under [st.cache_data]. *)
Definition load_parcels (read : ReadOutcome) : M (option loc) :=
  match read with
  | FileNotFound =>
      emit (StError data_not_found_message) ;;;
      ret None
  | ReadFailure e =>
      emit (StError ("Error loading parcel data: " +:+ exn_str e)) ;;;
      ret None
  | ReadFrame df0 =>
      try_except
        (gdf <- alloc df0 ;;
         df <- deref gdf ;;
         gdf <- (match crs df with
                 | Some EPSG4326 => ret gdf
                 | _ => to_crs gdf EPSG4326
                 end) ;;
         l <- getitem_columns gdf ;;
         ret (Some l))
        (fun e =>
           emit (StError ("Error loading parcel data: " +:+ exn_str e)) ;;;
           ret None)
  end.

(** Lines 209-213. *)
Definition main_filter_options (gdf : loc) : M FilterOptions :=
  zips <- col ZIPCODE gdf ;;
  places <- col PLACENAME gdf ;;
  dists <- col SCHOOLDIST gdf ;;
  ret (get_filter_options (unique (dropna zips)) (unique (dropna places))
                          (unique (dropna dists))).

(** [os.path.exists(name)] *)
Definition path_exists (name : string) : M bool :=
  fun w => (Ok (existsb (fun f => String.eqb name (fst f)) (files w)), w).

(** [os.remove(name)] of an existing file. *)
Definition remove (name : string) : M unit :=
  fun w =>
    (Ok tt,
     with_files (List.filter (fun f => negb (String.eqb name (fst f))) (files w))
                w).

(** Lines 194-196. *)
Definition cleanup : M unit :=
  e <- path_exists "temp_map.html" ;;
  if e then remove "temp_map.html" else ret tt.

(** Lines 200-291 with the load: [st.stop()] ends the run when there is no
    dataset. *)
Definition main_with_load (read : ReadOutcome) (inp : FormInput)
    (metric : Metric) : M unit :=
  emit (StTitle "Waukesha County Parcel Viewer") ;;;
  gdf <- load_parcels read ;;
  match gdf with
  | None => ret tt
  | Some gdf =>
      main_filter_options gdf ;;;
      filtered_gdf <- apply_filters_from_form gdf inp ;;
      main_after_filter filtered_gdf metric
  end.

(** *** Vocabulary for the properties of these parts *)

(** The criteria a submitted form stands for. *)
Definition criteria_of_form (inp : FormInput) : FilterCriteria :=
  {| c_acres_min := fst (acres_range inp);
     c_acres_max := snd (acres_range inp);
     c_owner := owner_input inp;
     c_placenames := placename_select inp;
     c_zipcodes := zipcode_select inp;
     c_schooldists := schooldist_select inp;
     c_value_min := Some (fst (value_range inp));
     c_value_max := Some (snd (value_range inp));
     c_lat := if use_distance inp then Some (lat_input inp) else None;
     c_lon := if use_distance inp then Some (lon_input inp) else None;
     c_radius := if use_distance inp then Some (distance_slider inp) else None |}.

(** The content of a file, if it exists. *)
Definition file_content (name : string) (w : World) : option FoliumMap :=
  snd <$> List.find (fun f => String.eqb name (fst f)) (files w).

(** The markers of a map, in order. *)
Definition markers (m : FoliumMap) : list (float * float * option string) :=
  omap (fun x => match x with
                 | Marker p popup => Some (p, popup)
                 | _ => None
                 end) (layers m).

(** The frame has a [popup_content] value in every row, as every frame
    [filter_parcels] returns has. *)
Definition has_popups (df : GeoDataFrame) : bool :=
  forallb (fun r => match popup_content r with
                    | Some _ => true
                    | None => false
                    end) (rows df).

(** The distance handed to [buffer] for the radius of the criteria, if
    there is one, is finite. *)
Definition finite_radius (c : FilterCriteria) : bool :=
  match c_radius c with
  | Some radius_miles => Num.finite (radius_miles * 1609.34)%float
  | None => true
  end.

(** The owner names of the frame are ASCII text. *)
Definition ascii_owners (df : GeoDataFrame) : bool :=
  forallb (fun r => match OWNERNME1 r with
                    | Some s => Text.isascii s
                    | None => true
                    end) (rows df).

(** A missing number. *)
Definition is_nan (x : float) : Prop := (x =? x)%float = false.

(** The session is either clear or describes a result that is in the
    store. *)
Definition session_ok (w : World) : Prop :=
  match filtered_gdf (session w) with
  | None => session w = reset_session
  | Some l => exists df, heap w !! l = Some df /\ session w = page_session l df
  end.

(** The limits the widgets of lines 170-172 put on what they deliver when
    the distance box is ticked: [min_value] and [max_value] of the two
    number inputs, and the range of the slider. *)
Definition within_limits (inp : FormInput) : bool :=
  negb (use_distance inp) ||
  ((42.0 <=? lat_input inp) && (lat_input inp <=? 44.0) &&
   (-89.0 <=? lon_input inp) && (lon_input inp <=? -87.0) &&
   (0.1 <=? distance_slider inp) && (distance_slider inp <=? 20.0))%float.

(** What a run without a new result shows for the result it retains. *)
Definition retained_events (df : GeoDataFrame) (metric : Metric)
  : list UiEvent :=
  if negb (empty df) then page_events df metric
  else [ComponentsHtml base_map; SidebarWrite (count_line df)].

End Startup.

(** ** More sample data *)

Definition sample_exn_text : PyExn := {|
  exn_str := fun e =>
    match e with
    | ReOutsideFragment pat => "bad pattern: " +:+ pat
    | NaiveGeometries =>
        "Cannot transform naive geometries.  Please set a crs on the object first."
    | NoSuchObject _ => "no such object"
    end
|}.

Section MoreSamples.

#[local] Existing Instance planar_backend.
#[local] Existing Instance planar_format.
#[local] Existing Instance sample_exn_text.

Local Open Scope float_scope.

(** The form as it first appears, submitted with "Apply Filters". *)
Definition default_form : FormInput :=
  {| acres_range := (0, 1000); owner_input := "";
     zipcode_select := []; placename_select := []; schooldist_select := [];
     value_range := (0, 1000000000);
     use_distance := false;
     lat_input := 43.0111125; lon_input := -88.2275077; distance_slider := 3;
     apply_filters := true; reset_filters := false |}.

Definition with_buttons (apply reset : bool) (inp : FormInput) : FormInput :=
  {| acres_range := acres_range inp; owner_input := owner_input inp;
     zipcode_select := zipcode_select inp;
     placename_select := placename_select inp;
     schooldist_select := schooldist_select inp;
     value_range := value_range inp;
     use_distance := use_distance inp;
     lat_input := lat_input inp; lon_input := lon_input inp;
     distance_slider := distance_slider inp;
     apply_filters := apply; reset_filters := reset |}.

Definition with_distance (lat lon miles : float) (inp : FormInput) : FormInput :=
  {| acres_range := acres_range inp; owner_input := owner_input inp;
     zipcode_select := zipcode_select inp;
     placename_select := placename_select inp;
     schooldist_select := schooldist_select inp;
     value_range := value_range inp;
     use_distance := true;
     lat_input := lat; lon_input := lon; distance_slider := miles;
     apply_filters := apply_filters inp; reset_filters := reset_filters inp |}.

(** A parcel whose acreage and market value are missing. *)
Definition unvalued : Row :=
  parcel (Some "DOE JANE") "TOWN OF LISBON" "53089" "HAMILTON"
    nan nan None (Planar.Box (-88.28) 43.15 (-88.27) 43.16).

(** The sample frame as a file in the metric CRS would deliver it. *)
Definition metric_frame : GeoDataFrame :=
  {| crs := Some EPSG32616;
     rows := map (reproject EPSG4326 EPSG32616) (rows sample_frame) |}.

(** A world in which the sample result has been shown. *)
Definition shown_world : World :=
  snd (main_after_filter (Some 0%nat) MGISACRES sample_world).

End MoreSamples.

(** Frame conditions: a computation that leaves every object of [h0] alone,
    and whose result, when it returns one, satisfies [Q]. *)
Section Frame.

Context `{GB : GeoBackend} `{PF : PyFormat}.

Definition preserves (h0 : list GeoDataFrame) {A} (m : M A) (Q : A -> Prop)
  : Prop :=
  forall w,
    h0 `prefix_of` heap w ->
    h0 `prefix_of` heap (snd (m w)) /\
    match fst (m w) with
    | Ok a => Q a
    | Raise _ => True
    end.

(** A location allocated after [h0] was captured. *)
Definition fresh_for (h0 : list GeoDataFrame) (l : loc) : Prop :=
  length h0 <= l.

End Frame.

(* ================================================================== *)
(** * Part IV: properties *)
(* ================================================================== *)

(** ** Order of binary64 values *)

Section FloatOrder.

Local Open Scope float_scope.

Lemma SFcompare_refl (s : spec_float) :
  s <> S754_nan -> SFcompare s s = Some Eq.
Proof.
  destruct s as [b|b| |b m e]; cbn; try congruence.
  - destruct b; reflexivity.
  - intros _. rewrite Z.compare_refl.
    change (Pos.compare_cont Eq m m) with (Pos.compare m m).
    rewrite Pos.compare_refl. destruct b; reflexivity.
Qed.

Lemma SFcompare_antisym (s t : spec_float) (c : comparison) :
  SFcompare s t = Some c -> SFcompare t s = Some (CompOpp c).
Proof.
  destruct s as [b1|b1| |b1 m1 e1], t as [b2|b2| |b2 m2 e2]; cbn;
    try discriminate; intros [= <-];
    try (destruct b1; try destruct b2; reflexivity);
    try (destruct b2; reflexivity).
  change (Pos.compare_cont Eq m2 m1) with (Pos.compare m2 m1).
  change (Pos.compare_cont Eq m1 m2) with (Pos.compare m1 m2).
  rewrite (Z.compare_antisym e1 e2), (Pos.compare_antisym m1 m2).
  destruct b1, b2; try reflexivity;
    destruct (e1 ?= e2)%Z; cbn; try reflexivity;
    destruct (m1 ?= m2)%positive; reflexivity.
Qed.

Lemma SFcompare_nan_l (s t : spec_float) (c : comparison) :
  SFcompare s t = Some c -> s <> S754_nan.
Proof. destruct s; cbn; congruence. Qed.

(** A value that is below something is below itself: only NaN is not. *)
Lemma leb_refl_of_leb (x y : float) : (x <=? y) = true -> (x <=? x) = true.
Proof.
  rewrite !FloatAxioms.leb_spec. unfold SFleb.
  destruct (SFcompare (Prim2SF x) (Prim2SF y)) as [c|] eqn:E; [|discriminate].
  intros _. rewrite SFcompare_refl; [reflexivity|].
  exact (SFcompare_nan_l _ _ _ E).
Qed.

Lemma leb_refl_of_geb (x y : float) : (y <=? x) = true -> (x <=? x) = true.
Proof.
  rewrite !FloatAxioms.leb_spec. unfold SFleb.
  destruct (SFcompare (Prim2SF y) (Prim2SF x)) as [c|] eqn:E; [|discriminate].
  intros _. apply SFcompare_antisym in E.
  rewrite SFcompare_refl; [reflexivity|].
  exact (SFcompare_nan_l _ _ _ E).
Qed.

Lemma ltb_leb_false (x y : float) : (x <? y) = true -> (y <=? x) = false.
Proof.
  rewrite FloatAxioms.ltb_spec, FloatAxioms.leb_spec. unfold SFltb, SFleb.
  destruct (SFcompare (Prim2SF x) (Prim2SF y)) as [c|] eqn:E; [|discriminate].
  rewrite (SFcompare_antisym _ _ _ E). destruct c; cbn; congruence.
Qed.

(** Zero does not reach 42, nor stay under -87: a coordinate inside the
    region is truthy. *)
Lemma eqb_zero_inv (x : float) :
  (x =? 0) = true -> exists s, Prim2SF x = S754_zero s.
Proof.
  rewrite FloatAxioms.eqb_spec. unfold SFeqb.
  replace (Prim2SF 0) with (S754_zero false) by (vm_compute; reflexivity).
  destruct (Prim2SF x) as [s|s| |s m e]; cbn; try discriminate.
  - eauto.
  - destruct s; discriminate.
  - destruct s; discriminate.
Qed.

Lemma leb_42_truthy (x : float) : (42.0 <=? x) = true -> Num.truthy x = true.
Proof.
  intros H. unfold Num.truthy. destruct (x =? 0) eqn:E; [|reflexivity].
  apply eqb_zero_inv in E as [s E].
  rewrite FloatAxioms.leb_spec, E in H. vm_compute in H. discriminate.
Qed.

Lemma leb_m87_truthy (x : float) : (x <=? -87.0) = true -> Num.truthy x = true.
Proof.
  intros H. unfold Num.truthy. destruct (x =? 0) eqn:E; [|reflexivity].
  apply eqb_zero_inv in E as [s E].
  rewrite FloatAxioms.leb_spec, E in H. destruct s; vm_compute in H; discriminate.
Qed.

End FloatOrder.

(** ** Text and patterns *)

Section TextFacts.

Lemma starts_with_spec (p s : string) :
  Text.starts_with p s = true <-> exists t, s = p +:+ t.
Proof.
  revert s. induction p as [|a p IH]; intros s; cbn.
  - split; [intros _; exists s; reflexivity | reflexivity].
  - destruct s as [|b s]; cbn.
    + split; [discriminate | intros [t Ht]; discriminate].
    + rewrite andb_true_iff, IH. split.
      * intros [Hab [t ->]]. apply Ascii.eqb_eq in Hab as ->.
        exists t. reflexivity.
      * intros [t [= -> ->]]. split; [apply Ascii.eqb_refl | eauto].
Qed.

(** [Text.contains] is containment as a substring. *)
Lemma contains_spec (p s : string) :
  Text.contains p s = true <-> exists a b, s = a +:+ p +:+ b.
Proof.
  induction s as [|c s IH]; cbn [Text.contains].
  - rewrite orb_false_r, starts_with_spec. split.
    + intros [t Ht]. exists EmptyString, t. exact Ht.
    + intros [a [b Hab]]. destruct a; cbn in Hab; [eauto | discriminate].
  - rewrite orb_true_iff, starts_with_spec, IH. split.
    + intros [[t Ht] | [a [b Hab]]].
      * exists EmptyString, t. exact Ht.
      * exists (String c a), b. rewrite Hab. reflexivity.
    + intros [a [b Hab]]. destruct a as [|c' a]; cbn in Hab.
      * left. eauto.
      * right. injection Hab as -> ->. eauto.
Qed.

Lemma plain_compile (pat : string) :
  Re.plain pat = true ->
  Re.re_compile pat = Some (map Re.Lit (list_ascii_of_string pat)).
Proof.
  unfold Re.plain. induction pat as [|c p IH]; cbn; [reflexivity|].
  rewrite !andb_true_iff, !negb_true_iff. intros [[Hdot Hsp] Hp].
  rewrite Hdot, Hsp, (IH Hp). reflexivity.
Qed.

Lemma match_here_literal (p s : string) :
  Re.match_here (map Re.Lit (list_ascii_of_string p)) s =
  Text.starts_with (Text.lower p) (Text.lower s).
Proof.
  revert s. induction p as [|a p IH]; intros s; cbn.
  - reflexivity.
  - destruct s as [|b s]; cbn; [reflexivity|]. rewrite IH. reflexivity.
Qed.

Lemma search_literal (p s : string) :
  Re.search (map Re.Lit (list_ascii_of_string p)) s = Text.icontains p s.
Proof.
  unfold Text.icontains.
  induction s as [|c s IH]; cbn [Re.search Text.lower Text.contains].
  - rewrite (match_here_literal p EmptyString). reflexivity.
  - rewrite (match_here_literal p (String c s)), IH. reflexivity.
Qed.

End TextFacts.

(** ** Masks *)

Section Masks.

Context {A : Type}.

Lemma mask_and_map (p q : A -> bool) (l : list A) :
  mask_and (map p l) (map q l) = map (fun x => p x && q x) l.
Proof.
  unfold mask_and. induction l as [|x l IH]; cbn; [reflexivity|].
  f_equal. exact IH.
Qed.

Lemma select_map (p : A -> bool) (l : list A) :
  select (map p l) l = List.filter p l.
Proof.
  induction l as [|x l IH]; cbn; [reflexivity|].
  destruct (p x); rewrite IH; reflexivity.
Qed.

Lemma filter_sublist (p : A -> bool) (l : list A) :
  List.filter p l `sublist_of` l.
Proof.
  induction l as [|x l IH]; cbn; [constructor|].
  destruct (p x); [apply sublist_skip | apply sublist_cons]; exact IH.
Qed.

Lemma filter_sublist_impl (p q : A -> bool) (l : list A) :
  (forall x, p x = true -> q x = true) ->
  List.filter p l `sublist_of` List.filter q l.
Proof.
  intros Hpq. induction l as [|x l IH]; cbn; [constructor|].
  destruct (p x) eqn:Hp.
  - rewrite (Hpq x Hp). apply sublist_skip, IH.
  - destruct (q x); [apply sublist_cons|]; exact IH.
Qed.

Lemma filter_map_comm {B} (f : A -> B) (p : B -> bool) (l : list A) :
  List.filter p (map f l) = map f (List.filter (fun x => p (f x)) l).
Proof.
  induction l as [|x l IH]; cbn; [reflexivity|].
  destruct (p (f x)); cbn; rewrite IH; reflexivity.
Qed.

End Masks.

(** ** Running the filter *)

Section Runs.

Context `{GB : GeoBackend} `{PF : PyFormat}.

Local Open Scope py_scope.

Lemma bind_ok {A B} (m : M A) (k : A -> M B) w a w' :
  m w = (Ok a, w') -> bind m k w = k a w'.
Proof. unfold bind. intros ->. reflexivity. Qed.

Lemma bind_raise {A B} (m : M A) (k : A -> M B) w e w' :
  m w = (Raise e, w') -> bind m k w = (Raise e, w').
Proof. unfold bind. intros ->. reflexivity. Qed.

Lemma deref_ok l df w : heap w !! l = Some df -> deref l w = (Ok df, w).
Proof. unfold deref. intros ->. reflexivity. Qed.

Lemma col_ok {A} (f : Row -> A) l df w :
  heap w !! l = Some df -> col f l w = (Ok (map f (rows df)), w).
Proof. intros H. unfold col. rewrite (bind_ok _ _ _ _ _ (deref_ok _ _ _ H)). reflexivity. Qed.

Lemma lookup_new h (df : GeoDataFrame) : (h ++ [df]) !! length h = Some df.
Proof. apply list_lookup_middle. reflexivity. Qed.

Lemma insert_new h (df df' : GeoDataFrame) :
  <[length h := df']> (h ++ [df]) = h ++ [df'].
Proof.
  rewrite <- (Nat.add_0_r (length h)), insert_app_r. reflexivity.
Qed.

Lemma str_contains_ok xs pat w :
  owner_ok pat = true ->
  str_contains xs pat w = (Ok (map (owner_matches pat) xs), w).
Proof.
  unfold owner_ok, str_contains, owner_matches.
  destruct (Re.re_compile pat); [|discriminate]. intros _. reflexivity.
Qed.

Lemma between_map (f : Row -> float) lo hi (rs : list Row) :
  between (map f rs) lo hi = map (fun r => Num.between lo hi (f r)) rs.
Proof. unfold between. rewrite map_map. reflexivity. Qed.

Lemma isin_map (f : Row -> option string) vs (rs : list Row) :
  isin (map f rs) vs = map (fun r => member vs (f r)) rs.
Proof. unfold isin, member. rewrite map_map. reflexivity. Qed.

Lemma owner_map pat (rs : list Row) :
  map (owner_matches pat) (map OWNERNME1 rs) =
  map (fun r => owner_matches pat (OWNERNME1 r)) rs.
Proof. rewrite map_map. reflexivity. Qed.

Lemma map_and_true (p : Row -> bool) (rs : list Row) :
  map p rs = map (fun r => p r && true) rs.
Proof. apply map_ext. intros r. rewrite andb_true_r. reflexivity. Qed.

Lemma set_step {B} (f : Row -> option string) vs (p : Row -> bool)
    (k : list bool -> M B) l D w :
  heap w !! l = Some D ->
  bind (if list_truthy vs
        then xs <- col f l ;; ret (mask_and (map p (rows D)) (isin xs vs))
        else ret (map p (rows D))) k w =
  k (map (fun r => p r && set_clause vs (f r)) (rows D)) w.
Proof.
  intros H. destruct vs as [|v vs]; cbn [list_truthy set_clause].
  - rewrite (map_and_true p). reflexivity.
  - rewrite (bind_ok _ _ _ _ _ (bind_ok _ _ _ _ _ (col_ok _ _ _ _ H))).
    rewrite isin_map, mask_and_map. reflexivity.
Qed.

Lemma owner_step {B} pat (p : Row -> bool) (k : list bool -> M B) l D w :
  heap w !! l = Some D ->
  owner_ok pat = true ->
  bind (if Text.truthy pat
        then owners <- col OWNERNME1 l ;;
             m <- str_contains owners pat ;;
             ret (mask_and (map p (rows D)) m)
        else ret (map p (rows D))) k w =
  k (map (fun r => p r && (if Text.truthy pat
                           then owner_matches pat (OWNERNME1 r)
                           else true)) (rows D)) w.
Proof.
  intros H Hok. destruct (Text.truthy pat).
  - erewrite bind_ok; [reflexivity|].
    rewrite (bind_ok _ _ _ _ _ (col_ok _ _ _ _ H)).
    rewrite (bind_ok _ _ _ _ _ (str_contains_ok _ _ _ Hok)).
    rewrite owner_map, mask_and_map. reflexivity.
  - rewrite (map_and_true p). reflexivity.
Qed.

Lemma value_step {B} vmin vmax (p : Row -> bool) (k : list bool -> M B)
    l D w :
  heap w !! l = Some D ->
  bind (match vmin, vmax with
        | Some lo, Some hi =>
            values <- col ESTFMKVALU l ;;
            ret (mask_and (map p (rows D)) (between values lo hi))
        | _, _ => ret (map p (rows D))
        end) k w =
  k (map (fun r => p r && match vmin, vmax with
                          | Some lo, Some hi => Num.between lo hi (ESTFMKVALU r)
                          | _, _ => true
                          end) (rows D)) w.
Proof.
  intros H. destruct vmin as [lo|], vmax as [hi|];
    try (rewrite (map_and_true p); reflexivity).
  rewrite (bind_ok _ _ _ _ _ (bind_ok _ _ _ _ _ (col_ok _ _ _ _ H))).
  rewrite between_map, mask_and_map. reflexivity.
Qed.

Lemma predicate_filter_run gdf c D w :
  heap w !! gdf = Some D ->
  owner_ok (c_owner c) = true ->
  predicate_filter gdf c w =
    (Ok (length (heap w ++ [D])),
     with_heap ((heap w ++ [D]) ++ [selected D c]) w).
Proof.
  intros HD Hown.
  unfold predicate_filter, attribute_filter, copy.
  rewrite (bind_ok _ _ _ _ _ (bind_ok _ _ _ _ _ (deref_ok _ _ _ HD))).
  set (w1 := with_heap (heap w ++ [D]) w).
  assert (H1 : heap w1 !! length (heap w) = Some D) by apply lookup_new.
  rewrite (bind_ok _ _ _ _ _ (col_ok _ _ _ _ H1)).
  rewrite between_map.
  rewrite (owner_step _ _ _ _ _ _ H1 Hown).
  rewrite !(set_step _ _ _ _ _ _ _ H1).
  rewrite (value_step _ _ _ _ _ _ _ H1).
  unfold getitem_mask.
  rewrite (bind_ok _ _ _ _ _ (deref_ok _ _ _ H1)).
  unfold alloc, selected. cbn. rewrite select_map. reflexivity.
Qed.

Lemma to_crs_ok l F src target w :
  heap w !! l = Some F ->
  crs F = Some src ->
  to_crs l target w =
    (Ok (length (heap w)),
     with_heap (heap w ++ [{| crs := Some target;
                              rows := map (reproject src target) (rows F) |}]) w).
Proof.
  intros H Hc. unfold to_crs.
  rewrite (bind_ok _ _ _ _ _ (deref_ok _ _ _ H)), Hc. reflexivity.
Qed.

Lemma to_crs_naive l F target w :
  heap w !! l = Some F ->
  crs F = None ->
  to_crs l target w = (Raise NaiveGeometries, w).
Proof.
  intros H Hc. unfold to_crs.
  rewrite (bind_ok _ _ _ _ _ (deref_ok _ _ _ H)), Hc. reflexivity.
Qed.

Lemma getitem_mask_ok l F (p : Row -> bool) w :
  heap w !! l = Some F ->
  getitem_mask l (map p (rows F)) w =
    (Ok (length (heap w)),
     with_heap (heap w ++ [{| crs := crs F; rows := List.filter p (rows F) |}]) w).
Proof.
  intros H. unfold getitem_mask.
  rewrite (bind_ok _ _ _ _ _ (deref_ok _ _ _ H)).
  unfold alloc. rewrite select_map. reflexivity.
Qed.

Lemma add_popups_new h F w :
  add_popups (length h) (with_heap (h ++ [F]) w) =
    (Ok (length h), with_heap (h ++ [annotated F]) w).
Proof.
  unfold add_popups, setitem_popup_content.
  assert (H : heap (with_heap (h ++ [F]) w) !! length h = Some F)
    by apply lookup_new.
  erewrite bind_ok; [reflexivity|].
  rewrite (bind_ok _ _ _ _ _ (deref_ok _ _ _ H)).
  unfold store. cbn [heap with_heap ui session files].
  rewrite insert_new. reflexivity.
Qed.

Lemma with_ui_nil w h : with_ui (ui w ++ []) (with_heap h w) = with_heap h w.
Proof. rewrite app_nil_r. reflexivity. Qed.

(** What a call does to the store and the page. *)
Lemma filter_by_run gdf c D w F evs :
  heap w !! gdf = Some D ->
  owner_ok (c_owner c) = true ->
  filter_result D c = Some (F, evs) ->
  exists mid,
    filter_by gdf c w =
      (Ok (length (heap w ++ mid)),
       with_ui (ui w ++ evs) (with_heap ((heap w ++ mid) ++ [F]) w)).
Proof.
  intros HD Hown HF.
  pose proof (predicate_filter_run gdf c D w HD Hown) as Hpre.
  unfold predicate_filter in Hpre. unfold filter_by, filter_parcels.
  rewrite (bind_ok _ _ _ _ _ Hpre). clear Hpre.
  unfold filter_result in HF.
  destruct (proximity_query (c_lat c) (c_lon c) (c_radius c))
    as [[[lat lon] radius]|].
  - destruct (in_region lat lon); cbn [negb].
    + destruct (crs D) as [src|] eqn:Hsrc; [|discriminate].
      injection HF as <- <-.
      set (S0 := selected D c).
      erewrite bind_ok;
        [| apply (to_crs_ok _ S0 src); [apply lookup_new | exact Hsrc]].
      cbn [heap with_heap].
      erewrite bind_ok; [| apply col_ok; apply lookup_new].
      cbn [rows].
      erewrite bind_ok.
      2:{ rewrite map_map.
          apply (getitem_mask_ok _
                   {| crs := Some utm_crs;
                      rows := map (reproject src utm_crs) (rows S0) |}
                   (fun r => intersects (geometry r) _)).
          apply lookup_new. }
      cbn [heap with_heap crs rows].
      erewrite bind_ok; [| eapply to_crs_ok; [apply lookup_new | reflexivity]].
      cbn [heap with_heap crs rows].
      rewrite add_popups_new.
      exists [D; S0;
              {| crs := Some utm_crs; rows := map (reproject src utm_crs) (rows S0) |};
              {| crs := Some utm_crs;
                 rows := List.filter
                   (fun r => intersects (geometry r)
                      (buffer (transform EPSG4326 utm_crs (Point lon lat))
                              (radius * 1609.34)%float))
                   (map (reproject src utm_crs) (rows S0)) |}].
      rewrite with_ui_nil.
      rewrite <- !app_assoc. reflexivity.
    + injection HF as <- <-.
      exists [D; selected D c].
      unfold bind, emit, GeoDataFrame_new, alloc, empty_frame.
      cbn [heap with_heap with_ui ui session files].
      rewrite <- !app_assoc. reflexivity.
  - injection HF as <- <-.
    rewrite add_popups_new.
    exists [D]. rewrite with_ui_nil. reflexivity.
Qed.

(** A dataset without CRS cannot pass the proximity stage. *)
Lemma filter_by_naive gdf c D w lat lon radius :
  heap w !! gdf = Some D ->
  owner_ok (c_owner c) = true ->
  crs D = None ->
  proximity_query (c_lat c) (c_lon c) (c_radius c) = Some (lat, lon, radius) ->
  in_region lat lon = true ->
  fst (filter_by gdf c w) = Raise NaiveGeometries.
Proof.
  intros HD Hown Hcrs Hq Hreg.
  pose proof (predicate_filter_run gdf c D w HD Hown) as Hpre.
  unfold predicate_filter in Hpre. unfold filter_by, filter_parcels.
  rewrite (bind_ok _ _ _ _ _ Hpre), Hq, Hreg. cbn [negb].
  erewrite bind_raise; [reflexivity|].
  apply (to_crs_naive _ (selected D c)); [apply lookup_new | exact Hcrs].
Qed.

End Runs.

(** ** The store: what a call may touch *)

Section FrameRules.

Context `{GB : GeoBackend} `{PF : PyFormat}.

Local Open Scope py_scope.

Variable h0 : list GeoDataFrame.

Lemma preserves_ret {A} (a : A) (Q : A -> Prop) :
  Q a -> preserves h0 (ret a) Q.
Proof. intros HQ w Hw. split; assumption. Qed.

Lemma preserves_raise {A} e (Q : A -> Prop) : preserves h0 (raise e) Q.
Proof. intros w Hw. split; [assumption | exact I]. Qed.

Lemma preserves_bind {A B} (m : M A) (k : A -> M B) P Q :
  preserves h0 m P ->
  (forall a, P a -> preserves h0 (k a) Q) ->
  preserves h0 (bind m k) Q.
Proof.
  intros Hm Hk w Hw. specialize (Hm w Hw). unfold bind.
  destruct (m w) as [[a|e] w1]; cbn in Hm; destruct Hm as [Hpre HP].
  - exact (Hk a HP w1 Hpre).
  - split; [assumption | exact I].
Qed.

Lemma preserves_weaken {A} (m : M A) (P Q : A -> Prop) :
  preserves h0 m P -> (forall a, P a -> Q a) -> preserves h0 m Q.
Proof.
  intros Hm HPQ w Hw. destruct (Hm w Hw) as [Hpre HP]. split; [assumption|].
  destruct (fst (m w)); [apply HPQ; assumption | exact I].
Qed.

Lemma preserves_alloc df : preserves h0 (alloc df) (fresh_for h0).
Proof.
  intros w Hw. cbn. split.
  - apply prefix_app_r. exact Hw.
  - unfold fresh_for. apply prefix_length. exact Hw.
Qed.

Lemma preserves_deref l : preserves h0 (deref l) (fun _ => True).
Proof.
  intros w Hw. unfold deref. destruct (heap w !! l); cbn; split; auto.
Qed.

Lemma preserves_store l df :
  fresh_for h0 l -> preserves h0 (store l df) (fun _ => True).
Proof.
  intros Hl w [k Hk]. cbn. split; [|exact I].
  rewrite Hk, insert_app_r_alt by exact Hl.
  apply prefix_app_r. reflexivity.
Qed.

Lemma preserves_emit e : preserves h0 (emit e) (fun _ => True).
Proof. intros w Hw. cbn. split; [assumption | exact I]. Qed.

Lemma preserves_col {A} (f : Row -> A) l :
  preserves h0 (col f l) (fun _ => True).
Proof.
  unfold col. eapply preserves_bind; [apply preserves_deref|].
  intros df _. apply preserves_ret. exact I.
Qed.

Lemma preserves_copy l : preserves h0 (copy l) (fresh_for h0).
Proof.
  unfold copy. eapply preserves_bind; [apply preserves_deref|].
  intros df _. apply preserves_alloc.
Qed.

Lemma preserves_getitem_mask l mask :
  preserves h0 (getitem_mask l mask) (fresh_for h0).
Proof.
  unfold getitem_mask. eapply preserves_bind; [apply preserves_deref|].
  intros df _. apply preserves_alloc.
Qed.

Lemma preserves_to_crs l target :
  preserves h0 (to_crs l target) (fresh_for h0).
Proof.
  unfold to_crs. eapply preserves_bind; [apply preserves_deref|].
  intros df _. destruct (crs df); [apply preserves_alloc | apply preserves_raise].
Qed.

Lemma preserves_str_contains xs pat :
  preserves h0 (str_contains xs pat) (fun _ => True).
Proof.
  unfold str_contains. destruct (Re.re_compile pat);
    [apply preserves_ret; exact I | apply preserves_raise].
Qed.

(** The popup column is written into a frame of the call's own. *)
Lemma preserves_add_popups l :
  fresh_for h0 l -> preserves h0 (add_popups l) (fresh_for h0).
Proof.
  intros Hl. unfold add_popups, setitem_popup_content.
  eapply preserves_bind.
  - eapply preserves_bind; [apply preserves_deref|].
    intros df _. apply preserves_store. exact Hl.
  - intros _ _. apply preserves_ret. exact Hl.
Qed.

Lemma preserves_attribute_filter gdf acres_min acres_max owner_name
    placenames zipcodes schooldists estfmkvalu_min estfmkvalu_max :
  preserves h0
    (attribute_filter gdf acres_min acres_max owner_name placenames
       zipcodes schooldists estfmkvalu_min estfmkvalu_max)
    (fresh_for h0).
Proof.
  unfold attribute_filter.
  eapply preserves_bind; [apply preserves_copy|]. intros filtered Hf.
  eapply preserves_bind; [apply preserves_col|]. intros acres _.
  eapply preserves_bind with (P := fun _ => True).
  { destruct (Text.truthy owner_name); [|apply preserves_ret; exact I].
    eapply preserves_bind; [apply preserves_col|]. intros owners _.
    eapply preserves_bind; [apply preserves_str_contains|]. intros m _.
    apply preserves_ret. exact I. }
  intros mask0 _.
  eapply preserves_bind with (P := fun _ => True).
  { destruct (list_truthy placenames); [|apply preserves_ret; exact I].
    eapply preserves_bind; [apply preserves_col|]. intros xs _.
    apply preserves_ret. exact I. }
  intros mask1 _.
  eapply preserves_bind with (P := fun _ => True).
  { destruct (list_truthy zipcodes); [|apply preserves_ret; exact I].
    eapply preserves_bind; [apply preserves_col|]. intros xs _.
    apply preserves_ret. exact I. }
  intros mask2 _.
  eapply preserves_bind with (P := fun _ => True).
  { destruct (list_truthy schooldists); [|apply preserves_ret; exact I].
    eapply preserves_bind; [apply preserves_col|]. intros xs _.
    apply preserves_ret. exact I. }
  intros mask3 _.
  eapply preserves_bind with (P := fun _ => True).
  { destruct estfmkvalu_min, estfmkvalu_max; try (apply preserves_ret; exact I).
    eapply preserves_bind; [apply preserves_col|]. intros xs _.
    apply preserves_ret. exact I. }
  intros mask4 _.
  apply preserves_getitem_mask.
Qed.

Lemma preserves_filter_parcels gdf acres_min acres_max owner_name
    placenames zipcodes schooldists estfmkvalu_min estfmkvalu_max
    lat lon distance_miles :
  preserves h0
    (filter_parcels gdf acres_min acres_max owner_name placenames
       zipcodes schooldists estfmkvalu_min estfmkvalu_max
       lat lon distance_miles)
    (fresh_for h0).
Proof.
  unfold filter_parcels.
  eapply preserves_bind; [apply preserves_attribute_filter|].
  intros filtered Hf.
  destruct (proximity_query lat lon distance_miles) as [[[la lo] d]|];
    [|apply preserves_add_popups; exact Hf].
  destruct (negb (in_region la lo)).
  - eapply preserves_bind; [apply preserves_emit|].
    intros _ _. apply preserves_alloc.
  - eapply preserves_bind; [apply preserves_to_crs|]. intros f1 H1.
    eapply preserves_bind; [apply preserves_col|]. intros geoms _.
    eapply preserves_bind; [apply preserves_getitem_mask|]. intros f2 H2.
    eapply preserves_bind; [apply preserves_to_crs|]. intros f3 H3.
    apply preserves_add_popups. exact H3.
Qed.

End FrameRules.

Section Claims.

Context `{GB : GeoBackend} `{PF : PyFormat}.

(** C9. A call of [filter_parcels], whatever its arguments and however it
    ends, leaves every GeoDataFrame that existed before the call as it
    was: the store after the call is the store before it followed by the
    frames the call created, and the object at [gdf] is the same. *)
Theorem filter_parcels_leaves_input_unchanged
    (gdf : loc) (acres_min acres_max : float) (owner_name : string)
    (placenames zipcodes schooldists : list string)
    (estfmkvalu_min estfmkvalu_max lat lon distance_miles : option float)
    (w : World) :
  let w' := snd (filter_parcels gdf acres_min acres_max owner_name
                   placenames zipcodes schooldists
                   estfmkvalu_min estfmkvalu_max lat lon distance_miles w) in
  heap w `prefix_of` heap w' /\ heap w' !! gdf = heap w !! gdf.
Proof.
  intros w'.
  assert (Hpre : heap w `prefix_of` heap w').
  { apply (preserves_filter_parcels (heap w)). reflexivity. }
  split; [exact Hpre|].
  destruct (heap w !! gdf) as [D|] eqn:HD.
  - exact (prefix_lookup_Some _ _ _ _ HD Hpre).
  - subst w'. unfold filter_parcels, attribute_filter, copy, bind, deref.
    rewrite HD. cbn. exact HD.
Qed.

Lemma filter_by_returns gdf c D w F evs :
  heap w !! gdf = Some D ->
  owner_ok (c_owner c) = true ->
  filter_result D c = Some (F, evs) ->
  result_of (filter_by gdf c w) = Some F /\
  ui (snd (filter_by gdf c w)) = ui w ++ evs.
Proof.
  intros HD Hown HF.
  destruct (filter_by_run gdf c D w F evs HD Hown HF) as [mid ->].
  cbn. split; [apply lookup_new | reflexivity].
Qed.

Lemma acreage_boundary c r :
  Num.fle (c_acres_min c) (c_acres_max c) ->
  GISACRES r = c_acres_min c \/ GISACRES r = c_acres_max c ->
  acreage_clause c r = true.
Proof.
  unfold Num.fle, acreage_clause, Num.between. intros Hle [-> | ->].
  - rewrite (leb_refl_of_leb _ _ Hle), Hle. reflexivity.
  - rewrite Hle, (leb_refl_of_geb _ _ Hle). reflexivity.
Qed.

Lemma acreage_outside c r :
  Num.flt (GISACRES r) (c_acres_min c) \/ Num.flt (c_acres_max c) (GISACRES r) ->
  acreage_clause c r = false.
Proof.
  unfold Num.flt, acreage_clause, Num.between. intros [H | H];
    rewrite (ltb_leb_false _ _ H); [reflexivity | apply andb_false_r].
Qed.

(** C1. For every dataset and criteria (with an owner pattern the model
    covers), the attribute stage returns a new frame whose rows are exactly
    the rows of the dataset that satisfy the conjunction of the active
    clauses, in the order of the dataset; when no proximity query is active
    this is what [filter_parcels] returns, each row with its popup text.
    An empty owner string, an empty set and an absent value bound impose
    nothing.  Both acreage bounds are inclusive: a row whose acreage equals
    a bound passes the acreage clause, a row below the minimum or above the
    maximum fails the conjunction. *)
Theorem predicate_filter_exact (gdf : loc) (c : FilterCriteria)
    (D : GeoDataFrame) (w : World) :
  heap w !! gdf = Some D ->
  owner_ok (c_owner c) = true ->
  result_of (predicate_filter gdf c w) =
    Some {| crs := crs D; rows := List.filter (satisfies c) (rows D) |} /\
  (proximity_query (c_lat c) (c_lon c) (c_radius c) = None ->
   result_of (filter_by gdf c w) =
     Some {| crs := crs D;
             rows := map with_popup (List.filter (satisfies c) (rows D)) |}) /\
  (forall r, In r (List.filter (satisfies c) (rows D)) <->
             In r (rows D) /\ satisfies c r = true) /\
  List.filter (satisfies c) (rows D) `sublist_of` rows D /\
  (forall r, Num.fle (c_acres_min c) (c_acres_max c) ->
             GISACRES r = c_acres_min c \/ GISACRES r = c_acres_max c ->
             acreage_clause c r = true) /\
  (forall r, Num.flt (GISACRES r) (c_acres_min c) \/
             Num.flt (c_acres_max c) (GISACRES r) ->
             satisfies c r = false) /\
  (forall r, c_owner c = "" -> owner_clause c r = true) /\
  (forall v, set_clause [] v = true) /\
  (forall r, c_value_min c = None \/ c_value_max c = None ->
             value_clause c r = true).
Proof.
  intros HD Hown.
  refine (conj _ (conj _ (conj _ (conj _ (conj _ (conj _ (conj _ (conj _ _)))))))).
  - rewrite (predicate_filter_run gdf c D w HD Hown). cbn. apply lookup_new.
  - intros Hq.
    apply (filter_by_returns gdf c D w _ []); try assumption.
    unfold filter_result. rewrite Hq. reflexivity.
  - intros r. apply List.filter_In.
  - apply filter_sublist.
  - intros r. apply acreage_boundary.
  - intros r H. unfold satisfies. rewrite (acreage_outside c r H). reflexivity.
  - intros r H. unfold owner_clause. rewrite H. reflexivity.
  - intros v. reflexivity.
  - intros r [H | H]; unfold value_clause; rewrite H;
      [|destruct (c_value_min c)]; reflexivity.
Qed.

Lemma in_region_truthy lat lon :
  in_region lat lon = true -> Num.truthy lat = true /\ Num.truthy lon = true.
Proof.
  unfold in_region. rewrite !andb_true_iff. intros [[[H1 H2] H3] H4].
  split; [exact (leb_42_truthy _ H1) | exact (leb_m87_truthy _ H4)].
Qed.

(** C2, amended.  For every dataset in some CRS and every proximity query
    inside the region whose radius is not zero and gives a finite distance
    in metres, [filter_parcels] returns a frame in WGS84 whose rows are
    those of the specification's Spatial Proximity Filter applied to the
    attribute-filtered rows: query point and rows reprojected into
    EPSG:32616, the library's circular buffer of radius exactly
    [radius_miles * 1609.34] metres around the projected point, exactly the
    rows kept, in order, for which the library's boundary-inclusive
    [intersects] holds with that buffer, and these reprojected to EPSG:4326
    (each with its popup text). *)
Theorem proximity_filter_refines (gdf : loc) (c : FilterCriteria)
    (D : GeoDataFrame) (src : CRS) (w : World) (lat lon radius_miles : float) :
  heap w !! gdf = Some D ->
  crs D = Some src ->
  owner_ok (c_owner c) = true ->
  c_lat c = Some lat -> c_lon c = Some lon -> c_radius c = Some radius_miles ->
  in_region lat lon = true ->
  Num.truthy radius_miles = true ->
  Num.finite (radius_miles * 1609.34)%float = true ->
  result_of (filter_by gdf c w) =
    Some {| crs := Some EPSG4326;
            rows := map with_popup
                      (spatial_proximity_filter src
                         (List.filter (satisfies c) (rows D))
                         lat lon radius_miles) |} /\
  (forall r,
     In r (spatial_proximity_filter src (List.filter (satisfies c) (rows D))
             lat lon radius_miles) <->
     exists r0,
       In r0 (rows D) /\ satisfies c r0 = true /\
       intersects (transform src EPSG32616 (geometry r0))
                  (buffer (transform EPSG4326 EPSG32616 (Point lon lat))
                          (radius_miles * 1609.34)%float) = true /\
       r = reproject EPSG32616 EPSG4326 (reproject src EPSG32616 r0)).
Proof.
  intros HD Hsrc Hown Hla Hlo Hra Hreg Hrad _.
  destruct (in_region_truthy _ _ Hreg) as [Hlat Hlon].
  split.
  - apply (filter_by_returns gdf c D w _ []); try assumption.
    unfold filter_result, proximity_query.
    rewrite Hla, Hlo, Hra, Hlat, Hlon, Hrad. cbn [andb].
    rewrite Hreg, Hsrc. reflexivity.
  - intros r. unfold spatial_proximity_filter.
    rewrite List.in_map_iff. split.
    + intros [r1 [<- H1]]. apply List.filter_In in H1 as [H1 Hint].
      apply List.in_map_iff in H1 as [r0 [<- H0]].
      apply List.filter_In in H0 as [H0 Hsat].
      exists r0. repeat split; assumption.
    + intros [r0 [H0 [Hsat [Hint ->]]]].
      exists (reproject src EPSG32616 r0). split; [reflexivity|].
      apply List.filter_In. split; [|exact Hint].
      apply List.in_map. apply List.filter_In. tauto.
Qed.

(** C3, amended.  For every call whose latitude, longitude and radius are
    all supplied and non-zero, and whose latitude is outside [42, 44] or
    whose longitude is outside [-89, -87], the page gets the out-of-range
    error and the call returns a new frame without rows (and without CRS):
    nothing of the dataset is filtered by the point. *)
Theorem out_of_region_is_reported (gdf : loc) (c : FilterCriteria)
    (D : GeoDataFrame) (w : World) (lat lon radius_miles : float) :
  heap w !! gdf = Some D ->
  owner_ok (c_owner c) = true ->
  c_lat c = Some lat -> c_lon c = Some lon -> c_radius c = Some radius_miles ->
  Num.truthy lat = true -> Num.truthy lon = true ->
  Num.truthy radius_miles = true ->
  ~ (Num.fle 42 lat /\ Num.fle lat 44) \/
  ~ (Num.fle (-89) lon /\ Num.fle lon (-87)) ->
  result_of (filter_by gdf c w) = Some empty_frame /\
  ui (snd (filter_by gdf c w)) = ui w ++ [StError out_of_range_message].
Proof.
  intros HD Hown Hla Hlo Hra Hlat Hlon Hrad Hout.
  apply (filter_by_returns gdf c D w); try assumption.
  unfold filter_result, proximity_query.
  rewrite Hla, Hlo, Hra, Hlat, Hlon, Hrad. cbn [andb].
  assert (Hreg : in_region lat lon = false).
  { unfold in_region. unfold Num.fle in Hout.
    destruct (42.0 <=? lat)%float, (lat <=? 44.0)%float,
             (-89.0 <=? lon)%float, (lon <=? -87.0)%float;
      try reflexivity; exfalso; destruct Hout as [H | H]; apply H; split; reflexivity. }
  rewrite Hreg. reflexivity.
Qed.

(** C10.  When latitude, longitude and radius are all supplied but one of
    them is zero, the proximity stage is skipped: whatever the coordinates,
    nothing is added to the page (no range error), and the call returns the
    attribute-filtered rows with their popup texts, in the CRS of the
    dataset. *)
Theorem zero_skips_proximity (gdf : loc) (c : FilterCriteria)
    (D : GeoDataFrame) (w : World) (lat lon radius_miles : float) :
  heap w !! gdf = Some D ->
  owner_ok (c_owner c) = true ->
  c_lat c = Some lat -> c_lon c = Some lon -> c_radius c = Some radius_miles ->
  ((lat =? 0) || (lon =? 0) || (radius_miles =? 0))%float = true ->
  result_of (filter_by gdf c w) =
    Some {| crs := crs D;
            rows := map with_popup (List.filter (satisfies c) (rows D)) |} /\
  ui (snd (filter_by gdf c w)) = ui w /\
  shown_errors (ui (snd (filter_by gdf c w))) = shown_errors (ui w).
Proof.
  intros HD Hown Hla Hlo Hra Hzero.
  assert (HF : filter_result D c = Some (annotated (selected D c), [])).
  { unfold filter_result, proximity_query, Num.truthy.
    rewrite Hla, Hlo, Hra.
    destruct (lat =? 0)%float, (lon =? 0)%float, (radius_miles =? 0)%float;
      try discriminate; reflexivity. }
  destruct (filter_by_returns gdf c D w _ _ HD Hown HF) as [Hres Hui].
  rewrite app_nil_r in Hui. rewrite Hui. repeat split. exact Hres.
Qed.

(** ** Popup texts *)

Lemma append_assoc (a b c : string) : (a +:+ b) +:+ c = a +:+ (b +:+ c).
Proof.
  induction a as [|x a IH]; [reflexivity|].
  change (String x ((a +:+ b) +:+ c) = String x (a +:+ (b +:+ c))).
  f_equal. exact IH.
Qed.

Lemma contains_here (p b : string) : Text.contains p (p +:+ b) = true.
Proof. apply contains_spec. exists EmptyString, b. reflexivity. Qed.

Lemma append_nil_r (a : string) : a +:+ "" = a.
Proof.
  induction a as [|x a IH]; [reflexivity|].
  change (String x (a +:+ "") = String x a). f_equal. exact IH.
Qed.

Lemma contains_refl (p : string) : Text.contains p p = true.
Proof.
  apply contains_spec. exists EmptyString, EmptyString.
  rewrite append_nil_r. reflexivity.
Qed.

Lemma contains_after (a p s : string) :
  Text.contains p s = true -> Text.contains p (a +:+ s) = true.
Proof.
  rewrite !contains_spec. intros [x [y ->]].
  exists (a +:+ x), y. rewrite append_assoc. reflexivity.
Qed.

Lemma popup_text_split (r : Row) :
  popup_text r =
  popup_head r +:+
  match URL r with
  | Some url => "Tax Site: " +:+ link_to url
  | None => "Tax Site: No URL available"
  end.
Proof.
  unfold popup_text, popup_head, link_to.
  destruct (URL r) as [url|]; rewrite ?append_assoc; reflexivity.
Qed.

Lemma popup_embeds (r : Row) :
  Text.contains (text_str (OWNERNME1 r)) (popup_text r) = true /\
  Text.contains (float_str (GISACRES r)) (popup_text r) = true /\
  Text.contains (float_str (ESTFMKVALU r)) (popup_text r) = true.
Proof.
  rewrite popup_text_split. unfold popup_head. rewrite !append_assoc.
  repeat split.
  - apply contains_after, contains_here.
  - do 4 apply contains_after. apply contains_here.
  - do 7 apply contains_after. apply contains_here.
Qed.

Lemma popup_link (r : Row) (url : string) :
  URL r = Some url -> Text.contains (link_to url) (popup_text r) = true.
Proof.
  intros H. rewrite popup_text_split, H.
  apply contains_after, contains_after, contains_refl.
Qed.

Lemma annotated_popups (F : GeoDataFrame) : popups_present (annotated F).
Proof.
  intros r Hr. cbn in Hr. apply List.in_map_iff in Hr as [r0 [<- _]].
  reflexivity.
Qed.

Lemma filter_result_popups D c F evs :
  filter_result D c = Some (F, evs) -> popups_present F.
Proof.
  unfold filter_result.
  destruct (proximity_query _ _ _) as [[[lat lon] radius]|].
  - destruct (in_region lat lon).
    + destruct (crs D); [|discriminate]. intros [= <- _]. apply annotated_popups.
    + intros [= <- _] r [].
  - intros [= <- _]. apply annotated_popups.
Qed.

Lemma filter_result_total D c src :
  crs D = Some src -> exists F evs, filter_result D c = Some (F, evs).
Proof.
  intros Hsrc. unfold filter_result. rewrite Hsrc.
  destruct (proximity_query _ _ _) as [[[lat lon] radius]|]; [|eauto].
  destruct (in_region lat lon); eauto.
Qed.

(** C8, amended.  A call on a dataset with a CRS returns a frame, and every
    row of it has a popup text, built from the row's own columns: the text
    embeds the owner, the acreage and the market value; when the URL is not
    null its "Tax Site" part is the anchor element for that URL; when the
    URL is null its "Tax Site" part is exactly the marker
    "No URL available" (with a capital N) and holds no anchor. *)
Theorem popup_text_of_survivors (gdf : loc) (c : FilterCriteria)
    (D : GeoDataFrame) (src : CRS) (w : World) :
  heap w !! gdf = Some D ->
  crs D = Some src ->
  owner_ok (c_owner c) = true ->
  exists F,
    result_of (filter_by gdf c w) = Some F /\
    forall r, In r (rows F) ->
      exists p,
        popup_content r = Some p /\
        Text.contains (text_str (OWNERNME1 r)) p = true /\
        Text.contains (float_str (GISACRES r)) p = true /\
        Text.contains (float_str (ESTFMKVALU r)) p = true /\
        (forall url, URL r = Some url ->
           p = popup_head r +:+ "Tax Site: " +:+ link_to url /\
           Text.contains (link_to url) p = true) /\
        (URL r = None ->
           p = popup_head r +:+ "Tax Site: No URL available" /\
           Text.contains "No URL available" p = true).
Proof.
  intros HD Hsrc Hown.
  destruct (filter_result_total D c src Hsrc) as [F [evs HF]].
  exists F. split; [exact (proj1 (filter_by_returns gdf c D w F evs HD Hown HF))|].
  intros r Hr. exists (popup_text r).
  split; [exact (filter_result_popups D c F evs HF r Hr)|].
  destruct (popup_embeds r) as [Ho [Ha Hv]].
  repeat (split; [assumption|]). split.
  - intros url Hurl. split; [|exact (popup_link r url Hurl)].
    rewrite popup_text_split, Hurl. reflexivity.
  - intros Hurl. rewrite popup_text_split, Hurl. split; [reflexivity|].
    apply contains_after.
    apply (contains_after "Tax Site: " "No URL available" "No URL available").
    reflexivity.
Qed.

(** ** Monotonicity *)

Lemma table_row_with_popup (r : Row) : table_row (with_popup r) = table_row r.
Proof. reflexivity. Qed.

Lemma table_row_reproject a b (r : Row) : table_row (reproject a b r) = table_row r.
Proof. reflexivity. Qed.

Lemma table_rows_annotated (F : GeoDataFrame) :
  map table_row (rows (annotated F)) = map table_row (rows F).
Proof. cbn. rewrite map_map. reflexivity. Qed.

Lemma sublist_filter {A} (p : A -> bool) (l1 l2 : list A) :
  l1 `sublist_of` l2 -> List.filter p l1 `sublist_of` List.filter p l2.
Proof.
  induction 1 as [|x l1 l2 _ IH|x l1 l2 _ IH]; cbn.
  - constructor.
  - destruct (p x); [apply sublist_skip|]; exact IH.
  - destruct (p x); [apply sublist_cons|]; exact IH.
Qed.

Lemma sublist_In {A} (l1 l2 : list A) :
  l1 `sublist_of` l2 -> forall x, In x l1 -> In x l2.
Proof.
  induction 1 as [|y l1 l2 _ IH|y l1 l2 _ IH]; intros x Hx.
  - exact Hx.
  - destruct Hx as [-> | Hx]; [left; reflexivity | right; exact (IH x Hx)].
  - right. exact (IH x Hx).
Qed.

Lemma sublist_map {A B} (f : A -> B) (l1 l2 : list A) :
  l1 `sublist_of` l2 -> map f l1 `sublist_of` map f l2.
Proof.
  induction 1; cbn; [constructor | apply sublist_skip | apply sublist_cons];
    assumption.
Qed.

(** The proximity stage keeps a subsequence of the candidates, and more
    candidates give more survivors. *)
Lemma proximity_mono src (l1 l2 : list Row) lat lon radius :
  l1 `sublist_of` l2 ->
  spatial_proximity_filter src l1 lat lon radius
    `sublist_of` spatial_proximity_filter src l2 lat lon radius.
Proof.
  intros H. unfold spatial_proximity_filter.
  apply sublist_map, sublist_filter, sublist_map. exact H.
Qed.

Lemma proximity_records src (l : list Row) lat lon radius :
  map table_row (spatial_proximity_filter src l lat lon radius)
    `sublist_of` map table_row l.
Proof.
  unfold spatial_proximity_filter.
  rewrite filter_map_comm, !map_map. cbn.
  apply sublist_map, filter_sublist.
Qed.

Lemma satisfies_mono c1 c2 :
  adds_restriction c1 c2 ->
  forall r, satisfies c2 r = true -> satisfies c1 r = true.
Proof.
  intros Hadd r.
  destruct Hadd as [c q Hq|c vs Hvs|c vs Hvs|c vs Hvs|c lo hi Hv|c la lo ra Hp];
    unfold satisfies, acreage_clause, owner_clause, value_clause;
    cbn [c_acres_min c_acres_max c_owner c_placenames c_zipcodes
         c_schooldists c_value_min c_value_max];
    rewrite !andb_true_iff; intros [[[[[Ha Ho] Hpl] Hz] Hs] Hval];
    repeat split; try assumption.
  - rewrite Hq. reflexivity.
  - rewrite Hvs. reflexivity.
  - rewrite Hvs. reflexivity.
  - rewrite Hvs. reflexivity.
  - destruct Hv as [-> | ->]; [|destruct (c_value_min c)]; reflexivity.
Qed.

Lemma filter_result_mono D c1 c2 F1 e1 F2 e2 :
  adds_restriction c1 c2 ->
  filter_result D c1 = Some (F1, e1) ->
  filter_result D c2 = Some (F2, e2) ->
  records F2 `sublist_of` records F1.
Proof.
  intros Hadd H1 H2.
  pose proof (filter_sublist_impl _ _ (rows D) (satisfies_mono c1 c2 Hadd)) as Hsel.
  unfold filter_result in H1, H2. unfold records.
  assert (Hprox : proximity_query (c_lat c2) (c_lon c2) (c_radius c2) =
                  proximity_query (c_lat c1) (c_lon c1) (c_radius c1) \/
                  proximity_query (c_lat c1) (c_lon c1) (c_radius c1) = None).
  { destruct Hadd as [c q Hq|c vs Hvs|c vs Hvs|c vs Hvs|c lo hi Hv|c la lo ra Hp];
      try (left; reflexivity).
    right. unfold proximity_query.
    destruct Hp as [-> | [-> | ->]];
      [|destruct (c_lat c)|destruct (c_lat c), (c_lon c)]; reflexivity. }
  destruct Hprox as [Heq | Hnone].
  - rewrite Heq in H2.
    destruct (proximity_query (c_lat c1) (c_lon c1) (c_radius c1))
      as [[[lat lon] radius]|].
    + destruct (in_region lat lon).
      * destruct (crs D) as [src|]; [|discriminate].
        injection H1 as <- _. injection H2 as <- _.
        rewrite !table_rows_annotated. cbn [rows located selected].
        apply sublist_map, proximity_mono. exact Hsel.
      * injection H1 as <- _. injection H2 as <- _. constructor.
    + injection H1 as <- _. injection H2 as <- _.
      rewrite !table_rows_annotated. cbn [rows selected].
      apply sublist_map. exact Hsel.
  - rewrite Hnone in H1. injection H1 as <- _.
    rewrite table_rows_annotated. cbn [rows selected].
    destruct (proximity_query (c_lat c2) (c_lon c2) (c_radius c2))
      as [[[lat lon] radius]|].
    + destruct (in_region lat lon).
      * destruct (crs D) as [src|]; [|discriminate].
        injection H2 as <- _.
        rewrite table_rows_annotated. cbn [rows located selected].
        etransitivity; [apply proximity_records|].
        apply sublist_map. exact Hsel.
      * injection H2 as <- _. apply sublist_nil_l.
    + injection H2 as <- _.
      rewrite table_rows_annotated. cbn [rows selected].
      apply sublist_map. exact Hsel.
Qed.

Lemma owner_ok_before c1 c2 :
  adds_restriction c1 c2 ->
  owner_ok (c_owner c2) = true -> owner_ok (c_owner c1) = true.
Proof.
  intros Hadd.
  destruct Hadd as [c q Hq|c vs Hvs|c vs Hvs|c vs Hvs|c lo hi Hv|c la lo ra Hp];
    cbn [c_owner]; intros H; try exact H.
  rewrite Hq. reflexivity.
Qed.

(** C7.  When criteria [c2] are criteria [c1] plus one more active
    restriction (an owner pattern, a set filter, a value range or a
    proximity query where [c1] had none), both calls on the same dataset
    return, and the records of the second result form a subsequence of the
    records of the first: every record [c2] keeps, [c1] keeps too, in the
    same order. *)
Theorem filter_subset_monotone (gdf : loc) (c1 c2 : FilterCriteria)
    (D : GeoDataFrame) (src : CRS) (w : World) :
  heap w !! gdf = Some D ->
  crs D = Some src ->
  owner_ok (c_owner c2) = true ->
  adds_restriction c1 c2 ->
  exists F1 F2,
    result_of (filter_by gdf c1 w) = Some F1 /\
    result_of (filter_by gdf c2 w) = Some F2 /\
    records F2 `sublist_of` records F1 /\
    (forall t, In t (records F2) -> In t (records F1)).
Proof.
  intros HD Hsrc Hown2 Hadd.
  pose proof (owner_ok_before c1 c2 Hadd Hown2) as Hown1.
  destruct (filter_result_total D c1 src Hsrc) as [F1 [e1 H1]].
  destruct (filter_result_total D c2 src Hsrc) as [F2 [e2 H2]].
  exists F1, F2.
  pose proof (filter_result_mono D c1 c2 F1 e1 F2 e2 Hadd H1 H2) as Hsub.
  split; [exact (proj1 (filter_by_returns gdf c1 D w F1 e1 HD Hown1 H1))|].
  split; [exact (proj1 (filter_by_returns gdf c2 D w F2 e2 HD Hown2 H2))|].
  split; [exact Hsub|].
  intros t Ht. exact (sublist_In _ _ Hsub t Ht).
Qed.

(** ** The page *)

Local Arguments take : simpl never.
Local Arguments Nat.ltb : simpl never.
Local Arguments pretty : simpl never.

Lemma generate_map_html_run l df b w :
  heap w !! l = Some df ->
  generate_map_html (Some l) b w =
    (Ok ("temp_map.html", truncated df),
     with_files (("temp_map.html", page_map df b) ::
                 List.filter (fun f => negb (String.eqb "temp_map.html" (fst f)))
                             (files w)) w).
Proof.
  intros H. unfold generate_map_html, page_map, truncated, bind, deref.
  rewrite H.
  destruct (negb (empty df)) eqn:He.
  - destruct (1000 <? length (rows df))%nat; reflexivity.
  - unfold empty in He. destruct (rows df); [reflexivity | discriminate].
Qed.

Lemma main_store_result_run l df h u s f :
  h !! l = Some df ->
  exists f',
    main_store_result (Some l)
      {| heap := h; ui := u; session := s; files := f |} =
    (Ok tt,
     if negb (empty df) then
       {| heap := h; ui := u; session := page_session l df;
          files := ("temp_map.html",
                    page_map df (Some (padded_bounds (map geometry (rows df)))))
                   :: f' |}
     else
       {| heap := h; ui := u ++ [StWarning "No parcels match your filters."];
          session := page_session l df; files := f |}).
Proof.
  intros H. unfold main_store_result, page_session.
  unfold modify_session, bind, get_session, put_session, deref.
  cbn [heap with_session session]. rewrite H.
  destruct (negb (empty df)) eqn:He.
  - erewrite generate_map_html_run by exact H.
    cbn. eexists. reflexivity.
  - cbn. exists f. reflexivity.
Qed.

Lemma main_update_map_run l df h u f :
  h !! l = Some df ->
  exists f',
    main_update_map
      {| heap := h; ui := u; session := page_session l df; files := f |} =
    (Ok tt,
     if negb (empty df) then
       {| heap := h; ui := u; session := page_session l df;
          files := ("temp_map.html",
                    page_map df (Some (padded_bounds (map geometry (rows df)))))
                   :: f' |}
     else
       {| heap := h; ui := u; session := page_session l df; files := f |}).
Proof.
  intros H. unfold main_update_map, page_session.
  unfold modify_session, bind, get_session, put_session, deref.
  destruct (negb (empty df)) eqn:He; cbn [heap with_session session filtered_gdf];
    rewrite H, He.
  - erewrite generate_map_html_run by exact H.
    cbn. eexists. reflexivity.
  - exists f. reflexivity.
Qed.

Lemma main_display_map_shows l df h u m f :
  negb (empty df) = true ->
  exists f',
    main_display_map
      {| heap := h; ui := u; session := page_session l df;
         files := ("temp_map.html", m) :: f |} =
    (Ok tt,
     {| heap := h;
        ui := u ++ [ComponentsHtml m] ++
              (if truncated df then [StWarning map_truncated_message] else []);
        session := page_session l df; files := f' |}).
Proof.
  intros He. unfold main_display_map, page_session. rewrite He.
  unfold bind, get_session, read_file, emit. cbn.
  destruct (truncated df); cbn; rewrite <- ?app_assoc; eexists; reflexivity.
Qed.

Lemma main_display_map_default l df h u f :
  negb (empty df) = false ->
  exists f',
    main_display_map
      {| heap := h; ui := u; session := page_session l df; files := f |} =
    (Ok tt,
     {| heap := h; ui := u ++ [ComponentsHtml base_map];
        session := page_session l df; files := f' |}).
Proof.
  intros He. unfold main_display_map, page_session. rewrite He.
  unfold bind, get_session, show_default_map, bind, save, read_file, emit. cbn.
  eexists. reflexivity.
Qed.

Lemma main_display_results_run l df metric h u f :
  h !! l = Some df ->
  main_display_results metric
    {| heap := h; ui := u; session := page_session l df; files := f |} =
  (Ok tt,
   {| heap := h;
      ui := u ++
            [SidebarWrite (count_line df)] ++
            (if negb (empty df) then
               [StWrite "### Filtered Parcels"] ++
               (if truncated df
                then [StTable (take 1000 (map table_row (rows df)));
                      StWarning table_truncated_message]
                else [StTable (map table_row (rows df))]) ++
               [StWrite "### Parcel Distribution";
                PlotlyHistogram metric (map (metric_column metric) (rows df))]
             else []);
      session := page_session l df; files := f |}).
Proof.
  intros H. unfold main_display_results.
  assert (Hf : filtered_gdf (page_session l df) = Some l).
  { unfold page_session. destruct (negb (empty df)); reflexivity. }
  unfold bind at 1. cbn [get_session session]. rewrite Hf.
  unfold bind at 1. unfold deref. cbn [heap]. rewrite H.
  unfold truncated, count_line.
  destruct (negb (empty df)); [destruct (1000 <? length (rows df))%nat|];
    unfold bind, emit; cbn; rewrite <- ?app_assoc; reflexivity.
Qed.

(** What [main] does with a result: the events it adds to the page and the
    session it leaves. *)
Lemma page_after_filter l df metric w :
  heap w !! l = Some df ->
  exists fs,
    main_after_filter (Some l) metric w =
      (Ok tt,
       {| heap := heap w;
          ui := ui w ++ page_events df metric;
          session := page_session l df;
          files := fs |}).
Proof.
  destruct w as [h u s f]. cbn [heap ui]. intros H.
  unfold main_after_filter, page_events.
  destruct (main_store_result_run l df h u s f H) as [f1 E1].
  rewrite (bind_ok _ _ _ _ _ E1). clear E1.
  destruct (negb (empty df)) eqn:He.
  - destruct (main_update_map_run l df h u (("temp_map.html",
        page_map df (Some (padded_bounds (map geometry (rows df))))) :: f1) H)
      as [f2 E2].
    rewrite He in E2. rewrite (bind_ok _ _ _ _ _ E2). clear E2.
    destruct (main_display_map_shows l df h u
                (page_map df (Some (padded_bounds (map geometry (rows df)))))
                f2 He) as [f3 E3].
    rewrite (bind_ok _ _ _ _ _ E3). clear E3.
    rewrite (main_display_results_run l df metric h _ f3 H), He.
    exists f3. rewrite <- !app_assoc. reflexivity.
  - destruct (main_update_map_run l df h
                (u ++ [StWarning "No parcels match your filters."]) f H)
      as [f2 E2].
    rewrite He in E2. rewrite (bind_ok _ _ _ _ _ E2). clear E2.
    destruct (main_display_map_default l df h
                (u ++ [StWarning "No parcels match your filters."]) f He)
      as [f3 E3].
    rewrite (bind_ok _ _ _ _ _ E3). clear E3.
    rewrite (main_display_results_run l df metric h _ f3 H), He.
    exists f3. rewrite <- !app_assoc. reflexivity.
Qed.

Lemma layers_markers (rs : list Row) (m : FoliumMap) :
  layers (fold_left (fun m row => add_to (marker_of row) m) rs m) =
  layers m ++ map marker_of rs.
Proof.
  revert m. induction rs as [|r rs IH]; intros m; cbn [fold_left map].
  - rewrite app_nil_r. reflexivity.
  - rewrite IH. cbn [add_to layers]. rewrite <- app_assoc. reflexivity.
Qed.

Lemma no_features_in_markers (rs : list Row) :
  omap (fun x => match x with GeoJson fs => Some fs | _ => None end)
       (map marker_of rs) = [].
Proof. induction rs as [|r rs IH]; [reflexivity | exact IH]. Qed.

Lemma take_cap {A} (l : list A) :
  (if (1000 <? length l)%nat then take 1000 l else l) = take 1000 l.
Proof.
  destruct (1000 <? length l)%nat eqn:E; [reflexivity|].
  apply Nat.ltb_ge in E. symmetry. apply take_ge. exact E.
Qed.

Lemma layers_base_fit b :
  layers (match b with Some b0 => fit_bounds b0 base_map | None => base_map end)
  = [].
Proof. destruct b; reflexivity. Qed.

(** A generated map renders the first 1000 rows of the frame. *)
Lemma rendered_page_map df b : rendered (page_map df b) = take 1000 (rows df).
Proof.
  unfold rendered, page_map. cbn [add_to layers].
  destruct (negb (empty df)) eqn:He.
  - rewrite take_cap.
    destruct (length (rows df) <? 200)%nat.
    + rewrite layers_markers. cbn [add_to layers].
      rewrite layers_base_fit.
      rewrite !omap_app, no_features_in_markers. cbn.
      rewrite ?app_nil_r. reflexivity.
    + cbn [add_to layers]. rewrite layers_base_fit. cbn.
      rewrite app_nil_r. reflexivity.
  - rewrite layers_base_fit. unfold empty in He.
    destruct (rows df); [reflexivity | discriminate].
Qed.

Lemma fitted_markers (rs : list Row) (m : FoliumMap) :
  fitted (fold_left (fun m row => add_to (marker_of row) m) rs m) = fitted m.
Proof.
  revert m. induction rs as [|r rs IH]; intros m; cbn [fold_left];
    [reflexivity | rewrite IH; reflexivity].
Qed.

Lemma fitted_page_map df b : fitted (page_map df b) = b.
Proof.
  unfold page_map. cbn [add_to fitted].
  destruct (negb (empty df)); [destruct (length (rows df) <? 200)%nat|];
    rewrite ?fitted_markers; cbn [add_to fitted]; destruct b; reflexivity.
Qed.

Lemma padded_is_expanded (geoms : list geom) :
  padded_bounds geoms = expand_bbox 0.1 (total_bounds geoms).
Proof.
  unfold padded_bounds, expand_bbox.
  destruct (total_bounds geoms) as [[[b0 b1] b2] b3]. reflexivity.
Qed.

Lemma empty_rows df : negb (empty df) = false <-> rows df = [].
Proof.
  unfold empty. destruct (rows df); cbn; split; congruence.
Qed.

(** C4.  For every result [df] that [main] handles: the count line reports
    the number of rows of [df]; the one map shown renders the first 1000
    rows and the table (when there is one) lists the first 1000 records, in
    order; the truncation flag, as [generate_map_html] returns it and as the
    session keeps it, tells whether [df] has more than 1000 rows.  With
    more than 1000 rows exactly 1000 are rendered and tabulated and both
    truncation warnings are shown; with at most 1000 rows all of them are
    rendered and tabulated and no truncation warning is shown. *)
Theorem truncation_policy (l : loc) (df : GeoDataFrame) (metric : Metric)
    (w : World) :
  heap w !! l = Some df ->
  let run := main_after_filter (Some l) metric w in
  fst run = Ok tt /\
  map_truncated (session (snd run)) = (1000 <? length (rows df))%nat /\
  (forall b, fst (generate_map_html (Some l) b w) =
             Ok ("temp_map.html", (1000 <? length (rows df))%nat)) /\
  exists new m,
    ui (snd run) = ui w ++ new /\
    shown_maps new = [m] /\
    rendered m = take 1000 (rows df) /\
    concat (shown_tables new) = take 1000 (map table_row (rows df)) /\
    shown_counts new =
      ["Showing " +:+ pretty (length (rows df)) +:+ " parcels"] /\
    (1000 < length (rows df) ->
       length (rendered m) = 1000 /\
       length (concat (shown_tables new)) = 1000 /\
       In map_truncated_message (shown_warnings new) /\
       In table_truncated_message (shown_warnings new)) /\
    (length (rows df) <= 1000 ->
       rendered m = rows df /\
       concat (shown_tables new) = map table_row (rows df) /\
       ~ In map_truncated_message (shown_warnings new) /\
       ~ In table_truncated_message (shown_warnings new)).
Proof.
  intros H run.
  destruct (page_after_filter l df metric w H) as [fs E].
  subst run. rewrite E. cbn [fst snd session ui].
  split; [reflexivity|]. split.
  { unfold page_session, truncated. destruct (negb (empty df)) eqn:He;
      [reflexivity|].
    apply empty_rows in He. rewrite He. reflexivity. }
  split.
  { intros b. rewrite (generate_map_html_run l df b w H). reflexivity. }
  exists (page_events df metric). unfold page_events, truncated, count_line.
  destruct (negb (empty df)) eqn:He.
  - exists (page_map df (Some (padded_bounds (map geometry (rows df))))).
    rewrite rendered_page_map.
    destruct (1000 <? length (rows df))%nat eqn:Hcap.
    + apply Nat.ltb_lt in Hcap.
      split; [reflexivity|]. split; [reflexivity|]. split; [reflexivity|].
      split; [cbn; rewrite app_nil_r; reflexivity|].
      split; [reflexivity|]. split.
      * intros _. cbn. rewrite app_nil_r, !length_take, length_map.
        repeat split; try lia; [left | right; left]; reflexivity.
      * intros Hle. lia.
    + apply Nat.ltb_ge in Hcap.
      split; [reflexivity|]. split; [reflexivity|]. split; [reflexivity|].
      split; [cbn; rewrite app_nil_r, take_ge by (rewrite length_map; lia);
              reflexivity|].
      split; [reflexivity|]. split.
      * intros Hlt. lia.
      * intros _. cbn. rewrite app_nil_r, take_ge by lia.
        repeat split; intros [].
  - exists base_map. apply empty_rows in He. rewrite He.
    split; [reflexivity|]. split; [reflexivity|]. split; [reflexivity|].
    split; [reflexivity|]. split; [reflexivity|]. split.
    + cbn. intros Hlt. lia.
    + intros _. cbn. repeat split; try reflexivity;
        intros [Hx | []]; discriminate Hx.
Qed.

(** C5.  For every result [df] that [main] handles, exactly one map is
    shown.  When [df] has rows, the session's bounds are the bounding box of
    its geometries ([total_bounds]) grown on each of its four sides by 0.1
    times the extent in that direction, and the map shown is fitted to
    these bounds.  When [df] has no rows, the session's bounds are [None]
    and the map shown is the default map, which is fitted to no bounds: it
    differs from every map that is fitted to some bounds. *)
Theorem display_bounds (l : loc) (df : GeoDataFrame) (metric : Metric)
    (w : World) :
  heap w !! l = Some df ->
  let run := main_after_filter (Some l) metric w in
  let box := expand_bbox 0.1 (total_bounds (map geometry (rows df))) in
  exists new m,
    ui (snd run) = ui w ++ new /\
    shown_maps new = [m] /\
    (rows df <> [] ->
       map_bounds (session (snd run)) = Some box /\ fitted m = Some box) /\
    (rows df = [] ->
       map_bounds (session (snd run)) = None /\
       m = base_map /\ fitted m = None) /\
    (forall b m', fitted m' = Some b -> m' <> base_map).
Proof.
  intros H run box.
  destruct (page_after_filter l df metric w H) as [fs E].
  subst run. rewrite E. cbn [fst snd session ui].
  exists (page_events df metric). unfold page_events, page_session.
  destruct (negb (empty df)) eqn:He.
  - exists (page_map df (Some (padded_bounds (map geometry (rows df))))).
    split; [reflexivity|]. split.
    { destruct (truncated df); reflexivity. }
    split; [|split].
    + intros _. rewrite fitted_page_map, padded_is_expanded. split; reflexivity.
    + intros Hnil. apply empty_rows in Hnil. congruence.
    + intros b m' Hfit ->. discriminate Hfit.
  - exists base_map.
    split; [reflexivity|]. split; [reflexivity|]. split; [|split].
    + intros Hne. apply empty_rows in He. contradiction.
    + intros _. repeat split.
    + intros b m' Hfit ->. discriminate Hfit.
Qed.

(** ** The owner clause *)

(** For a pattern without special characters the owner clause is
    case-insensitive containment, and a null owner never matches. *)
Lemma owner_matches_plain (pat : string) (name : option string) :
  Re.plain pat = true ->
  owner_matches pat name =
    match name with
    | Some s => Text.icontains pat s
    | None => false
    end.
Proof.
  intros Hp. unfold owner_matches. rewrite (plain_compile pat Hp).
  destruct name as [s|]; [apply search_literal | reflexivity].
Qed.

Lemma owner_matches_null (pat : string) : owner_matches pat None = false.
Proof. unfold owner_matches. destruct (Re.re_compile pat); reflexivity. Qed.

End Claims.

(* ================================================================== *)
(** * Part V: the properties on the sample data *)
(* ================================================================== *)

Section OnSamples.

#[local] Existing Instance planar_backend.
#[local] Existing Instance planar_format.

Local Open Scope float_scope.

(** On the sample frame, with the acreage range [0.5, 10], the rows at both
    bounds are kept. *)
Lemma predicate_filter_exact_witness :
  heap sample_world !! 0%nat = Some sample_frame /\
  owner_ok (c_owner (with_acres 0.5 10 no_restriction)) = true /\
  result_of (predicate_filter 0%nat (with_acres 0.5 10 no_restriction)
               sample_world) =
    Some {| crs := Some EPSG4326; rows := [smith; jones; unnamed] |}.
Proof.
  split; [reflexivity|]. split; [reflexivity|].
  exact (proj1 (predicate_filter_exact 0%nat (with_acres 0.5 10 no_restriction)
                  sample_frame sample_world eq_refl eq_refl)).
Defined.

(** Three miles around the centre: only the parcel in the city remains. *)
Lemma proximity_filter_refines_witness :
  heap sample_world !! 0%nat = Some sample_frame /\
  in_region 43.0111125 (-88.2275077) = true /\
  Num.truthy 3 = true /\
  Num.finite (3 * 1609.34) = true /\
  result_of (filter_by 0%nat near_centre sample_world) =
    Some {| crs := Some EPSG4326;
            rows := map with_popup
                      (spatial_proximity_filter EPSG4326
                         (List.filter (satisfies near_centre) (rows sample_frame))
                         43.0111125 (-88.2275077) 3) |}.
Proof.
  split; [reflexivity|]. split; [vm_compute; reflexivity|].
  split; [vm_compute; reflexivity|]. split; [vm_compute; reflexivity|].
  refine (proj1 (proximity_filter_refines 0%nat near_centre sample_frame
                   EPSG4326 sample_world 43.0111125 (-88.2275077) 3
                   eq_refl eq_refl eq_refl eq_refl eq_refl eq_refl _ _ _));
    vm_compute; reflexivity.
Defined.

(** The specification's region-guard example: latitude 45. *)
Lemma out_of_region_is_reported_witness :
  heap sample_world !! 0%nat = Some sample_frame /\
  ~ (Num.fle 42 45 /\ Num.fle 45 44) /\
  result_of (filter_by 0%nat (with_proximity 45 (-88) 1 no_restriction)
               sample_world) = Some empty_frame /\
  ui (snd (filter_by 0%nat (with_proximity 45 (-88) 1 no_restriction)
             sample_world)) =
    [StError "Coordinates out of valid range for Waukesha County."].
Proof.
  assert (Hout : ~ (Num.fle 42 45 /\ Num.fle 45 44)).
  { intros [_ H]. vm_compute in H. discriminate H. }
  split; [reflexivity|]. split; [exact Hout|].
  refine (out_of_region_is_reported 0%nat (with_proximity 45 (-88) 1 no_restriction)
            sample_frame sample_world 45 (-88) 1
            eq_refl eq_refl eq_refl eq_refl eq_refl _ _ _ (or_introl Hout));
    vm_compute; reflexivity.
Defined.

(** Latitude 45 with radius zero: no error, nothing filtered by distance. *)
Lemma zero_skips_proximity_witness :
  heap sample_world !! 0%nat = Some sample_frame /\
  ((45 =? 0) || (-88 =? 0) || (0 =? 0)) = true /\
  result_of (filter_by 0%nat (with_proximity 45 (-88) 0 no_restriction)
               sample_world) =
    Some {| crs := Some EPSG4326;
            rows := map with_popup [smith; jones; unnamed] |} /\
  ui (snd (filter_by 0%nat (with_proximity 45 (-88) 0 no_restriction)
             sample_world)) = [].
Proof.
  split; [reflexivity|]. split; [vm_compute; reflexivity|].
  assert (Hz : ((45 =? 0) || (-88 =? 0) || (0 =? 0)) = true)
    by (vm_compute; reflexivity).
  pose proof (zero_skips_proximity 0%nat (with_proximity 45 (-88) 0 no_restriction)
                sample_frame sample_world 45 (-88) 0
                eq_refl eq_refl eq_refl eq_refl eq_refl Hz) as [H1 [H2 _]].
  split; [exact H1 | exact H2].
Defined.

(** Adding the owner query "smith" to the unrestricted criteria. *)
Lemma filter_subset_monotone_witness :
  heap sample_world !! 0%nat = Some sample_frame /\
  adds_restriction no_restriction (with_owner "smith" no_restriction) /\
  exists F1 F2,
    result_of (filter_by 0%nat no_restriction sample_world) = Some F1 /\
    result_of (filter_by 0%nat (with_owner "smith" no_restriction) sample_world)
      = Some F2 /\
    records F2 `sublist_of` records F1 /\
    (forall t, In t (records F2) -> In t (records F1)).
Proof.
  assert (Hadd : adds_restriction no_restriction
                   (with_owner "smith" no_restriction))
    by exact (add_owner no_restriction "smith" eq_refl).
  split; [reflexivity|]. split; [exact Hadd|].
  exact (filter_subset_monotone 0%nat no_restriction
           (with_owner "smith" no_restriction) sample_frame EPSG4326
           sample_world eq_refl eq_refl eq_refl Hadd).
Defined.

Lemma popup_text_of_survivors_witness :
  heap sample_world !! 0%nat = Some sample_frame /\
  crs sample_frame = Some EPSG4326 /\
  owner_ok (c_owner no_restriction) = true /\
  exists F,
    result_of (filter_by 0%nat no_restriction sample_world) = Some F /\
    forall r, In r (rows F) ->
      exists p,
        popup_content r = Some p /\
        Text.contains (text_str (OWNERNME1 r)) p = true /\
        Text.contains (float_str (GISACRES r)) p = true /\
        Text.contains (float_str (ESTFMKVALU r)) p = true /\
        (forall url, URL r = Some url ->
           p = popup_head r +:+ "Tax Site: " +:+ link_to url /\
           Text.contains (link_to url) p = true) /\
        (URL r = None ->
           p = popup_head r +:+ "Tax Site: No URL available" /\
           Text.contains "No URL available" p = true).
Proof.
  split; [reflexivity|]. split; [reflexivity|]. split; [reflexivity|].
  exact (popup_text_of_survivors 0%nat no_restriction sample_frame EPSG4326
           sample_world eq_refl eq_refl eq_refl).
Defined.

(** A result of 1001 rows: 1000 rendered, 1000 tabulated, 1001 reported. *)
Lemma truncation_policy_witness :
  heap (world_of [large_frame]) !! 0%nat = Some large_frame /\
  (1000 < length (rows large_frame))%nat /\
  let run := main_after_filter (Some 0%nat) MGISACRES (world_of [large_frame]) in
  map_truncated (session (snd run)) = true /\
  exists new m,
    ui (snd run) = ui (world_of [large_frame]) ++ new /\
    shown_maps new = [m] /\
    shown_counts new = ["Showing 1001 parcels"] /\
    length (rendered m) = 1000%nat /\
    length (concat (shown_tables new)) = 1000%nat.
Proof.
  assert (Hbig : (1000 < length (rows large_frame))%nat)
    by (vm_compute; lia).
  split; [reflexivity|]. split; [exact Hbig|]. intros run.
  destruct (truncation_policy 0%nat large_frame MGISACRES
              (world_of [large_frame]) eq_refl)
    as [_ [Hflag [_ [new [m [Hui [Hmap [_ [_ [Hcount [Hover _]]]]]]]]]]].
  split; [exact Hflag|].
  exists new, m.
  destruct (Hover Hbig) as [Hr [Ht _]].
  repeat split; assumption.
Defined.

Lemma display_bounds_witness :
  heap sample_world !! 0%nat = Some sample_frame /\
  rows sample_frame <> [] /\
  map_bounds
    (session (snd (main_after_filter (Some 0%nat) MGISACRES sample_world))) =
    Some (expand_bbox 0.1 (total_bounds (map geometry (rows sample_frame)))).
Proof.
  assert (Hne : rows sample_frame <> []) by discriminate.
  split; [reflexivity|]. split; [exact Hne|].
  destruct (display_bounds 0%nat sample_frame MGISACRES sample_world eq_refl)
    as [new [m [_ [_ [Hbox _]]]]].
  exact (proj1 (Hbox Hne)).
Defined.

(** ** Where the code departs from the specification *)

(** C2, as stated, fails at radius zero: the query point is inside the
    region, the specification's proximity filter retains no sample parcel
    (none touches the point), yet the call returns all three, in the CRS
    of the dataset and with their geometries as they were. *)
Lemma zero_radius_is_not_filtered :
  let c := with_proximity 43.0111125 (-88.2275077) 0 no_restriction in
  in_region 43.0111125 (-88.2275077) = true /\
  spatial_proximity_filter EPSG4326
    (List.filter (satisfies c) (rows sample_frame))
    43.0111125 (-88.2275077) 0 = [] /\
  result_of (filter_by 0%nat c sample_world) =
    Some {| crs := Some EPSG4326;
            rows := map with_popup [smith; jones; unnamed] |} /\
  result_of (filter_by 0%nat c sample_world) <>
    Some {| crs := Some EPSG4326;
            rows := map with_popup
                      (spatial_proximity_filter EPSG4326
                         (List.filter (satisfies c) (rows sample_frame))
                         43.0111125 (-88.2275077) 0) |}.
Proof.
  intros c.
  assert (H1 : in_region 43.0111125 (-88.2275077) = true)
    by (vm_compute; reflexivity).
  assert (H2 : spatial_proximity_filter EPSG4326
                 (List.filter (satisfies c) (rows sample_frame))
                 43.0111125 (-88.2275077) 0 = [])
    by (vm_compute; reflexivity).
  assert (H3 : result_of (filter_by 0%nat c sample_world) =
               Some {| crs := Some EPSG4326;
                       rows := map with_popup [smith; jones; unnamed] |})
    by (vm_compute; reflexivity).
  repeat split; try assumption.
  rewrite H3, H2. discriminate.
Qed.

(** C3, as stated, fails at latitude zero: the latitude is outside
    [42, 44], yet no error is shown and the call returns all three sample
    parcels. *)
Lemma zero_latitude_is_not_reported :
  let c := with_proximity 0 (-88) 1 no_restriction in
  ~ (Num.fle 42 0 /\ Num.fle 0 44) /\
  ui (snd (filter_by 0%nat c sample_world)) = [] /\
  result_of (filter_by 0%nat c sample_world) =
    Some {| crs := Some EPSG4326;
            rows := map with_popup [smith; jones; unnamed] |} /\
  ~ (result_of (filter_by 0%nat c sample_world) = Some empty_frame /\
     ui (snd (filter_by 0%nat c sample_world)) =
       ui sample_world ++ [StError out_of_range_message]).
Proof.
  intros c.
  assert (H2 : ui (snd (filter_by 0%nat c sample_world)) = [])
    by (vm_compute; reflexivity).
  split; [intros [H _]; vm_compute in H; discriminate H|].
  split; [exact H2|].
  split; [vm_compute; reflexivity|].
  intros [_ H]. rewrite H2 in H. discriminate H.
Qed.

(** C8, as stated, fails on the marker: the popup of a parcel without URL
    ends in "No URL available", and the literal "no URL available" occurs
    nowhere in it. *)
Lemma marker_is_capitalised :
  (fun F => map (fun r => (URL r, popup_content r)) (rows F)) <$>
    result_of (filter_by 0%nat (with_owner "jones" no_restriction) sample_world)
  = Some [(None,
           Some "Owner: JONES MARY<br>Acres: 10.0<br>Market Value: 410000.0<br>Tax Site: No URL available")] /\
  Text.contains "no URL available"
    "Owner: JONES MARY<br>Acres: 10.0<br>Market Value: 410000.0<br>Tax Site: No URL available"
  = false.
Proof. split; vm_compute; reflexivity. Qed.

(** C6: the owner query is a regular expression.  The query "SM.TH" keeps
    the parcel of "SMITH JOHN", whose name does not contain "SM.TH" under
    case-insensitive comparison. *)
Theorem owner_query_is_a_pattern :
  (fun F => map OWNERNME1 (rows F)) <$>
    result_of (filter_by 0%nat (with_owner "SM.TH" no_restriction) sample_world)
  = Some [Some "SMITH JOHN"] /\
  Text.icontains "SM.TH" "SMITH JOHN" = false.
Proof. split; vm_compute; reflexivity. Qed.

End OnSamples.

(* ================================================================== *)
(** * Part VI: further properties of the program *)
(* ================================================================== *)

(** ** More on the order of binary64 values *)

Section FloatOrderMore.

Local Open Scope float_scope.

Lemma nan_spec (x : float) : is_nan x -> Prim2SF x = S754_nan.
Proof.
  unfold is_nan. rewrite FloatAxioms.eqb_spec. unfold SFeqb. intros H.
  destruct (Prim2SF x) as [s|s| |s m e] eqn:E; try reflexivity;
    rewrite SFcompare_refl in H by discriminate; discriminate H.
Qed.

Lemma leb_nan_r (lo x : float) : is_nan x -> (lo <=? x) = false.
Proof.
  intros H. rewrite FloatAxioms.leb_spec, (nan_spec x H). unfold SFleb.
  destruct (Prim2SF lo); reflexivity.
Qed.

Lemma SFleb_trans (a b c : spec_float) :
  SFleb a b = true -> SFleb b c = true -> SFleb a c = true.
Proof.
  unfold SFleb.
  destruct a as [sa|sa| |sa ma ea], b as [sb|sb| |sb mb eb],
           c as [sc|sc| |sc mc ec]; cbn;
    try discriminate; try reflexivity;
    try (destruct sa; try destruct sb; try destruct sc;
         cbn; congruence).
  change (Pos.compare_cont Eq ma mb) with (Pos.compare ma mb).
  change (Pos.compare_cont Eq mb mc) with (Pos.compare mb mc).
  change (Pos.compare_cont Eq ma mc) with (Pos.compare ma mc).
  destruct sa, sb, sc; try discriminate; try reflexivity;
    destruct (Z.compare_spec ea eb), (Z.compare_spec eb ec),
             (Z.compare_spec ea ec);
    try discriminate; try reflexivity; try lia; subst;
    destruct (Pos.compare_spec ma mb), (Pos.compare_spec mb mc),
             (Pos.compare_spec ma mc);
    cbn; try discriminate; try reflexivity; try lia.
Qed.

Lemma leb_trans (a b c : float) :
  (a <=? b) = true -> (b <=? c) = true -> (a <=? c) = true.
Proof. rewrite !FloatAxioms.leb_spec. apply SFleb_trans. Qed.

End FloatOrderMore.

(** ** More on [filter_parcels] *)

Section FilterMore.

Context `{GB : GeoBackend} `{PF : PyFormat}.

Lemma filter_result_sound D c F evs :
  filter_result D c = Some (F, evs) ->
  records F `sublist_of` map table_row (List.filter (satisfies c) (rows D)).
Proof.
  unfold filter_result, records.
  destruct (proximity_query _ _ _) as [[[lat lon] radius]|].
  - destruct (in_region lat lon).
    + destruct (crs D) as [src|]; [|discriminate]. intros [= <- _].
      rewrite table_rows_annotated. apply proximity_records.
    + intros [= <- _]. apply sublist_nil_l.
  - intros [= <- _]. rewrite table_rows_annotated. reflexivity.
Qed.

Lemma in_filtered_records c (rs : list Row) t :
  In t (map table_row (List.filter (satisfies c) rs)) ->
  exists r, In r rs /\ satisfies c r = true /\ t = table_row r.
Proof.
  intros H. apply List.in_map_iff in H as [r [<- Hr]].
  apply List.filter_In in Hr as [Hin Hsat]. eauto.
Qed.

Lemma filter_by_sound (gdf : loc) (c : FilterCriteria) (D : GeoDataFrame)
    (src : CRS) (w : World) :
  heap w !! gdf = Some D ->
  crs D = Some src ->
  owner_ok (c_owner c) = true ->
  exists F,
    result_of (filter_by gdf c w) = Some F /\
    records F `sublist_of` map table_row (List.filter (satisfies c) (rows D)) /\
    (forall t, In t (records F) ->
       exists r, In r (rows D) /\ satisfies c r = true /\ t = table_row r) /\
    length (rows F) <= length (rows D).
Proof.
  intros HD Hsrc Hown.
  destruct (filter_result_total D c src Hsrc) as [F [evs HF]].
  exists F. pose proof (filter_result_sound D c F evs HF) as Hsub.
  split; [exact (proj1 (filter_by_returns gdf c D w F evs HD Hown HF))|].
  split; [exact Hsub|]. split.
  - intros t Ht. apply in_filtered_records. exact (sublist_In _ _ Hsub t Ht).
  - apply sublist_length in Hsub. unfold records in Hsub.
    rewrite !length_map in Hsub.
    pose proof (sublist_length _ _ (filter_sublist (satisfies c) (rows D))).
    lia.
Qed.

(** X1.  Whatever the criteria (with or without a proximity query, inside
    or outside the region) whose radius, if there is one, gives a finite
    distance in metres, a call on a dataset with a CRS returns, and the
    records of the frame it returns are a subsequence of the records of the
    dataset rows that satisfy the attribute clauses: every returned record
    is a dataset record that passes all active attribute clauses, none is
    invented or duplicated, the order is the dataset's, and the result is
    never longer than the dataset.  (For a distance that is not finite the
    library's [buffer] raises; see [finite_radius].) *)
Theorem result_is_sound (gdf : loc) (c : FilterCriteria) (D : GeoDataFrame)
    (src : CRS) (w : World) :
  heap w !! gdf = Some D ->
  crs D = Some src ->
  owner_ok (c_owner c) = true ->
  finite_radius c = true ->
  exists F,
    result_of (filter_by gdf c w) = Some F /\
    records F `sublist_of` map table_row (List.filter (satisfies c) (rows D)) /\
    (forall t, In t (records F) ->
       exists r, In r (rows D) /\ satisfies c r = true /\ t = table_row r) /\
    length (rows F) <= length (rows D).
Proof.
  intros HD Hsrc Hown _.
  destruct (filter_result_total D c src Hsrc) as [F [evs HF]].
  exists F. pose proof (filter_result_sound D c F evs HF) as Hsub.
  split; [exact (proj1 (filter_by_returns gdf c D w F evs HD Hown HF))|].
  split; [exact Hsub|]. split.
  - intros t Ht. apply in_filtered_records. exact (sublist_In _ _ Hsub t Ht).
  - apply sublist_length in Hsub. unfold records in Hsub.
    rewrite !length_map in Hsub.
    pose proof (sublist_length _ _ (filter_sublist (satisfies c) (rows D))).
    lia.
Qed.

Lemma between_nan lo hi x : is_nan x -> Num.between lo hi x = false.
Proof. intros H. unfold Num.between. rewrite (leb_nan_r lo x H). reflexivity. Qed.

Lemma satisfies_clauses c r :
  satisfies c r = true ->
  acreage_clause c r = true /\ owner_clause c r = true /\
  set_clause (c_placenames c) (PLACENAME r) = true /\
  set_clause (c_zipcodes c) (ZIPCODE r) = true /\
  set_clause (c_schooldists c) (SCHOOLDIST r) = true /\
  value_clause c r = true.
Proof. unfold satisfies. rewrite !andb_true_iff. tauto. Qed.

Lemma set_clause_null vs : vs <> [] -> set_clause vs None = false.
Proof. destruct vs; [congruence | reflexivity]. Qed.

(** X2.  Missing data never matches an active clause.  In the frame a call
    returns no record has a NaN acreage; when both value bounds are given
    (as the form always gives them) none has a NaN market value; under a
    non-empty owner query none has a null owner; under a non-empty place,
    zip or school-district selection none has a null in that column. *)
Theorem missing_values_are_dropped (gdf : loc) (c : FilterCriteria)
    (D : GeoDataFrame) (src : CRS) (w : World) :
  heap w !! gdf = Some D ->
  crs D = Some src ->
  owner_ok (c_owner c) = true ->
  exists F,
    result_of (filter_by gdf c w) = Some F /\
    forall t, In t (records F) ->
      ~ is_nan (t_acres t) /\
      (forall lo hi, c_value_min c = Some lo -> c_value_max c = Some hi ->
                     ~ is_nan (t_value t)) /\
      (c_owner c <> "" -> t_owner t <> None) /\
      (c_placenames c <> [] -> t_place t <> None) /\
      (c_zipcodes c <> [] -> t_zip t <> None) /\
      (c_schooldists c <> [] -> t_school t <> None).
Proof.
  intros HD Hsrc Hown.
  destruct (filter_by_sound gdf c D src w HD Hsrc Hown)
    as [F [HF [_ [Hin _]]]].
  exists F. split; [exact HF|]. intros t Ht.
  destruct (Hin t Ht) as [r [_ [Hsat ->]]].
  apply satisfies_clauses in Hsat as [Ha [Ho [Hp [Hz [Hs Hv]]]]].
  cbn [table_row t_acres t_value t_owner t_place t_zip t_school].
  repeat split.
  - intros Hn. unfold acreage_clause in Ha.
    rewrite (between_nan _ _ _ Hn) in Ha. discriminate Ha.
  - intros lo hi Hlo Hhi Hn. unfold value_clause in Hv.
    rewrite Hlo, Hhi, (between_nan _ _ _ Hn) in Hv. discriminate Hv.
  - intros Hq Hnull. unfold owner_clause in Ho.
    destruct (c_owner c) as [|ch q]; [congruence|]. cbn [Text.truthy] in Ho.
    rewrite Hnull, owner_matches_null in Ho. discriminate Ho.
  - intros Hne Hnull. rewrite Hnull, (set_clause_null _ Hne) in Hp.
    discriminate Hp.
  - intros Hne Hnull. rewrite Hnull, (set_clause_null _ Hne) in Hz.
    discriminate Hz.
  - intros Hne Hnull. rewrite Hnull, (set_clause_null _ Hne) in Hs.
    discriminate Hs.
Qed.

Lemma between_inverted lo hi x :
  Num.flt hi lo -> Num.between lo hi x = false.
Proof.
  unfold Num.flt, Num.between. intros Hinv.
  destruct (lo <=? x)%float eqn:H1; [|reflexivity].
  destruct (x <=? hi)%float eqn:H2; [|reflexivity].
  pose proof (leb_trans _ _ _ H1 H2) as H.
  rewrite (ltb_leb_false _ _ Hinv) in H. discriminate H.
Qed.

Lemma filter_none {A} (p : A -> bool) (l : list A) :
  (forall x, p x = false) -> List.filter p l = [].
Proof.
  intros H. induction l as [|x l IH]; cbn; [reflexivity|].
  rewrite H. exact IH.
Qed.

(** X3.  An inverted range is not repaired: when the acreage maximum is
    below the minimum, or both value bounds are given with the maximum below
    the minimum, the call returns a frame without rows. *)
Theorem inverted_range_selects_nothing (gdf : loc) (c : FilterCriteria)
    (D : GeoDataFrame) (src : CRS) (w : World) :
  heap w !! gdf = Some D ->
  crs D = Some src ->
  owner_ok (c_owner c) = true ->
  Num.flt (c_acres_max c) (c_acres_min c) \/
  (exists lo hi, c_value_min c = Some lo /\ c_value_max c = Some hi /\
                 Num.flt hi lo) ->
  exists F, result_of (filter_by gdf c w) = Some F /\ rows F = [].
Proof.
  intros HD Hsrc Hown Hinv.
  destruct (filter_by_sound gdf c D src w HD Hsrc Hown)
    as [F [HF [Hsub _]]].
  exists F. split; [exact HF|].
  assert (Hnone : List.filter (satisfies c) (rows D) = []).
  { apply filter_none. intros r. unfold satisfies.
    destruct Hinv as [Ha | [lo [hi [Hlo [Hhi Hv]]]]].
    - unfold acreage_clause. rewrite (between_inverted _ _ _ Ha). reflexivity.
    - unfold value_clause. rewrite Hlo, Hhi, (between_inverted _ _ _ Hv).
      apply andb_false_r. }
  rewrite Hnone in Hsub. apply sublist_nil_r in Hsub.
  unfold records in Hsub. destruct (rows F); [reflexivity | discriminate Hsub].
Qed.

(** X4.  The frame a call returns is an object of its own: its location
    did not exist before the call, so it is not the dataset, and writing to
    it later cannot change a frame that existed before. *)
Theorem result_is_a_new_object
    (gdf : loc) (acres_min acres_max : float) (owner_name : string)
    (placenames zipcodes schooldists : list string)
    (estfmkvalu_min estfmkvalu_max lat lon distance_miles : option float)
    (w w' : World) (l : loc) :
  filter_parcels gdf acres_min acres_max owner_name placenames zipcodes
    schooldists estfmkvalu_min estfmkvalu_max lat lon distance_miles w
    = (Ok l, w') ->
  heap w !! l = None /\ l <> gdf.
Proof.
  intros Hrun.
  destruct (preserves_filter_parcels (heap w) gdf acres_min acres_max
              owner_name placenames zipcodes schooldists estfmkvalu_min
              estfmkvalu_max lat lon distance_miles w) as [_ Hfresh];
    [reflexivity|].
  rewrite Hrun in Hfresh. cbn in Hfresh. unfold fresh_for in Hfresh.
  assert (Hnone : heap w !! l = None) by (apply lookup_ge_None; exact Hfresh).
  split; [exact Hnone|].
  destruct (heap w !! gdf) as [D|] eqn:HD.
  - intros ->. congruence.
  - exfalso. revert Hrun.
    unfold filter_parcels, attribute_filter, copy, bind, deref.
    rewrite HD. discriminate.
Qed.

End FilterMore.

(** ** More on the map, its file and the clean-up *)

Section MapMore.

Context `{GB : GeoBackend} `{PF : PyFormat}.

Local Arguments take : simpl never.
Local Arguments Nat.ltb : simpl never.

Lemma find_after_removal (name other : string) (fs : list (string * FoliumMap)) :
  other <> name ->
  List.find (fun f => String.eqb other (fst f))
            (List.filter (fun f => negb (String.eqb name (fst f))) fs) =
  List.find (fun f => String.eqb other (fst f)) fs.
Proof.
  intros Hne. induction fs as [|[n m] fs IH]; cbn; [reflexivity|].
  destruct (String.eqb name n) eqn:E1; cbn.
  - apply String.eqb_eq in E1 as <-.
    destruct (String.eqb other name) eqn:E2; [|exact IH].
    apply String.eqb_eq in E2. contradiction.
  - destruct (String.eqb other n); [reflexivity | exact IH].
Qed.

Lemma find_removed (name : string) (fs : list (string * FoliumMap)) :
  List.find (fun f => String.eqb name (fst f))
            (List.filter (fun f => negb (String.eqb name (fst f))) fs) = None.
Proof.
  induction fs as [|[n m] fs IH]; cbn; [reflexivity|].
  destruct (String.eqb name n) eqn:E1; cbn; [exact IH|].
  rewrite E1. exact IH.
Qed.

Lemma markers_of_markers (rs : list Row) :
  omap (fun x => match x with
                 | Marker p popup => Some (p, popup)
                 | _ => None
                 end) (map marker_of rs) =
  map (fun r => ((snd (centroid (geometry r)), fst (centroid (geometry r))),
                 popup_content r)) rs.
Proof. induction rs as [|r rs IH]; cbn; [reflexivity | rewrite IH; reflexivity]. Qed.

Lemma markers_page_map df b :
  markers (page_map df b) =
  if (length (rows df) <? 200)%nat
  then map (fun r => ((snd (centroid (geometry r)), fst (centroid (geometry r))),
                      popup_content r)) (rows df)
  else [].
Proof.
  unfold markers, page_map. cbn [add_to layers].
  destruct (negb (empty df)) eqn:He.
  - destruct (length (rows df) <? 200)%nat.
    + rewrite layers_markers. cbn [add_to layers]. rewrite layers_base_fit.
      rewrite !omap_app, markers_of_markers. cbn. rewrite app_nil_r.
      reflexivity.
    + cbn [add_to layers]. rewrite layers_base_fit. reflexivity.
  - rewrite layers_base_fit. apply empty_rows in He. rewrite He.
    destruct (length [] <? 200)%nat; reflexivity.
Qed.

(** X5.  The map [generate_map_html] writes for a frame that has its popup
    texts (as every frame [filter_parcels] returns has): with fewer than
    200 rows it has one marker per row, in row order, at (centroid.y,
    centroid.x) and with the row's popup text; with 200 rows or more it has
    no marker.  Markers and truncation exclude each other, the layer control
    is the last layer, and the map is fitted to the bounds passed in (to
    none when none are passed). *)
Theorem markers_policy (l : loc) (df : GeoDataFrame) (b : option MapBounds)
    (w : World) :
  heap w !! l = Some df ->
  has_popups df = true ->
  exists m,
    file_content "temp_map.html" (snd (generate_map_html (Some l) b w)) = Some m /\
    (length (rows df) < 200 ->
       markers m =
       map (fun r => ((snd (centroid (geometry r)), fst (centroid (geometry r))),
                      popup_content r)) (rows df)) /\
    (200 <= length (rows df) -> markers m = []) /\
    (fst (generate_map_html (Some l) b w) = Ok ("temp_map.html", true) ->
       markers m = []) /\
    last (layers m) = Some LayerControl /\
    fitted m = b.
Proof.
  intros H _. rewrite (generate_map_html_run l df b w H).
  exists (page_map df b). unfold file_content. cbn [snd fst files with_files].
  cbn [List.find fst snd]. rewrite String.eqb_refl. cbn [fmap option_fmap option_map snd].
  split; [reflexivity|]. rewrite markers_page_map.
  split; [|split; [|split; [|split]]].
  - intros Hlt. apply Nat.ltb_lt in Hlt. rewrite Hlt. reflexivity.
  - intros Hge. apply Nat.ltb_ge in Hge. rewrite Hge. reflexivity.
  - unfold truncated. cbn. intros [= Ht]. apply Nat.ltb_lt in Ht.
    destruct (length (rows df) <? 200)%nat eqn:E; [|reflexivity].
    apply Nat.ltb_lt in E. lia.
  - unfold page_map. cbn [add_to layers]. apply last_snoc.
  - apply fitted_page_map.
Qed.

Lemma find_none_of_existsb (name : string) (fs : list (string * FoliumMap)) :
  existsb (fun f => String.eqb name (fst f)) fs = false ->
  List.find (fun f => String.eqb name (fst f)) fs = None.
Proof.
  induction fs as [|[n m] fs IH]; cbn; [reflexivity|].
  destruct (String.eqb name n); cbn; [discriminate | exact IH].
Qed.

(** X6.  [generate_map_html] touches nothing but its file: the store, the
    page and the session are as before, every file other than
    "temp_map.html" keeps its content, and when the call returns, the file
    "temp_map.html" holds the map just built, replacing what was there.
    Without a frame the map has the layer control only and the flag is
    false. *)
Theorem map_generation_writes_one_file (filtered_gdf : option loc)
    (b : option MapBounds) (w : World) :
  let run := generate_map_html filtered_gdf b w in
  heap (snd run) = heap w /\ ui (snd run) = ui w /\
  session (snd run) = session w /\
  (forall name, name <> "temp_map.html" ->
     file_content name (snd run) = file_content name w) /\
  (forall r, fst run = Ok r ->
     fst r = "temp_map.html" /\
     exists m, file_content "temp_map.html" (snd run) = Some m /\ fitted m = b) /\
  (filtered_gdf = None ->
     fst run = Ok ("temp_map.html", false) /\
     exists m, file_content "temp_map.html" (snd run) = Some m /\
               layers m = [LayerControl]).
Proof.
  intros run. subst run. unfold file_content.
  destruct filtered_gdf as [l|].
  - destruct (heap w !! l) as [df|] eqn:H.
    + rewrite (generate_map_html_run l df b w H).
      cbn [fst snd heap ui session files with_files].
      refine (conj eq_refl (conj eq_refl (conj eq_refl (conj _ (conj _ _))))).
      * intros name Hne. cbn [List.find fst].
        destruct (String.eqb name "temp_map.html") eqn:E;
          [apply String.eqb_eq in E; contradiction|].
        rewrite find_after_removal by exact Hne. reflexivity.
      * intros r [= <-]. split; [reflexivity|].
        exists (page_map df b). cbn [List.find fst]. rewrite String.eqb_refl.
        split; [reflexivity | apply fitted_page_map].
      * discriminate.
    + unfold generate_map_html, bind, deref. rewrite H.
      cbn [fst snd].
      refine (conj eq_refl (conj eq_refl (conj eq_refl (conj _ (conj _ _)))));
        [reflexivity | discriminate | discriminate].
  - unfold generate_map_html, bind, ret, save.
    cbn [fst snd heap ui session files with_files].
    refine (conj eq_refl (conj eq_refl (conj eq_refl (conj _ (conj _ _))))).
    + intros name Hne. cbn [List.find fst].
      destruct (String.eqb name "temp_map.html") eqn:E;
        [apply String.eqb_eq in E; contradiction|].
      rewrite find_after_removal by exact Hne. reflexivity.
    + intros r [= <-]. split; [reflexivity|].
      eexists. cbn [List.find fst]. rewrite String.eqb_refl.
      split; [reflexivity|]. destruct b; reflexivity.
    + intros _. split; [reflexivity|].
      eexists. cbn [List.find fst]. rewrite String.eqb_refl.
      split; [reflexivity|]. destruct b; reflexivity.
Qed.

(** X7.  [cleanup] removes "temp_map.html" and nothing else: afterwards
    that file does not exist, every other file (the default map's among
    them) keeps its content, store, page and session are untouched, and
    when the file did not exist the world is left exactly as it was. *)
Theorem cleanup_removes_the_map_file (w : World) :
  fst (cleanup w) = Ok tt /\
  file_content "temp_map.html" (snd (cleanup w)) = None /\
  (forall name, name <> "temp_map.html" ->
     file_content name (snd (cleanup w)) = file_content name w) /\
  heap (snd (cleanup w)) = heap w /\ ui (snd (cleanup w)) = ui w /\
  session (snd (cleanup w)) = session w /\
  (file_content "temp_map.html" w = None -> snd (cleanup w) = w).
Proof.
  unfold cleanup, bind, path_exists, file_content.
  destruct (existsb (fun f => String.eqb "temp_map.html" (fst f)) (files w))
    eqn:E; cbn [fst snd remove ret heap ui session files with_files].
  - repeat split.
    + rewrite find_removed. reflexivity.
    + intros name Hne. rewrite find_after_removal by exact Hne. reflexivity.
    + intros Hnone.
      assert (Hf : existsb (fun f => String.eqb "temp_map.html" (fst f))
                           (files w) = false).
      { clear E. induction (files w) as [|[n m] fs IH]; [reflexivity|].
        cbn [List.find existsb fst] in Hnone |- *.
        destruct (String.eqb "temp_map.html" n);
          [cbn in Hnone; discriminate Hnone | exact (IH Hnone)]. }
      congruence.
  - repeat split.
    rewrite (find_none_of_existsb _ _ E). reflexivity.
Qed.

End MapMore.

(** ** The page, run after run *)

Section PageMore.

Context `{GB : GeoBackend} `{PF : PyFormat}.

Local Arguments take : simpl never.
Local Arguments Nat.ltb : simpl never.
Local Arguments pretty : simpl never.

Lemma form_applied gdf inp w :
  apply_filters inp = true ->
  apply_filters_from_form gdf inp w =
  bind (filter_by gdf (criteria_of_form inp)) (fun l => ret (Some l)) w.
Proof.
  intros Ha. unfold apply_filters_from_form, filter_by, criteria_of_form.
  destruct (acres_range inp) as [amin amax], (value_range inp) as [vmin vmax].
  rewrite Ha. destruct (use_distance inp); reflexivity.
Qed.

Lemma form_reset gdf inp w :
  apply_filters inp = false ->
  reset_filters inp = true ->
  apply_filters_from_form gdf inp w = (Ok None, with_session reset_session w).
Proof.
  intros Ha Hr. unfold apply_filters_from_form.
  destruct (acres_range inp) as [amin amax], (value_range inp) as [vmin vmax].
  rewrite Ha, Hr. destruct (use_distance inp); reflexivity.
Qed.

Lemma form_idle gdf inp w :
  apply_filters inp = false ->
  reset_filters inp = false ->
  apply_filters_from_form gdf inp w = (Ok None, w).
Proof.
  intros Ha Hr. unfold apply_filters_from_form.
  destruct (acres_range inp) as [amin amax], (value_range inp) as [vmin vmax].
  rewrite Ha, Hr. destruct (use_distance inp); reflexivity.
Qed.

(** The page of a run that submits the form. *)
Lemma apply_page gdf inp metric D F evs w :
  heap w !! gdf = Some D ->
  owner_ok (owner_input inp) = true ->
  apply_filters inp = true ->
  filter_result D (criteria_of_form inp) = Some (F, evs) ->
  exists l w',
    main gdf inp metric w = (Ok tt, w') /\
    ui w' = ui w ++ [StTitle "Waukesha County Parcel Viewer"] ++ evs ++
            page_events F metric /\
    session w' = page_session l F /\
    heap w' !! l = Some F /\
    heap w `prefix_of` heap w'.
Proof.
  intros HD Hown Ha HF.
  set (W0 := with_ui (ui w ++ [StTitle "Waukesha County Parcel Viewer"]) w).
  change (main gdf inp metric w)
    with (bind (apply_filters_from_form gdf inp)
               (fun f => main_after_filter f metric) W0).
  unfold bind at 1. rewrite (form_applied gdf inp W0 Ha).
  destruct (filter_by_run gdf (criteria_of_form inp) D W0 F evs HD Hown HF)
    as [mid E].
  unfold bind at 1. rewrite E. cbn [ret].
  set (l := length (heap W0 ++ mid)).
  set (W1 := with_ui (ui W0 ++ evs) (with_heap ((heap W0 ++ mid) ++ [F]) W0)).
  assert (H1 : heap W1 !! l = Some F) by apply lookup_new.
  destruct (page_after_filter l F metric W1 H1) as [fs E2].
  rewrite E2. eexists l, _. split; [reflexivity|].
  cbn [ui session heap]. split; [|split; [reflexivity|split; [exact H1|]]].
  - subst W1 W0. cbn [ui with_ui with_heap]. rewrite <- !app_assoc. reflexivity.
  - subst W1 W0. cbn [heap with_ui with_heap]. rewrite <- app_assoc.
    apply prefix_app_r. reflexivity.
Qed.

Lemma apply_page_total (gdf : loc) (inp : FormInput) (metric : Metric)
    (D : GeoDataFrame) (src : CRS) (w : World) :
  heap w !! gdf = Some D ->
  crs D = Some src ->
  owner_ok (owner_input inp) = true ->
  apply_filters inp = true ->
  exists F evs l w',
    filter_result D (criteria_of_form inp) = Some (F, evs) /\
    main gdf inp metric w = (Ok tt, w') /\
    ui w' = ui w ++ [StTitle "Waukesha County Parcel Viewer"] ++ evs ++
            page_events F metric /\
    session w' = page_session l F /\
    heap w' !! l = Some F /\
    heap w `prefix_of` heap w'.
Proof.
  intros HD Hsrc Hown Ha.
  destruct (filter_result_total D (criteria_of_form inp) src Hsrc)
    as [F [evs HF]].
  destruct (apply_page gdf inp metric D F evs w HD Hown Ha HF) as [l [w' H]].
  exists F, evs, l, w'. split; [exact HF | exact H].
Qed.

(** X8.  A run with "Apply Filters" on a dataset with a CRS: the page gets
    the title, then what the filter reports, then the page of the filter's
    result for the criteria the form stands for; the session describes this
    result, which is in the store, and no earlier object has changed. *)
Theorem apply_shows_the_result (gdf : loc) (inp : FormInput) (metric : Metric)
    (D : GeoDataFrame) (src : CRS) (w : World) :
  heap w !! gdf = Some D ->
  crs D = Some src ->
  owner_ok (owner_input inp) = true ->
  apply_filters inp = true ->
  exists F evs l w',
    filter_result D (criteria_of_form inp) = Some (F, evs) /\
    main gdf inp metric w = (Ok tt, w') /\
    ui w' = ui w ++ [StTitle "Waukesha County Parcel Viewer"] ++ evs ++
            page_events F metric /\
    session w' = page_session l F /\
    heap w' !! l = Some F /\
    heap w `prefix_of` heap w'.
Proof.
  intros HD Hsrc Hown Ha.
  destruct (filter_result_total D (criteria_of_form inp) src Hsrc)
    as [F [evs HF]].
  destruct (apply_page gdf inp metric D F evs w HD Hown Ha HF) as [l [w' H]].
  exists F, evs, l, w'. split; [exact HF | exact H].
Qed.

(** X9.  A run with "Apply Filters" and a distance query whose point is
    outside the region (all three numbers non-zero; values the limits of
    the two number inputs do not let a user enter): the page shows the
    title, the out-of-range error, the warning that no parcels match, the
    default map and the count line for zero parcels, in this order; the
    session keeps no bounds and no map file. *)
Theorem out_of_region_page (gdf : loc) (inp : FormInput) (metric : Metric)
    (D : GeoDataFrame) (w : World) :
  heap w !! gdf = Some D ->
  owner_ok (owner_input inp) = true ->
  apply_filters inp = true ->
  use_distance inp = true ->
  Num.truthy (lat_input inp) = true -> Num.truthy (lon_input inp) = true ->
  Num.truthy (distance_slider inp) = true ->
  in_region (lat_input inp) (lon_input inp) = false ->
  exists w',
    main gdf inp metric w = (Ok tt, w') /\
    ui w' = ui w ++
      [StTitle "Waukesha County Parcel Viewer";
       StError "Coordinates out of valid range for Waukesha County.";
       StWarning "No parcels match your filters.";
       ComponentsHtml base_map;
       SidebarWrite "Showing 0 parcels"] /\
    map_bounds (session w') = None /\
    map_file (session w') = None /\
    map_truncated (session w') = false.
Proof.
  intros HD Hown Ha Hd Hlat Hlon Hrad Hreg.
  assert (HF : filter_result D (criteria_of_form inp) =
               Some (empty_frame, [StError out_of_range_message])).
  { unfold filter_result, criteria_of_form, proximity_query.
    cbn [c_lat c_lon c_radius]. rewrite Hd, Hlat, Hlon, Hrad. cbn [andb].
    rewrite Hreg. reflexivity. }
  destruct (apply_page gdf inp metric D _ _ w HD Hown Ha HF)
    as [l [w' [Hrun [Hui [Hs _]]]]].
  exists w'. split; [exact Hrun|]. rewrite Hui, Hs.
  repeat split.
Qed.

(** What a run shows when the form delivers no new result. *)
Lemma page_without_result metric w :
  session_ok w ->
  exists fs,
    main_after_filter None metric w =
      (Ok tt,
       {| heap := heap w;
          ui := ui w ++
                match filtered_gdf (session w) with
                | Some l =>
                    match heap w !! l with
                    | Some df => retained_events df metric
                    | None => []
                    end
                | None => [ComponentsHtml base_map]
                end;
          session := session w;
          files := fs |}).
Proof.
  destruct w as [h u s f]. unfold session_ok. cbn [heap ui session].
  unfold main_after_filter.
  change (main_store_result None) with (ret tt : M unit).
  destruct (filtered_gdf s) as [l|] eqn:Hl.
  - intros [df [H ->]]. rewrite H. unfold retained_events, page_events.
    destruct (main_update_map_run l df h u f H) as [f2 E2].
    unfold bind at 1. cbn [ret]. rewrite (bind_ok _ _ _ _ _ E2). clear E2.
    destruct (negb (empty df)) eqn:He.
    + destruct (main_display_map_shows l df h u
                  (page_map df (Some (padded_bounds (map geometry (rows df)))))
                  f2 He) as [f3 E3].
      rewrite (bind_ok _ _ _ _ _ E3). clear E3.
      rewrite (main_display_results_run l df metric h _ f3 H), He.
      exists f3. rewrite <- !app_assoc. reflexivity.
    + destruct (main_display_map_default l df h u f He) as [f3 E3].
      rewrite (bind_ok _ _ _ _ _ E3). clear E3.
      rewrite (main_display_results_run l df metric h _ f3 H), He.
      exists f3. rewrite <- !app_assoc. reflexivity.
  - intros ->. eexists. reflexivity.
Qed.

Lemma reset_page (gdf : loc) (inp : FormInput) (metric : Metric)
    (w : World) :
  apply_filters inp = false ->
  reset_filters inp = true ->
  exists w',
    main gdf inp metric w = (Ok tt, w') /\
    session w' = reset_session /\
    ui w' = ui w ++ [StTitle "Waukesha County Parcel Viewer";
                     ComponentsHtml base_map] /\
    heap w' = heap w.
Proof.
  intros Ha Hr.
  set (W0 := with_ui (ui w ++ [StTitle "Waukesha County Parcel Viewer"]) w).
  change (main gdf inp metric w)
    with (bind (apply_filters_from_form gdf inp)
               (fun f => main_after_filter f metric) W0).
  unfold bind at 1. rewrite (form_reset gdf inp W0 Ha Hr).
  destruct (page_without_result metric (with_session reset_session W0))
    as [fs E]; [reflexivity|].
  rewrite E. eexists. split; [reflexivity|].
  cbn. rewrite <- app_assoc. repeat split.
Qed.

(** X10.  A run with "Reset Map": whatever the session held, it is cleared
    (no result, no bounds, no map file, flag false), and the page shows the
    title and the default map only: no count, no table, no chart.  The
    store is untouched. *)
Theorem reset_clears_the_page (gdf : loc) (inp : FormInput) (metric : Metric)
    (w : World) :
  apply_filters inp = false ->
  reset_filters inp = true ->
  exists w',
    main gdf inp metric w = (Ok tt, w') /\
    session w' = reset_session /\
    ui w' = ui w ++ [StTitle "Waukesha County Parcel Viewer";
                     ComponentsHtml base_map] /\
    heap w' = heap w.
Proof.
  intros Ha Hr.
  set (W0 := with_ui (ui w ++ [StTitle "Waukesha County Parcel Viewer"]) w).
  change (main gdf inp metric w)
    with (bind (apply_filters_from_form gdf inp)
               (fun f => main_after_filter f metric) W0).
  unfold bind at 1. rewrite (form_reset gdf inp W0 Ha Hr).
  destruct (page_without_result metric (with_session reset_session W0))
    as [fs E]; [reflexivity|].
  rewrite E. eexists. split; [reflexivity|].
  cbn. rewrite <- app_assoc. repeat split.
Qed.

Lemma idle_page (gdf : loc) (inp : FormInput)
    (metric : Metric) (w : World) :
  session_ok w ->
  apply_filters inp = false ->
  reset_filters inp = false ->
  exists w',
    main gdf inp metric w = (Ok tt, w') /\
    session w' = session w /\ heap w' = heap w /\
    (forall l df,
       filtered_gdf (session w) = Some l -> heap w !! l = Some df ->
       ui w' = ui w ++ [StTitle "Waukesha County Parcel Viewer"] ++
               retained_events df metric) /\
    (filtered_gdf (session w) = None ->
       ui w' = ui w ++ [StTitle "Waukesha County Parcel Viewer";
                        ComponentsHtml base_map]).
Proof.
  intros Hok Ha Hr.
  set (W0 := with_ui (ui w ++ [StTitle "Waukesha County Parcel Viewer"]) w).
  change (main gdf inp metric w)
    with (bind (apply_filters_from_form gdf inp)
               (fun f => main_after_filter f metric) W0).
  unfold bind at 1. rewrite (form_idle gdf inp W0 Ha Hr).
  destruct (page_without_result metric W0) as [fs E]; [exact Hok|].
  rewrite E. eexists. split; [reflexivity|].
  cbn [session heap ui W0 with_ui].
  split; [reflexivity|]. split; [reflexivity|]. split.
  - intros l df Hl Hdf. rewrite Hl, Hdf, <- app_assoc. reflexivity.
  - intros Hl. rewrite Hl, <- app_assoc. reflexivity.
Qed.

(** X11.  A run in which no button is pressed displays again what the
    session retains and changes neither session nor store: for a retained
    result with rows the same map, count, table and chart events as when it
    was first shown; for a retained result without rows the default map and
    the count line (the "no parcels" warning is not repeated); without a
    retained result the default map only. *)
Theorem rerun_shows_the_retained_result (gdf : loc) (inp : FormInput)
    (metric : Metric) (w : World) :
  session_ok w ->
  apply_filters inp = false ->
  reset_filters inp = false ->
  exists w',
    main gdf inp metric w = (Ok tt, w') /\
    session w' = session w /\ heap w' = heap w /\
    (forall l df,
       filtered_gdf (session w) = Some l -> heap w !! l = Some df ->
       ui w' = ui w ++ [StTitle "Waukesha County Parcel Viewer"] ++
               retained_events df metric) /\
    (filtered_gdf (session w) = None ->
       ui w' = ui w ++ [StTitle "Waukesha County Parcel Viewer";
                        ComponentsHtml base_map]).
Proof.
  intros Hok Ha Hr.
  set (W0 := with_ui (ui w ++ [StTitle "Waukesha County Parcel Viewer"]) w).
  change (main gdf inp metric w)
    with (bind (apply_filters_from_form gdf inp)
               (fun f => main_after_filter f metric) W0).
  unfold bind at 1. rewrite (form_idle gdf inp W0 Ha Hr).
  destruct (page_without_result metric W0) as [fs E]; [exact Hok|].
  rewrite E. eexists. split; [reflexivity|].
  cbn [session heap ui W0 with_ui].
  split; [reflexivity|]. split; [reflexivity|]. split.
  - intros l df Hl Hdf. rewrite Hl, Hdf, <- app_assoc. reflexivity.
  - intros Hl. rewrite Hl, <- app_assoc. reflexivity.
Qed.

(** X12.  The session stays well-formed from run to run.  If before a run
    the session is either clear or describes a result that is in the store,
    then, whichever button is pressed, the run completes (for a dataset with
    a CRS and an owner pattern the model covers), the session is again clear
    or describes a stored result, and every object of the store is as it
    was. *)
Theorem session_stays_well_formed (gdf : loc) (inp : FormInput)
    (metric : Metric) (D : GeoDataFrame) (src : CRS) (w : World) :
  session_ok w ->
  heap w !! gdf = Some D ->
  crs D = Some src ->
  owner_ok (owner_input inp) = true ->
  exists w',
    main gdf inp metric w = (Ok tt, w') /\
    session_ok w' /\
    heap w `prefix_of` heap w'.
Proof.
  intros Hok HD Hsrc Hown.
  destruct (apply_filters inp) eqn:Ha; [|destruct (reset_filters inp) eqn:Hr].
  - destruct (apply_page_total gdf inp metric D src w HD Hsrc Hown Ha)
      as [F [evs [l [w' [_ [Hrun [_ [Hs [Hl Hpre]]]]]]]]].
    exists w'. split; [exact Hrun|]. split; [|exact Hpre].
    unfold session_ok. rewrite Hs.
    assert (Hf : filtered_gdf (page_session l F) = Some l)
      by (unfold page_session; destruct (negb (empty F)); reflexivity).
    rewrite Hf. exists F. split; [exact Hl | reflexivity].
  - destruct (reset_page gdf inp metric w Ha Hr)
      as [w' [Hrun [Hs [_ Hh]]]].
    exists w'. split; [exact Hrun|]. split; [|rewrite Hh; reflexivity].
    unfold session_ok. rewrite Hs. reflexivity.
  - destruct (idle_page gdf inp metric w Hok Ha Hr)
      as [w' [Hrun [Hs [Hh _]]]].
    exists w'. split; [exact Hrun|]. split; [|rewrite Hh; reflexivity].
    unfold session_ok in *. rewrite Hs, Hh. exact Hok.
Qed.

End PageMore.

(** ** Loading the dataset and deriving the filter options *)

Section StartupMore.

Context `{GB : GeoBackend} `{PF : PyFormat} `{PE : PyExn}.

Local Open Scope py_scope.

(** The frame [load_parcels] delivers for a file frame in CRS [src]. *)
Lemma load_parcels_reads df0 src w :
  crs df0 = Some src ->
  exists mid,
    load_parcels (ReadFrame df0) w =
      (Ok (Some (length (heap w ++ mid))),
       with_heap
         ((heap w ++ mid) ++
          [{| crs := Some EPSG4326;
              rows := match src with
                      | EPSG4326 => rows df0
                      | _ => map (reproject src EPSG4326) (rows df0)
                      end |}]) w).
Proof.
  intros Hsrc. unfold load_parcels, try_except.
  unfold bind at 1. unfold alloc at 1.
  set (W1 := with_heap (heap w ++ [df0]) w).
  assert (H1 : heap W1 !! length (heap w) = Some df0) by apply lookup_new.
  rewrite (bind_ok _ _ _ _ _ (deref_ok _ _ _ H1)), Hsrc.
  destruct src.
  - unfold bind at 1. cbn [ret].
    unfold getitem_columns.
    rewrite (bind_ok _ _ _ _ _ (bind_ok _ _ _ _ _ (deref_ok _ _ _ H1))).
    exists [df0]. cbn [ret]. subst W1. cbn [heap with_heap].
    destruct df0 as [c0 rs]. cbn in Hsrc. subst c0. reflexivity.
  - erewrite bind_ok; [|exact (to_crs_ok _ df0 EPSG32616 EPSG4326 W1 H1 Hsrc)].
    unfold getitem_columns.
    erewrite bind_ok.
    2:{ erewrite bind_ok; [|apply deref_ok; apply lookup_new]. reflexivity. }
    exists [df0; {| crs := Some EPSG4326;
                    rows := map (reproject EPSG32616 EPSG4326) (rows df0) |}].
    cbn [ret]. subst W1. cbn [heap with_heap]. rewrite <- !app_assoc.
    reflexivity.
Qed.

Lemma load_parcels_naive df0 w :
  crs df0 = None ->
  load_parcels (ReadFrame df0) w =
    (Ok None,
     with_ui (ui w ++ [StError ("Error loading parcel data: " +:+
                                exn_str NaiveGeometries)])
             (with_heap (heap w ++ [df0]) w)).
Proof.
  intros Hsrc. unfold load_parcels, try_except.
  unfold bind at 1. unfold alloc at 1.
  set (W1 := with_heap (heap w ++ [df0]) w).
  assert (H1 : heap W1 !! length (heap w) = Some df0) by apply lookup_new.
  rewrite (bind_ok _ _ _ _ _ (deref_ok _ _ _ H1)), Hsrc.
  rewrite (bind_raise _ _ _ _ _ (to_crs_naive _ df0 EPSG4326 W1 H1 Hsrc)).
  reflexivity.
Qed.

(** X13.  [load_parcels] never raises and never delivers a frame outside
    WGS84.  Either it returns a new frame in EPSG:4326, made from a file
    frame that had a CRS, with that frame's rows (reprojected when the file
    was in another CRS) and nothing is added to the page; or it returns
    [None] and exactly one error is added to the page (the "not found"
    message when the file is missing).  Session, files and the objects
    already in the store are left alone. *)
Theorem load_parcels_outcomes (read : ReadOutcome) (w : World) :
  let run := load_parcels read w in
  heap w `prefix_of` heap (snd run) /\
  session (snd run) = session w /\ files (snd run) = files w /\
  match fst run with
  | Ok (Some l) =>
      ui (snd run) = ui w /\ heap w !! l = None /\
      exists df0 src,
        read = ReadFrame df0 /\ crs df0 = Some src /\
        heap (snd run) !! l =
          Some {| crs := Some EPSG4326;
                  rows := match src with
                          | EPSG4326 => rows df0
                          | _ => map (reproject src EPSG4326) (rows df0)
                          end |}
  | Ok None =>
      exists msg,
        ui (snd run) = ui w ++ [StError msg] /\
        (read = FileNotFound -> msg = data_not_found_message)
  | Raise _ => False
  end.
Proof.
  intros run. subst run. destruct read as [df0| |e].
  - destruct (crs df0) as [src|] eqn:Hsrc.
    + destruct (load_parcels_reads df0 src w Hsrc) as [mid ->].
      cbn [fst snd heap ui session files with_heap].
      split; [rewrite <- app_assoc; apply prefix_app_r; reflexivity|].
      split; [reflexivity|]. split; [reflexivity|].
      split; [reflexivity|]. split.
      * apply lookup_ge_None. rewrite length_app. lia.
      * exists df0, src. repeat split; try assumption. apply lookup_new.
    + rewrite (load_parcels_naive df0 w Hsrc).
      cbn [fst snd heap ui session files with_heap with_ui].
      split; [apply prefix_app_r; reflexivity|].
      split; [reflexivity|]. split; [reflexivity|].
      eexists. split; [reflexivity | discriminate].
  - cbn. split; [reflexivity|]. split; [reflexivity|]. split; [reflexivity|].
    eexists. split; reflexivity.
  - cbn. split; [reflexivity|]. split; [reflexivity|]. split; [reflexivity|].
    eexists. split; [reflexivity | discriminate].
Qed.

Lemma main_filter_options_run gdf D w :
  heap w !! gdf = Some D ->
  main_filter_options gdf w =
    (Ok (get_filter_options
           (unique (dropna (map ZIPCODE (rows D))))
           (unique (dropna (map PLACENAME (rows D))))
           (unique (dropna (map SCHOOLDIST (rows D))))), w).
Proof.
  intros H. unfold main_filter_options.
  rewrite !(bind_ok _ _ _ _ _ (col_ok _ _ _ _ H)). reflexivity.
Qed.

(** X14.  The whole run, load included.  When the file is missing or
    unreadable, or its frame has no CRS, the run stops after the title and
    one error: the form is not evaluated, the session and the files are
    untouched.  When the file gives a frame with a CRS, the run is [main]
    on the loaded dataset: a new object in EPSG:4326, in a world that
    differs from the initial one by new objects only. *)
Theorem run_depends_on_the_load (read : ReadOutcome) (inp : FormInput)
    (metric : Metric) (w : World) :
  (read = FileNotFound \/ (exists e, read = ReadFailure e) \/
   (exists df0, read = ReadFrame df0 /\ crs df0 = None) ->
   exists msg w',
     main_with_load read inp metric w = (Ok tt, w') /\
     ui w' = ui w ++ [StTitle "Waukesha County Parcel Viewer"; StError msg] /\
     session w' = session w /\ files w' = files w) /\
  (forall df0 src,
     read = ReadFrame df0 -> crs df0 = Some src ->
     exists l D W,
       main_with_load read inp metric w = main l inp metric W /\
       heap W !! l = Some D /\ crs D = Some EPSG4326 /\
       length (rows D) = length (rows df0) /\
       heap w `prefix_of` heap W /\ heap w !! l = None /\
       ui W = ui w /\ session W = session w /\ files W = files w).
Proof.
  set (W0 := with_ui (ui w ++ [StTitle "Waukesha County Parcel Viewer"]) w).
  assert (Hmain : main_with_load read inp metric w =
                  bind (load_parcels read)
                    (fun gdf => match gdf with
                                | None => ret tt
                                | Some gdf =>
                                    bind (main_filter_options gdf) (fun _ =>
                                    bind (apply_filters_from_form gdf inp)
                                      (fun f => main_after_filter f metric))
                                end) W0) by reflexivity.
  split.
  - intros [-> | [[e ->] | [df0 [-> Hcrs]]]]; rewrite Hmain.
    + eexists _, _. split; [reflexivity|]. cbn. rewrite <- app_assoc.
      repeat split.
    + eexists _, _. split; [reflexivity|]. cbn. rewrite <- app_assoc.
      repeat split.
    + rewrite (bind_ok _ _ _ _ _ (load_parcels_naive df0 W0 Hcrs)).
      eexists _, _. split; [reflexivity|]. cbn. rewrite <- app_assoc.
      repeat split.
  - intros df0 src -> Hsrc. rewrite Hmain.
    destruct (load_parcels_reads df0 src W0 Hsrc) as [mid E].
    rewrite (bind_ok _ _ _ _ _ E). clear E.
    set (D := {| crs := Some EPSG4326;
                 rows := match src with
                         | EPSG4326 => rows df0
                         | EPSG32616 => map (reproject src EPSG4326) (rows df0)
                         end |}).
    set (l := length (heap W0 ++ mid)).
    set (W1 := with_heap ((heap W0 ++ mid) ++ [D]) W0).
    assert (H1 : heap W1 !! l = Some D) by apply lookup_new.
    rewrite (bind_ok _ _ _ _ _ (main_filter_options_run l D W1 H1)).
    exists l, D, (with_heap ((heap w ++ mid) ++ [D]) w).
    split; [reflexivity|]. split; [exact H1|]. split; [reflexivity|].
    split; [subst D; cbn; destruct src; rewrite ?length_map; reflexivity|].
    split; [cbn; rewrite <- app_assoc; apply prefix_app_r; reflexivity|].
    split; [apply lookup_ge_None; subst l W0; cbn; rewrite length_app; lia|].
    repeat split.
Qed.

(** ** The filter options *)

Lemma str_le_total : Total str_le.
Proof. intros s t. apply String.leb_total. Qed.

Lemma in_dropna (xs : list (option string)) v :
  In v (dropna xs) <-> In (Some v) xs.
Proof.
  unfold dropna. induction xs as [|[x|] xs IH]; cbn; [tauto| |].
  - rewrite IH. split; intros [H | H]; auto; left; congruence.
  - rewrite IH. split; [auto | intros [H | H]; [discriminate | exact H]].
Qed.

Lemma in_unique (xs : list string) v : In v (unique xs) <-> In v xs.
Proof.
  induction xs as [|x xs IH]; cbn; [tauto|].
  rewrite List.filter_In, IH. split.
  - intros [H | [H _]]; auto.
  - intros [H | H]; [left; exact H|].
    destruct (String.eqb x v) eqn:E;
      [left; apply String.eqb_eq; exact E | right; split; [exact H | reflexivity]].
Qed.

Lemma nodup_filter {A} (p : A -> bool) (l : list A) :
  List.NoDup l -> List.NoDup (List.filter p l).
Proof.
  induction 1 as [|x l Hx _ IH]; cbn; [constructor|].
  destruct (p x); [|exact IH]. constructor; [|exact IH].
  intros Hin. apply List.filter_In in Hin. tauto.
Qed.

Lemma nodup_unique (xs : list string) : List.NoDup (unique xs).
Proof.
  induction xs as [|x xs IH]; cbn; constructor.
  - intros Hin. apply List.filter_In in Hin as [_ Hne].
    rewrite String.eqb_refl in Hne. discriminate Hne.
  - apply nodup_filter. exact IH.
Qed.

Lemma sorted_facts (xs : list string) :
  Sorted str_le (sorted xs) /\
  (forall v, In v (sorted xs) <-> In v xs) /\
  length (sorted xs) = length xs /\
  (List.NoDup xs -> List.NoDup (sorted xs)).
Proof.
  unfold sorted.
  pose proof (merge_sort_Permutation str_le xs) as Hp.
  split; [apply (@Sorted_merge_sort _ str_le _ str_le_total)|].
  split; [|split].
  - intros v. rewrite <- !list_elem_of_In. rewrite Hp. reflexivity.
  - rewrite Hp. reflexivity.
  - rewrite <- !NoDup_ListNoDup. rewrite Hp. tauto.
Qed.

Lemma column_options (f : Row -> option string) (rs : list Row) :
  let opts := sorted (unique (dropna (map f rs))) in
  Sorted str_le opts /\ List.NoDup opts /\
  (forall v, In v opts <-> exists r, In r rs /\ f r = Some v).
Proof.
  intros opts. subst opts.
  destruct (sorted_facts (unique (dropna (map f rs)))) as [Hs [Hin [_ Hnd]]].
  split; [exact Hs|]. split; [apply Hnd, nodup_unique|].
  intros v. rewrite Hin, in_unique, in_dropna, List.in_map_iff.
  split; intros [r [H1 H2]]; exists r; tauto.
Qed.

(** X15.  The options [main] derives for the form (lines 209-213 with
    [get_filter_options]): for zip codes, place names and school districts
    alike, the offered list is sorted in string order, has no duplicate,
    and holds exactly the non-null values that occur in that column of the
    dataset; the market-value bounds are 0 and 1000000000 whatever the
    data.  The dataset and the rest of the world are left as they were. *)
Theorem filter_options_index_the_dataset (gdf : loc) (D : GeoDataFrame)
    (w : World) :
  heap w !! gdf = Some D ->
  exists opts,
    main_filter_options gdf w = (Ok opts, w) /\
    (Sorted str_le (o_zipcodes opts) /\ List.NoDup (o_zipcodes opts) /\
     forall v, In v (o_zipcodes opts) <->
               exists r, In r (rows D) /\ ZIPCODE r = Some v) /\
    (Sorted str_le (o_placenames opts) /\ List.NoDup (o_placenames opts) /\
     forall v, In v (o_placenames opts) <->
               exists r, In r (rows D) /\ PLACENAME r = Some v) /\
    (Sorted str_le (o_schooldists opts) /\ List.NoDup (o_schooldists opts) /\
     forall v, In v (o_schooldists opts) <->
               exists r, In r (rows D) /\ SCHOOLDIST r = Some v) /\
    o_estfmkvalu_min opts = 0%Z /\ o_estfmkvalu_max opts = 1000000000%Z.
Proof.
  intros H. eexists. split; [exact (main_filter_options_run gdf D w H)|].
  cbn [get_filter_options o_zipcodes o_placenames o_schooldists
       o_estfmkvalu_min o_estfmkvalu_max].
  split; [apply (column_options ZIPCODE)|].
  split; [apply (column_options PLACENAME)|].
  split; [apply (column_options SCHOOLDIST)|].
  split; reflexivity.
Qed.

(** X16.  [get_filter_options] on any three lists: each returned list is
    sorted, is a rearrangement of the list passed in (nothing dropped,
    nothing added, duplicates kept), and the two bounds are constants. *)
Theorem get_filter_options_sorts (zipcodes placenames schooldists : list string) :
  let opts := get_filter_options zipcodes placenames schooldists in
  Sorted str_le (o_zipcodes opts) /\ o_zipcodes opts ≡ₚ zipcodes /\
  Sorted str_le (o_placenames opts) /\ o_placenames opts ≡ₚ placenames /\
  Sorted str_le (o_schooldists opts) /\ o_schooldists opts ≡ₚ schooldists /\
  o_estfmkvalu_min opts = 0%Z /\ o_estfmkvalu_max opts = 1000000000%Z.
Proof.
  intros opts. subst opts. cbn. unfold sorted.
  repeat split;
    first [apply (@Sorted_merge_sort _ str_le _ str_le_total)
          | apply merge_sort_Permutation].
Qed.

End StartupMore.

(** ** More on the owner clause and on datasets without CRS *)

Section ClausesMore.

Context `{GB : GeoBackend} `{PF : PyFormat}.

Lemma plain_owner_ok (pat : string) : Re.plain pat = true -> owner_ok pat = true.
Proof. intros H. unfold owner_ok. rewrite (plain_compile pat H). reflexivity. Qed.

(** X17.  On ASCII text (the query and the owner names of the dataset),
    for an owner query without regular-expression special characters the
    owner clause is case-insensitive substring containment: a row of the
    dataset passes it exactly when its owner name is not null and contains
    the query, letter case ignored; consequently every record a call
    returns (for a radius, if any, that gives a finite distance) has such
    an owner name.  Outside ASCII Python's matching folds case over all of
    Unicode, which [Text.icontains] does not describe. *)
Theorem plain_owner_query_is_containment (gdf : loc) (c : FilterCriteria)
    (D : GeoDataFrame) (src : CRS) (w : World) :
  heap w !! gdf = Some D ->
  crs D = Some src ->
  Re.plain (c_owner c) = true ->
  c_owner c <> "" ->
  Text.isascii (c_owner c) = true ->
  ascii_owners D = true ->
  finite_radius c = true ->
  (forall r, In r (rows D) ->
             owner_clause c r =
             match OWNERNME1 r with
             | Some s => Text.icontains (c_owner c) s
             | None => false
             end) /\
  exists F,
    result_of (filter_by gdf c w) = Some F /\
    forall t, In t (records F) ->
      exists s, t_owner t = Some s /\ Text.icontains (c_owner c) s = true.
Proof.
  intros HD Hsrc Hplain Hne _ _ _.
  assert (Hclause : forall r, owner_clause c r =
                              match OWNERNME1 r with
                              | Some s => Text.icontains (c_owner c) s
                              | None => false
                              end).
  { intros r. unfold owner_clause.
    destruct (c_owner c) as [|ch q] eqn:E; [congruence|].
    cbn [Text.truthy]. rewrite <- E in *. apply owner_matches_plain.
    exact Hplain. }
  split; [intros r _; exact (Hclause r)|].
  destruct (filter_by_sound gdf c D src w HD Hsrc (plain_owner_ok _ Hplain))
    as [F [HF [_ [Hin _]]]].
  exists F. split; [exact HF|]. intros t Ht.
  destruct (Hin t Ht) as [r [_ [Hsat ->]]].
  apply satisfies_clauses in Hsat as [_ [Ho _]].
  rewrite Hclause in Ho. cbn [table_row t_owner].
  destruct (OWNERNME1 r) as [s|]; [eauto | discriminate Ho].
Qed.

(** X18.  On a frame without CRS, a call with a proximity query inside the
    region raises at the reprojection ([to_crs] on naive geometries), after
    the attribute stage; the objects that were in the store are as
    before. *)
Theorem naive_dataset_cannot_be_located (gdf : loc) (c : FilterCriteria)
    (D : GeoDataFrame) (w : World) (lat lon radius_miles : float) :
  heap w !! gdf = Some D ->
  crs D = None ->
  owner_ok (c_owner c) = true ->
  c_lat c = Some lat -> c_lon c = Some lon -> c_radius c = Some radius_miles ->
  in_region lat lon = true ->
  Num.truthy radius_miles = true ->
  fst (filter_by gdf c w) = Raise NaiveGeometries /\
  heap w `prefix_of` heap (snd (filter_by gdf c w)) /\
  result_of (predicate_filter gdf c w) = Some (selected D c).
Proof.
  intros HD Hcrs Hown Hla Hlo Hra Hreg Hrad.
  destruct (in_region_truthy _ _ Hreg) as [Hlat Hlon].
  split; [|split].
  - apply (filter_by_naive gdf c D w lat lon radius_miles); try assumption.
    unfold proximity_query. rewrite Hla, Hlo, Hra, Hlat, Hlon, Hrad.
    reflexivity.
  - apply (preserves_filter_parcels (heap w)). reflexivity.
  - rewrite (predicate_filter_run gdf c D w HD Hown). cbn. apply lookup_new.
Qed.

End ClausesMore.

(** ** The further properties on the sample data *)

Section OnSamplesMore.

#[local] Existing Instance planar_backend.
#[local] Existing Instance planar_format.
#[local] Existing Instance sample_exn_text.

Local Open Scope float_scope.

Lemma result_is_sound_witness :
  heap sample_world !! 0%nat = Some sample_frame /\
  crs sample_frame = Some EPSG4326 /\
  owner_ok (c_owner near_centre) = true /\
  finite_radius near_centre = true /\
  exists F,
    result_of (filter_by 0%nat near_centre sample_world) = Some F /\
    records F `sublist_of`
      map table_row (List.filter (satisfies near_centre) (rows sample_frame)) /\
    (forall t, In t (records F) ->
       exists r, In r (rows sample_frame) /\ satisfies near_centre r = true /\
                 t = table_row r) /\
    (length (rows F) <= length (rows sample_frame))%nat.
Proof.
  assert (Hfin : finite_radius near_centre = true) by (vm_compute; reflexivity).
  split; [reflexivity|]. split; [reflexivity|]. split; [reflexivity|].
  split; [exact Hfin|].
  exact (result_is_sound 0%nat near_centre sample_frame EPSG4326 sample_world
           eq_refl eq_refl eq_refl Hfin).
Defined.

(** A frame with a parcel whose acreage and value are NaN. *)
Lemma missing_values_are_dropped_witness :
  let D := {| crs := Some EPSG4326; rows := [smith; unvalued] |} in
  heap (world_of [D]) !! 0%nat = Some D /\
  is_nan (GISACRES unvalued) /\
  exists F,
    result_of (filter_by 0%nat no_restriction (world_of [D])) = Some F /\
    forall t, In t (records F) -> ~ is_nan (t_acres t).
Proof.
  intros D. split; [reflexivity|]. split; [vm_compute; reflexivity|].
  destruct (missing_values_are_dropped 0%nat no_restriction D EPSG4326
              (world_of [D]) eq_refl eq_refl eq_refl) as [F [HF Hall]].
  exists F. split; [exact HF|]. intros t Ht. exact (proj1 (Hall t Ht)).
Defined.

Lemma inverted_range_selects_nothing_witness :
  heap sample_world !! 0%nat = Some sample_frame /\
  Num.flt (c_acres_max (with_acres 10 0.5 no_restriction))
          (c_acres_min (with_acres 10 0.5 no_restriction)) /\
  exists F,
    result_of (filter_by 0%nat (with_acres 10 0.5 no_restriction) sample_world)
      = Some F /\ rows F = [].
Proof.
  assert (Hinv : Num.flt (c_acres_max (with_acres 10 0.5 no_restriction))
                         (c_acres_min (with_acres 10 0.5 no_restriction)))
    by (vm_compute; reflexivity).
  split; [reflexivity|]. split; [exact Hinv|].
  exact (inverted_range_selects_nothing 0%nat (with_acres 10 0.5 no_restriction)
           sample_frame EPSG4326 sample_world eq_refl eq_refl eq_refl
           (or_introl Hinv)).
Defined.

Lemma result_is_a_new_object_witness :
  let run := filter_parcels 0%nat 0 1000 "" [] [] [] None None None None None
               sample_world in
  run = (Ok 2%nat, snd run) /\
  heap sample_world !! 2%nat = None /\ 2%nat <> 0%nat.
Proof.
  intros run.
  assert (Hrun : run = (Ok 2%nat, snd run)) by (vm_compute; reflexivity).
  split; [exact Hrun|].
  exact (result_is_a_new_object 0%nat 0 1000 "" [] [] [] None None None None
           None sample_world (snd run) 2%nat Hrun).
Defined.

Lemma markers_policy_witness :
  let df := annotated sample_frame in
  has_popups df = true /\
  (length (rows df) < 200)%nat /\
  exists m,
    file_content "temp_map.html"
      (snd (generate_map_html (Some 0%nat) None (world_of [df]))) = Some m /\
    map snd (markers m) = map (fun r => Some (popup_text r)) (rows sample_frame).
Proof.
  intros df.
  assert (Hpop : has_popups df = true) by (vm_compute; reflexivity).
  assert (Hlt : (length (rows df) < 200)%nat) by (vm_compute; lia).
  split; [exact Hpop|]. split; [exact Hlt|].
  destruct (markers_policy 0%nat df None (world_of [df]) eq_refl Hpop)
    as [m [Hfile [Hfew _]]].
  exists m. split; [exact Hfile|]. rewrite (Hfew Hlt). reflexivity.
Defined.

Lemma map_generation_writes_one_file_witness :
  "default_map.html" <> "temp_map.html" /\
  file_content "default_map.html"
    (snd (generate_map_html (Some 0%nat) None shown_world)) =
  file_content "default_map.html" shown_world.
Proof.
  assert (Hne : "default_map.html" <> "temp_map.html") by discriminate.
  split; [exact Hne|].
  destruct (map_generation_writes_one_file (Some 0%nat) None shown_world)
    as [_ [_ [_ [Hother _]]]].
  exact (Hother "default_map.html" Hne).
Defined.

Lemma cleanup_removes_the_map_file_witness :
  is_Some (file_content "temp_map.html" shown_world) /\
  file_content "temp_map.html" (snd (cleanup shown_world)) = None /\
  heap (snd (cleanup shown_world)) = heap shown_world.
Proof.
  split; [vm_compute; eauto|].
  destruct (cleanup_removes_the_map_file shown_world)
    as [_ [Hgone [_ [Hheap _]]]].
  split; [exact Hgone | exact Hheap].
Defined.

Lemma apply_shows_the_result_witness :
  heap sample_world !! 0%nat = Some sample_frame /\
  apply_filters default_form = true /\
  exists F evs l w',
    filter_result sample_frame (criteria_of_form default_form) = Some (F, evs) /\
    main 0%nat default_form MGISACRES sample_world = (Ok tt, w') /\
    ui w' = ui sample_world ++ [StTitle "Waukesha County Parcel Viewer"] ++
            evs ++ page_events F MGISACRES /\
    session w' = page_session l F /\
    heap w' !! l = Some F /\
    heap sample_world `prefix_of` heap w'.
Proof.
  split; [reflexivity|]. split; [reflexivity|].
  exact (apply_shows_the_result 0%nat default_form MGISACRES sample_frame
           EPSG4326 sample_world eq_refl eq_refl eq_refl eq_refl).
Defined.

Lemma out_of_region_page_witness :
  let inp := with_distance 45 (-88) 1 default_form in
  heap sample_world !! 0%nat = Some sample_frame /\
  in_region (lat_input inp) (lon_input inp) = false /\
  exists w',
    main 0%nat inp MGISACRES sample_world = (Ok tt, w') /\
    ui w' = ui sample_world ++
      [StTitle "Waukesha County Parcel Viewer";
       StError "Coordinates out of valid range for Waukesha County.";
       StWarning "No parcels match your filters.";
       ComponentsHtml base_map;
       SidebarWrite "Showing 0 parcels"].
Proof.
  intros inp.
  assert (Hreg : in_region (lat_input inp) (lon_input inp) = false)
    by (vm_compute; reflexivity).
  split; [reflexivity|]. split; [exact Hreg|].
  destruct (out_of_region_page 0%nat inp MGISACRES sample_frame sample_world
              eq_refl eq_refl eq_refl eq_refl)
    as [w' [Hrun [Hui _]]]; try (vm_compute; reflexivity).
  exists w'. split; [exact Hrun | exact Hui].
Defined.

Lemma reset_clears_the_page_witness :
  let inp := with_buttons false true default_form in
  apply_filters inp = false /\ reset_filters inp = true /\
  exists w',
    main 0%nat inp MGISACRES shown_world = (Ok tt, w') /\
    session w' = reset_session /\
    ui w' = ui shown_world ++ [StTitle "Waukesha County Parcel Viewer";
                               ComponentsHtml base_map] /\
    heap w' = heap shown_world.
Proof.
  intros inp. split; [reflexivity|]. split; [reflexivity|].
  exact (reset_clears_the_page 0%nat inp MGISACRES shown_world eq_refl eq_refl).
Defined.

Lemma shown_world_ok : session_ok shown_world.
Proof.
  unfold session_ok.
  replace (filtered_gdf (session shown_world)) with (Some 0%nat)
    by (vm_compute; reflexivity).
  exists sample_frame. split; vm_compute; reflexivity.
Defined.

Lemma rerun_shows_the_retained_result_witness :
  let inp := with_buttons false false default_form in
  session_ok shown_world /\
  exists w',
    main 0%nat inp MGISACRES shown_world = (Ok tt, w') /\
    session w' = session shown_world /\ heap w' = heap shown_world.
Proof.
  intros inp. split; [exact shown_world_ok|].
  destruct (rerun_shows_the_retained_result 0%nat inp MGISACRES shown_world
              shown_world_ok eq_refl eq_refl) as [w' [Hrun [Hs [Hh _]]]].
  exists w'. repeat split; assumption.
Defined.

Lemma session_stays_well_formed_witness :
  session_ok shown_world /\
  heap shown_world !! 0%nat = Some sample_frame /\
  exists w',
    main 0%nat default_form MGISACRES shown_world = (Ok tt, w') /\
    session_ok w' /\
    heap shown_world `prefix_of` heap w'.
Proof.
  assert (HD : heap shown_world !! 0%nat = Some sample_frame)
    by (vm_compute; reflexivity).
  split; [exact shown_world_ok|]. split; [exact HD|].
  exact (session_stays_well_formed 0%nat default_form MGISACRES sample_frame
           EPSG4326 shown_world shown_world_ok HD eq_refl eq_refl).
Defined.

(** A file in the metric CRS is delivered in WGS84; a missing file is
    reported. *)
Lemma load_parcels_outcomes_witness :
  fst (load_parcels (ReadFrame metric_frame) (world_of [])) = Ok (Some 2%nat) /\
  crs <$> (heap (snd (load_parcels (ReadFrame metric_frame) (world_of [])))
             !! 2%nat) = Some (Some EPSG4326) /\
  ui (snd (load_parcels FileNotFound (world_of []))) =
    [StError "Parcel data file not found. Please ensure 'optimized.parquet' exists."].
Proof.
  pose proof (load_parcels_outcomes (ReadFrame metric_frame) (world_of []))
    as [_ [_ [_ Hmatch]]].
  assert (Hfst : fst (load_parcels (ReadFrame metric_frame) (world_of []))
                 = Ok (Some 2%nat)) by (vm_compute; reflexivity).
  rewrite Hfst in Hmatch.
  destruct Hmatch as [_ [_ [df0 [src [_ [_ Hl]]]]]].
  split; [exact Hfst|].
  split; [exact (eq_trans (f_equal (fmap crs) Hl) eq_refl)|].
  pose proof (load_parcels_outcomes FileNotFound (world_of []))
    as [_ [_ [_ Hnone]]].
  assert (Hnf : fst (load_parcels FileNotFound (world_of [])) = Ok None)
    by reflexivity.
  rewrite Hnf in Hnone. destruct Hnone as [msg [Hui Hmsg]].
  exact (eq_trans Hui (f_equal (fun m => ui (world_of []) ++ [StError m])
                         (Hmsg eq_refl))).
Defined.

Lemma run_depends_on_the_load_witness :
  exists msg w',
    main_with_load FileNotFound default_form MGISACRES sample_world
      = (Ok tt, w') /\
    ui w' = ui sample_world ++
            [StTitle "Waukesha County Parcel Viewer"; StError msg] /\
    session w' = session sample_world /\ files w' = files sample_world.
Proof.
  exact (proj1 (run_depends_on_the_load FileNotFound default_form MGISACRES
                  sample_world) (or_introl eq_refl)).
Defined.

Lemma filter_options_index_the_dataset_witness :
  heap sample_world !! 0%nat = Some sample_frame /\
  exists opts,
    main_filter_options 0%nat sample_world = (Ok opts, sample_world) /\
    o_placenames opts = ["CITY OF WAUKESHA"; "TOWN OF LISBON"] /\
    Sorted str_le (o_placenames opts).
Proof.
  split; [reflexivity|].
  destruct (filter_options_index_the_dataset 0%nat sample_frame sample_world
              eq_refl) as [opts [Hrun [_ [[Hs _] _]]]].
  exists opts. split; [exact Hrun|]. split; [|exact Hs].
  assert (E : main_filter_options 0%nat sample_world =
              (Ok (get_filter_options ["53186"; "53089"]
                     ["CITY OF WAUKESHA"; "TOWN OF LISBON"]
                     ["WAUKESHA"; "HAMILTON"]), sample_world))
    by (vm_compute; reflexivity).
  rewrite E in Hrun. injection Hrun as <-. vm_compute. reflexivity.
Defined.

Lemma plain_owner_query_is_containment_witness :
  let c := with_owner "smith" no_restriction in
  heap sample_world !! 0%nat = Some sample_frame /\
  Re.plain (c_owner c) = true /\ c_owner c <> "" /\
  Text.isascii (c_owner c) = true /\ ascii_owners sample_frame = true /\
  finite_radius c = true /\
  exists F,
    result_of (filter_by 0%nat c sample_world) = Some F /\
    forall t, In t (records F) ->
      exists s, t_owner t = Some s /\ Text.icontains (c_owner c) s = true.
Proof.
  intros c. assert (Hne : c_owner c <> "") by discriminate.
  split; [reflexivity|]. split; [reflexivity|]. split; [exact Hne|].
  split; [reflexivity|]. split; [reflexivity|]. split; [reflexivity|].
  exact (proj2 (plain_owner_query_is_containment 0%nat c sample_frame EPSG4326
                  sample_world eq_refl eq_refl eq_refl Hne
                  eq_refl eq_refl eq_refl)).
Defined.

Lemma naive_dataset_cannot_be_located_witness :
  let D := {| crs := None; rows := [smith] |} in
  heap (world_of [D]) !! 0%nat = Some D /\ crs D = None /\
  in_region 43.0111125 (-88.2275077) = true /\
  fst (filter_by 0%nat near_centre (world_of [D])) = Raise NaiveGeometries.
Proof.
  intros D.
  assert (Hreg : in_region 43.0111125 (-88.2275077) = true)
    by (vm_compute; reflexivity).
  split; [reflexivity|]. split; [reflexivity|]. split; [exact Hreg|].
  refine (proj1 (naive_dataset_cannot_be_located 0%nat near_centre D
                   (world_of [D]) 43.0111125 (-88.2275077) 3
                   eq_refl eq_refl eq_refl eq_refl eq_refl eq_refl Hreg _)).
  vm_compute. reflexivity.
Defined.

End OnSamplesMore.

(** ** The form within the limits of its widgets *)

Section FormLimits.

Context `{GB : GeoBackend} `{PF : PyFormat}.

Local Open Scope float_scope.

Lemma leb_tenth_truthy (x : float) : (0.1 <=? x) = true -> Num.truthy x = true.
Proof.
  intros H. unfold Num.truthy. destruct (x =? 0) eqn:E; [|reflexivity].
  apply eqb_zero_inv in E as [s E].
  rewrite FloatAxioms.leb_spec, E in H. destruct s; vm_compute in H; discriminate.
Qed.

Lemma within_limits_query (inp : FormInput) :
  within_limits inp = true ->
  use_distance inp = true ->
  proximity_query (Some (lat_input inp)) (Some (lon_input inp))
                  (Some (distance_slider inp))
    = Some (lat_input inp, lon_input inp, distance_slider inp) /\
  in_region (lat_input inp) (lon_input inp) = true.
Proof.
  unfold within_limits. intros H Hd. rewrite Hd in H. cbn [negb orb] in H.
  repeat (apply andb_true_iff in H as [H ?]).
  split.
  - unfold proximity_query.
    rewrite (leb_42_truthy _ H), (leb_m87_truthy (lon_input inp)),
            (leb_tenth_truthy (distance_slider inp)) by assumption.
    reflexivity.
  - unfold in_region. repeat (apply andb_true_iff; split); assumption.
Qed.

Lemma page_events_no_error (df : GeoDataFrame) (metric : Metric) (msg : string) :
  ~ In (StError msg) (page_events df metric).
Proof.
  unfold page_events.
  destruct (negb (empty df)), (truncated df); cbn; intuition discriminate.
Qed.

(** X19.  The limits of the form's widgets keep the out-of-range branch
    from being reached.  For a form applied with values inside the limits
    of its widgets, on a dataset with a CRS: with the distance box ticked
    the proximity stage always takes part (latitude, longitude and distance
    are non-zero and the point is in the region), so the page shows the
    parcels within that distance of the point among those passing the
    attribute clauses; without it, the parcels passing the attribute
    clauses.  In both cases the run adds no error to the page. *)
Theorem form_within_limits_is_located (gdf : loc) (inp : FormInput)
    (metric : Metric) (D : GeoDataFrame) (src : CRS) (w : World) :
  heap w !! gdf = Some D ->
  crs D = Some src ->
  owner_ok (owner_input inp) = true ->
  apply_filters inp = true ->
  within_limits inp = true ->
  let c := criteria_of_form inp in
  let F := annotated
             (if use_distance inp
              then located src (selected D c) (lat_input inp) (lon_input inp)
                           (distance_slider inp)
              else selected D c) in
  exists l w',
    main gdf inp metric w = (Ok tt, w') /\
    ui w' = ui w ++ [StTitle "Waukesha County Parcel Viewer"] ++
            page_events F metric /\
    session w' = page_session l F /\
    heap w' !! l = Some F /\
    (forall msg, In (StError msg) (ui w') -> In (StError msg) (ui w)).
Proof.
  intros HD Hsrc Hown Ha Hlim c F.
  assert (HF : filter_result D c = Some (F, [])).
  { unfold filter_result, F, c. cbn [criteria_of_form c_lat c_lon c_radius].
    destruct (use_distance inp) eqn:Hd.
    - destruct (within_limits_query inp Hlim Hd) as [-> ->].
      rewrite Hsrc. reflexivity.
    - reflexivity. }
  destruct (apply_page gdf inp metric D F [] w HD Hown Ha HF)
    as [l [w' [Hrun [Hui [Hses [Hl _]]]]]].
  exists l, w'. refine (conj Hrun (conj Hui (conj Hses (conj Hl _)))).
  intros msg Hin. rewrite Hui in Hin.
  apply in_app_or in Hin as [H | H]; [exact H|].
  apply in_app_or in H as [[H | []] | H]; [discriminate H|].
  exfalso. exact (page_events_no_error _ _ _ H).
Qed.

End FormLimits.

Section FormLimitsSample.

#[local] Existing Instance planar_backend.
#[local] Existing Instance planar_format.

Local Open Scope float_scope.

Lemma form_within_limits_is_located_witness :
  exists l w',
    main 0%nat (with_distance 43.0111125 (-88.2275077) 3 default_form)
         MGISACRES sample_world = (Ok tt, w') /\
    session w' =
      page_session l
        (annotated
           (located EPSG4326
              (selected sample_frame
                 (criteria_of_form
                    (with_distance 43.0111125 (-88.2275077) 3 default_form)))
              43.0111125 (-88.2275077) 3)).
Proof.
  destruct (form_within_limits_is_located 0%nat
              (with_distance 43.0111125 (-88.2275077) 3 default_form)
              MGISACRES sample_frame EPSG4326 sample_world
              eq_refl eq_refl eq_refl eq_refl eq_refl)
    as [l [w' [Hrun [_ [Hses _]]]]].
  exists l, w'. split; [exact Hrun | exact Hses].
Defined.

End FormLimitsSample.
